(** * Y-chromosomal microdeletion classifier (classify-Y-del.py)

    A shallow embedding of the classification engine of
    [classify-Y-del.py] and the proofs of its specification.

    The Python functions work on dictionaries and lists that live on the
    interpreter's heap: the marker panel is passed by reference, the
    configuration tables are module-level objects, and the extension
    analysis builds and mutates a result dictionary.  The embedding keeps
    that shape: a heap of objects, a state-and-exception monad, and one
    Rocq definition per Python function, written statement by statement. *)

From Stdlib Require Import String Ascii.
From stdpp Require Import base option list gmap strings fin_maps pretty.

Open Scope string_scope.

(** ** Values, objects and the heap *)

(** Heap addresses.  The heap is a list of objects and a new object is
    appended at the end, so an address is an index. *)
Abbreviation loc := nat.

(** Python values the engine manipulates: [None], booleans, strings and
    references to heap objects (dictionaries and lists). *)
Inductive val : Type :=
  | VNone
  | VBool (b : bool)
  | VStr (s : string)
  | VRef (l : loc).

#[global] Instance val_eq_dec : EqDecision val.
Proof. solve_decision. Defined.

(** String literals are read as Python string values. *)
Coercion VStr : string >-> val.

(** Heap objects: a dictionary with string keys, or a list. *)
Inductive obj : Type :=
  | ODict (d : gmap string val)
  | OList (xs : list val).

Abbreviation heap := (list obj).

(** Exceptions the modelled operations can raise. *)
Inductive exn : Type :=
  | KeyError (k : string)
  | TypeError.

(** Result of running a computation: a value and the new heap, or an
    exception. *)
Inductive outcome (A : Type) : Type :=
  | Ret (a : A) (h : heap)
  | Raise (e : exn).
Arguments Ret {A} a h.
Arguments Raise {A} e.

(** ** The state-and-exception monad *)

Definition M (A : Type) : Type := heap -> outcome A.

Definition ret {A} (a : A) : M A := fun h => Ret a h.

Definition raise {A} (e : exn) : M A := fun _ => Raise e.

Definition bind {A B} (c : M A) (f : A -> M B) : M B :=
  fun h => match c h with
           | Ret a h' => f a h'
           | Raise e => Raise e
           end.

Declare Scope py_scope.
Delimit Scope py_scope with py.
Notation "x <- c ;; k" := (bind c (fun x => k))
  (at level 100, c at next level, right associativity) : py_scope.
Notation "c ;;; k" := (bind c (fun _ => k))
  (at level 100, right associativity) : py_scope.
Open Scope py_scope.

(** ** Python primitives *)

(** Truth value of a scalar: [None], [False] and the empty string are
    false.  The engine tests a container for emptiness in one place
    only, [if missing_expected:], modelled by [list_truthy] below; the
    values tested through [truthy] are a panel status and the
    [complete] flag, so a reference is given the value true here. *)
Definition truthy (v : val) : bool :=
  match v with
  | VNone => false
  | VBool b => b
  | VStr s => negb (String.eqb s "")
  | VRef _ => true
  end.

(** [v == w] on the values the engine compares (strings, [None]). *)
Definition py_eq (v w : val) : bool := bool_decide (v = w).

(** [v != w]. *)
Definition py_ne (v w : val) : bool := negb (py_eq v w).

(** A fresh object, e.g. a dictionary or list display. *)
Definition alloc (o : obj) : M val :=
  fun h => Ret (VRef (length h)) (h ++ [o]).

(** Read the dictionary a value refers to; [TypeError] otherwise. *)
Definition the_dict (target : val) : M (gmap string val) :=
  fun h => match target with
           | VRef l => match h !! l with
                       | Some (ODict d) => Ret d h
                       | _ => Raise TypeError
                       end
           | _ => Raise TypeError
           end.

(** Read the list a value refers to; [TypeError] otherwise. *)
Definition the_list (target : val) : M (list val) :=
  fun h => match target with
           | VRef l => match h !! l with
                       | Some (OList xs) => Ret xs h
                       | _ => Raise TypeError
                       end
           | _ => Raise TypeError
           end.

(** A dictionary key: the engine's dictionaries are keyed by strings,
    so a key of another type is found in none of them. *)
Definition find (d : gmap string val) (key : val) : option val :=
  match key with
  | VStr k => d !! k
  | _ => None
  end.

Definition key_name (key : val) : string :=
  match key with
  | VStr k => k
  | _ => ""
  end.

(** [target.get(key)]. *)
Definition dict_get (target key : val) : M val :=
  d <- the_dict target ;; ret (default VNone (find d key)).

(** [target.get(key, dflt)]; the default is evaluated by the caller. *)
Definition dict_get_default (target key dflt : val) : M val :=
  d <- the_dict target ;; ret (default dflt (find d key)).

(** [key in target]. *)
Definition dict_contains (target key : val) : M bool :=
  d <- the_dict target ;; ret (bool_decide (is_Some (find d key))).

(** [target[key]]: raises [KeyError] when the key is missing. *)
Definition dict_subscript (target key : val) : M val :=
  d <- the_dict target ;;
  match find d key with
  | Some v => ret v
  | None => raise (KeyError (key_name key))
  end.

(** [target[key] = v]: updates the dictionary in place. *)
Definition dict_setitem (target : val) (key : string) (v : val) : M unit :=
  fun h => match target with
           | VRef l => match h !! l with
                       | Some (ODict d) =>
                           Ret tt (<[l := ODict (<[key := v]> d)]> h)
                       | _ => Raise TypeError
                       end
           | _ => Raise TypeError
           end.

(** [target.append(v)]: extends the list in place. *)
Definition list_append (target : val) (v : val) : M unit :=
  fun h => match target with
           | VRef l => match h !! l with
                       | Some (OList xs) =>
                           Ret tt (<[l := OList (xs ++ [v])]> h)
                       | _ => Raise TypeError
                       end
           | _ => Raise TypeError
           end.

(** [bool(target)] for a list: true when it is not empty. *)
Definition list_truthy (target : val) : M bool :=
  xs <- the_list target ;; ret (negb (bool_decide (xs = []))).

(** The string of a value inside an f-string or [join]; the engine
    only ever formats strings. *)
Definition the_str (v : val) : M string :=
  match v with
  | VStr s => ret s
  | _ => raise TypeError
  end.

(** [sep.join(target)] for a list of strings. *)
Fixpoint join_strs (sep : string) (xs : list string) : string :=
  match xs with
  | [] => ""
  | [x] => x
  | x :: rest => x ++ sep ++ join_strs sep rest
  end.

Fixpoint strs_of (xs : list val) : M (list string) :=
  match xs with
  | [] => ret []
  | x :: rest => s <- the_str x ;; ss <- strs_of rest ;; ret (s :: ss)
  end.

Definition str_join (sep : string) (target : val) : M string :=
  xs <- the_list target ;; ss <- strs_of xs ;; ret (join_strs sep ss).

(** [a and b] and [a or b] on boolean conditions, evaluating [b] only
    when needed. *)
Definition py_and (a b : M bool) : M bool :=
  x <- a ;; if x then b else ret false.

Definition py_or (a b : M bool) : M bool :=
  x <- a ;; if x then ret true else b.

(** [a or b] on values: [a] when it is true, else [b]. *)
Definition py_or_val (a b : M val) : M val :=
  x <- a ;; if truthy x then ret x else b.

(** [target.get(key) == s]. *)
Definition get_eq (target key : val) (s : string) : M bool :=
  v <- dict_get target key ;; ret (py_eq v s).

(** [target[k1][k2]] and [target[k1][k2] = v]. *)
Definition dict_subscript2 (target : val) (k1 k2 : string) : M val :=
  inner <- dict_subscript target k1 ;; dict_subscript inner k2.

Definition dict_setitem2 (target : val) (k1 k2 : string) (v : val) : M unit :=
  inner <- dict_subscript target k1 ;; dict_setitem inner k2 v.

(** ** Module-level tables *)

(** The marker lists of [BASIC_MARKERS] and [EXPECTED_PRESENT_MARKERS],
    as written in the source. *)
Definition AZFa_basic : list string := ["sY84"; "sY86"].
Definition AZFb_basic : list string := ["sY127"; "sY134"].
Definition AZFc_basic : list string := ["sY254"; "sY255"].

Definition expected_present : list string :=
  ["sY14"; "sY82"; "sY88"; "sY105"; "sY153"; "sY160"; "sY1191"; "ZFX/ZFY"].

Definition str_list (xs : list string) : obj := OList (VStr <$> xs).

(** The module's global names the engine reads, bound to heap objects. *)
Record module_env : Type := {
  BASIC_MARKERS : val;
  EXPECTED_PRESENT_MARKERS : val
}.

(** Execution of the module's top-level assignments to these tables. *)
Definition module_init : M module_env :=
  azfa <- alloc (str_list AZFa_basic) ;;
  azfb <- alloc (str_list AZFb_basic) ;;
  azfc <- alloc (str_list AZFc_basic) ;;
  basic <- alloc (ODict {[ "AZFa" := azfa; "AZFb" := azfb; "AZFc" := azfc ]}) ;;
  expected <- alloc (str_list expected_present) ;;
  ret {| BASIC_MARKERS := basic; EXPECTED_PRESENT_MARKERS := expected |}.

(** ** The engine *)

Section Engine.

Variable G : module_env.

(** [check_control_markers], lines 126-145. *)
Definition check_control_markers (markers : val) : M (bool * string) :=
  zfxy_status <- py_or_val (dict_get markers "ZFX/ZFY")
                           (dict_get markers "ZFX/Y") ;;
  if negb (truthy zfxy_status) then
    ret (false, "CRITICAL: ZFX/ZFY control marker not tested - cannot validate results")
  else if py_ne zfxy_status "present" then
    ret (false, "CRITICAL: ZFX/ZFY control marker absent - technical failure or sample issue")
  else
    tested <- dict_contains markers "sY14" ;;
    if negb tested then
      ret (false, "CRITICAL: sY14 (SRY) marker not tested - cannot determine sex chromosome status")
    else
      ret (true, "Control markers valid").

(** The [for] loop of [check_basic_deletion], lines 155-161: [false] at
    the first marker that is untested or not absent, [true] after the
    last one.  The loop body writes nothing, so the loop runs over the
    items the list had when the loop started. *)
Fixpoint check_basic_deletion_loop (markers : val) (region_markers : list val)
  : M bool :=
  match region_markers with
  | [] => ret true
  | marker :: rest =>
      tested <- dict_contains markers marker ;;
      if negb tested then ret false
      else
        status <- dict_subscript markers marker ;;
        if py_ne status "absent" then ret false
        else check_basic_deletion_loop markers rest
  end.

(** [check_basic_deletion], lines 148-161. *)
Definition check_basic_deletion (markers : val) (region : string) : M bool :=
  known <- dict_contains (BASIC_MARKERS G) region ;;
  if negb known then ret false
  else
    region_markers <- dict_subscript (BASIC_MARKERS G) region ;;
    items <- the_list region_markers ;;
    check_basic_deletion_loop markers items.

(** [check_extension_markers], lines 164-233.  The result dictionary and
    its [details] dictionary are fresh heap objects, updated in place;
    the function returns the reference to the result. *)
Definition check_extension_markers (markers : val) (region : string) : M val :=
  details <- alloc (ODict ∅) ;;
  result <- alloc (ODict {[ "complete" := VBool false;
                            "subtype" := VStr "unknown";
                            "details" := details ]}) ;;
  (if String.eqb region "AZFa" then
     proximal <- py_and (get_eq markers "sY82" "present")
                        (get_eq markers "sY1064" "absent") ;;
     (if proximal then dict_setitem2 result "details" "proximal" "correct"
      else dict_setitem2 result "details" "proximal" "atypical") ;;;
     distal_absent <- py_or (get_eq markers "sY1065" "absent")
                            (get_eq markers "sY1182" "absent") ;;
     distal <- py_and (get_eq markers "sY88" "present") (ret distal_absent) ;;
     (if distal then dict_setitem2 result "details" "distal" "correct"
      else dict_setitem2 result "details" "distal" "atypical") ;;;
     both <- py_and
               (p <- dict_subscript2 result "details" "proximal" ;;
                ret (py_eq p "correct"))
               (d <- dict_subscript2 result "details" "distal" ;;
                ret (py_eq d "correct")) ;;
     if both then
       dict_setitem result "complete" (VBool true) ;;;
       dict_setitem result "subtype" "complete"
     else
       dict_setitem result "subtype" "partial_or_atypical"
   else if String.eqb region "AZFb" then
     has_sY1192 <- get_eq markers "sY1192" "present" ;;
     boundaries <- py_and (get_eq markers "sY105" "present")
                     (py_and (get_eq markers "sY121" "absent")
                        (py_and (get_eq markers "sY1192" "absent")
                                (get_eq markers "sY153" "present"))) ;;
     (if boundaries then
        dict_setitem result "complete" (VBool true) ;;;
        dict_setitem result "subtype" "P5/proximal_P1" ;;;
        dict_setitem2 result "details" "TESE_prognosis" "virtually_impossible"
      else if has_sY1192 then
        dict_setitem result "complete" (VBool false) ;;;
        dict_setitem result "subtype" "partial" ;;;
        dict_setitem2 result "details" "sY1192" "present" ;;;
        dict_setitem2 result "details" "TESE_prognosis" "possible"
      else
        dict_setitem result "subtype" "atypical") ;;;
     sY1224 <- dict_get_default markers "sY1224" "not_tested" ;;
     dict_setitem2 result "details" "sY1224" sY1224
   else if String.eqb region "AZFc" then
     tested <- dict_contains markers "sY160" ;;
     if negb tested then
       dict_setitem result "subtype" "unknown_terminal_status"
     else
       sY160 <- dict_subscript markers "sY160" ;;
       if py_eq sY160 "present" then
         dict_setitem result "complete" (VBool true) ;;;
         dict_setitem result "subtype" "b2/b4" ;;;
         dict_setitem2 result "details" "terminal" (VBool false) ;;;
         dict_setitem2 result "details" "TESE_prognosis" "approximately_50_percent"
       else
         dict_setitem result "complete" (VBool true) ;;;
         dict_setitem result "subtype" "terminal" ;;;
         dict_setitem2 result "details" "terminal" (VBool true) ;;;
         dict_setitem2 result "details" "karyotype_recommended" (VBool true)
   else ret tt) ;;;
  ret result.

(** The [for] loop of [check_azfbc_deletion], lines 241-243: [false]
    when the loop leaves the function, [true] when it runs to its end. *)
Fixpoint check_azfbc_deletion_loop (markers : val) (required_absent : list val)
  : M bool :=
  match required_absent with
  | [] => ret true
  | marker :: rest =>
      failed <- py_or (tested <- dict_contains markers marker ;;
                       ret (negb tested))
                      (status <- dict_subscript markers marker ;;
                       ret (py_ne status "absent")) ;;
      if failed then ret false
      else check_azfbc_deletion_loop markers rest
  end.

(** [check_azfbc_deletion], lines 236-263. *)
Definition check_azfbc_deletion (markers : val) : M (bool * string) :=
  required_absent <- alloc (str_list ["sY127"; "sY134"; "sY254"; "sY255"]) ;;
  items <- the_list required_absent ;;
  all_absent <- check_azfbc_deletion_loop markers items ;;
  if negb all_absent then ret (false, "")
  else
    has_sY116 <- dict_contains markers "sY116" ;;
    labels <-
      (if has_sY116 then
         sY116 <- dict_subscript markers "sY116" ;;
         if py_eq sY116 "absent" then ret ("P5/distal_P1", "virtually_impossible")
         else ret ("P4/distal_P1", "may_be_positive")
       else ret ("undetermined_P4_P5", "unknown")) ;;
    let '(subtype, tese) := labels in
    has_sY160 <- dict_contains markers "sY160" ;;
    terminal <-
      (if has_sY160 then
         sY160 <- dict_subscript markers "sY160" ;;
         if py_eq sY160 "absent" then ret "_TERMINAL" else ret ""
       else ret "") ;;
    ret (true, "COMPLETE_AZFBC_DELETION_" ++ subtype ++ terminal
                 ++ " (TESE: " ++ tese ++ ")").

(** [check_grgr_deletion], lines 266-269. *)
Definition check_grgr_deletion (markers : val) : M bool :=
  py_and (get_eq markers "sY1291" "absent") (get_eq markers "sY1191" "present").

(** The generator under [all] at lines 290-294: the markers of the
    literal list that are keys of the panel must all be absent; [all]
    stops at the first one that is not. *)
Fixpoint y_markers_absent_loop (markers : val) (ms : list string) : M bool :=
  match ms with
  | [] => ret true
  | m :: rest =>
      tested <- dict_contains markers m ;;
      if tested then
        is_absent <- get_eq markers m "absent" ;;
        if is_absent then y_markers_absent_loop markers rest else ret false
      else y_markers_absent_loop markers rest
  end.

(** The [for] loop at lines 361-363, appending to [missing_expected].
    The loop runs over the items [EXPECTED_PRESENT_MARKERS] had when it
    started; the list it appends to is another, newly created object. *)
Fixpoint missing_expected_loop (markers missing_expected : val)
    (items : list val) : M unit :=
  match items with
  | [] => ret tt
  | marker :: rest =>
      wrong <- py_and (dict_contains markers marker)
                      (status <- dict_subscript markers marker ;;
                       ret (py_ne status "present")) ;;
      (if wrong then list_append missing_expected marker else ret tt) ;;;
      missing_expected_loop markers missing_expected rest
  end.

(** [classify_y_chromosome_state], lines 323-371: the statements that
    follow the AZFbc check, reached when that check did not return. *)
Definition classify_individual_deletions (markers : val)
    (azfa_deleted azfb_deleted azfc_deleted : bool) : M string :=
  if azfa_deleted && negb azfb_deleted && negb azfc_deleted then
    ext_result <- check_extension_markers markers "AZFa" ;;
    complete <- dict_subscript ext_result "complete" ;;
    if truthy complete then
      ret "COMPLETE_AZFA_DELETION (TESE: virtually_impossible)"
    else
      subtype <- dict_subscript ext_result "subtype" ;;
      subtype_str <- the_str subtype ;;
      ret ("PARTIAL_OR_ATYPICAL_AZFA_DELETION (" ++ subtype_str ++ ")")
  else if azfb_deleted && negb azfa_deleted && negb azfc_deleted then
    ext_result <- check_extension_markers markers "AZFb" ;;
    subtype <- dict_subscript ext_result "subtype" ;;
    if py_eq subtype "P5/proximal_P1" then
      tese <- dict_subscript2 ext_result "details" "TESE_prognosis" ;;
      tese_str <- the_str tese ;;
      ret ("COMPLETE_AZFB_DELETION_P5/PROXIMAL_P1 (TESE: " ++ tese_str ++ ")")
    else
      subtype <- dict_subscript ext_result "subtype" ;;
      if py_eq subtype "partial" then
        tese <- dict_subscript2 ext_result "details" "TESE_prognosis" ;;
        tese_str <- the_str tese ;;
        ret ("PARTIAL_AZFB_DELETION (sY1192 present, TESE: " ++ tese_str ++ ")")
      else
        ret "AZFB_DELETION_ATYPICAL_PATTERN"
  else if azfc_deleted && negb azfa_deleted && negb azfb_deleted then
    ext_result <- check_extension_markers markers "AZFc" ;;
    subtype <- dict_subscript ext_result "subtype" ;;
    if py_eq subtype "b2/b4" then
      tese <- dict_subscript2 ext_result "details" "TESE_prognosis" ;;
      tese_str <- the_str tese ;;
      ret ("COMPLETE_AZFC_DELETION_B2/B4 (TESE: " ++ tese_str ++ ")")
    else
      subtype <- dict_subscript ext_result "subtype" ;;
      if py_eq subtype "terminal" then
        ret "TERMINAL_AZFC_DELETION (karyotype analysis recommended)"
      else
        ret "AZFC_DELETION_UNDETERMINED_TYPE (sY160 not tested)"
  else
    grgr <- check_grgr_deletion markers ;;
    if grgr then
      if negb (azfa_deleted || azfb_deleted || azfc_deleted) then
        ret "PARTIAL_AZFC_GR/GR_DELETION (population-specific risk factor)"
      else
        ret "MULTIPLE_DELETIONS_INCLUDING_GR/GR"
    else if negb (azfa_deleted || azfb_deleted || azfc_deleted) then
      missing_expected <- alloc (OList []) ;;
      items <- the_list (EXPECTED_PRESENT_MARKERS G) ;;
      missing_expected_loop markers missing_expected items ;;;
      any_missing <- list_truthy missing_expected ;;
      if any_missing then
        joined <- str_join ", " missing_expected ;;
        ret ("INCONSISTENT_DATA: Expected present markers are absent: " ++ joined)
      else
        ret "NO_DELETION_DETECTED"
    else
      ret "UNCLASSIFIED_DELETION_PATTERN (manual review required)".

(** [classify_y_chromosome_state], lines 272-371.  A nested
    [if a: if b: return x] is written [if a and b: return x]; [b] is
    evaluated only when [a] holds, as in the source. *)
Definition classify_y_chromosome_state (markers : val) : M string :=
  control <- check_control_markers markers ;;
  let '(control_valid, control_msg) := control in
  if negb control_valid then ret control_msg
  else
    xx_male <-
      py_and (py_and (get_eq markers "sY14" "absent")
                     (alias <- dict_get markers "ZFX/Y" ;;
                      zfxy <- dict_get_default markers "ZFX/ZFY" alias ;;
                      ret (py_eq zfxy "present")))
             (y_markers_absent_loop markers
                ["sY84"; "sY86"; "sY127"; "sY134"; "sY254"; "sY255"]) ;;
    if xx_male then ret "46,XX_MALE_OR_COMPLETE_Y_CHROMOSOME_ABSENCE"
    else
      azfa_deleted <- check_basic_deletion markers "AZFa" ;;
      azfb_deleted <- check_basic_deletion markers "AZFb" ;;
      azfc_deleted <- check_basic_deletion markers "AZFc" ;;
      discordant <-
        py_and (py_and (dict_contains markers "sY254")
                       (dict_contains markers "sY255"))
               (sY254 <- dict_subscript markers "sY254" ;;
                sY255 <- dict_subscript markers "sY255" ;;
                ret (py_ne sY254 sY255)) ;;
      if discordant then
        ret "METHODOLOGICAL_ERROR: sY254 and sY255 results discordant (both should have same status)"
      else if azfa_deleted && azfb_deleted && azfc_deleted then
        sry_absent <- get_eq markers "sY14" "absent" ;;
        if sry_absent then
          ret "AZFABC_DELETION_WITH_46,XX_MALE_OR_Y_CHROMOSOME_ABSENCE"
        else
          ret "COMPLETE_AZFABC_DELETION"
      else if azfb_deleted && azfc_deleted && negb azfa_deleted then
        azfbc <- check_azfbc_deletion markers ;;
        let '(is_azfbc, azfbc_msg) := azfbc in
        if is_azfbc then ret azfbc_msg
        else classify_individual_deletions markers
               azfa_deleted azfb_deleted azfc_deleted
      else classify_individual_deletions markers
             azfa_deleted azfb_deleted azfc_deleted.

End Engine.

(** ** Marker panels *)

(** The two statuses the loader stores in a panel. *)
Inductive MarkerStatus : Type := present | absent.

#[global] Instance MarkerStatus_eq_dec : EqDecision MarkerStatus.
Proof. solve_decision. Defined.

Definition status_str (s : MarkerStatus) : string :=
  match s with
  | present => "present"
  | absent => "absent"
  end.

Definition status_val (s : MarkerStatus) : val := VStr (status_str s).

(** The dictionary object of a panel: marker name to ['present'] or
    ['absent']; an untested marker has no key. *)
Definition panel_obj (m : gmap string MarkerStatus) : obj :=
  ODict (status_val <$> m).

(** A whole run: initialise the module, build the panel, classify. *)
Definition run_classifier (m : gmap string MarkerStatus) : outcome string :=
  (G <- module_init ;;
   markers <- alloc (panel_obj m) ;;
   classify_y_chromosome_state G markers) [].

(** The engine's precondition on the heap: the two tables it reads
    hold what the module's top-level assignments put there. *)
Definition globals_ok (G : module_env) (h : heap) : Prop :=
  exists basic azfa azfb azfc expected : loc,
    BASIC_MARKERS G = VRef basic /\
    h !! basic = Some (ODict {[ "AZFa" := VRef azfa; "AZFb" := VRef azfb;
                                "AZFc" := VRef azfc ]}) /\
    h !! azfa = Some (str_list AZFa_basic) /\
    h !! azfb = Some (str_list AZFb_basic) /\
    h !! azfc = Some (str_list AZFc_basic) /\
    EXPECTED_PRESENT_MARKERS G = VRef expected /\
    h !! expected = Some (str_list expected_present).

(** The basic markers of a region, as [BASIC_MARKERS] lists them. *)
Definition basic_markers_of (region : string) : option (list string) :=
  if String.eqb region "AZFa" then Some AZFa_basic
  else if String.eqb region "AZFb" then Some AZFb_basic
  else if String.eqb region "AZFc" then Some AZFc_basic
  else None.

(** [needle in text] on strings. *)
Fixpoint substring_of (needle text : string) : bool :=
  String.prefix needle text ||
  match text with
  | EmptyString => false
  | String _ rest => substring_of needle rest
  end.

(** ** What the functions return, as functions of the panel's contents

    The definitions of this section describe the value each function of
    the engine returns when the panel dictionary holds [d].  They are
    proved equal to the results of the heap-level functions above (the
    [_run] lemmas) and serve only to reason about them. *)

Section Values.

Variable d : gmap string val.

Definition getv (k : string) : val := default VNone (d !! k).

Definition has_status (k s : string) : bool := py_eq (getv k) s.

Definition tested (k : string) : bool := bool_decide (is_Some (d !! k)).

Definition zfxy_value : val :=
  if truthy (getv "ZFX/ZFY") then getv "ZFX/ZFY" else getv "ZFX/Y".

Definition control_value : bool * string :=
  if negb (truthy zfxy_value) then
    (false, "CRITICAL: ZFX/ZFY control marker not tested - cannot validate results")
  else if py_ne zfxy_value "present" then
    (false, "CRITICAL: ZFX/ZFY control marker absent - technical failure or sample issue")
  else if negb (tested "sY14") then
    (false, "CRITICAL: sY14 (SRY) marker not tested - cannot determine sex chromosome status")
  else (true, "Control markers valid").

Definition y_markers_absent_value (ms : list string) : bool :=
  forallb (fun k => if tested k then has_status k "absent" else true) ms.

Definition xx_male_value : bool :=
  has_status "sY14" "absent"
  && py_eq (default (getv "ZFX/Y") (d !! "ZFX/ZFY")) "present"
  && y_markers_absent_value
       ["sY84"; "sY86"; "sY127"; "sY134"; "sY254"; "sY255"].

Definition all_absent_value (ms : list string) : bool :=
  forallb (fun k => has_status k "absent") ms.

Definition basic_value (region : string) : bool :=
  match basic_markers_of region with
  | Some ms => all_absent_value ms
  | None => false
  end.

Definition discordant_value : bool :=
  tested "sY254" && tested "sY255" && py_ne (getv "sY254") (getv "sY255").

Definition azfbc_value : bool * string :=
  if negb (all_absent_value ["sY127"; "sY134"; "sY254"; "sY255"]) then
    (false, "")
  else
    let '(subtype, tese) :=
      if tested "sY116" then
        if has_status "sY116" "absent" then
          ("P5/distal_P1", "virtually_impossible")
        else ("P4/distal_P1", "may_be_positive")
      else ("undetermined_P4_P5", "unknown") in
    let terminal := if has_status "sY160" "absent" then "_TERMINAL" else "" in
    (true, "COMPLETE_AZFBC_DELETION_" ++ subtype ++ terminal
             ++ " (TESE: " ++ tese ++ ")").

Definition grgr_value : bool :=
  has_status "sY1291" "absent" && has_status "sY1191" "present".

Definition azfa_complete_value : bool :=
  (has_status "sY82" "present" && has_status "sY1064" "absent")
  && (has_status "sY88" "present"
      && (has_status "sY1065" "absent" || has_status "sY1182" "absent")).

Definition azfb_boundaries_value : bool :=
  has_status "sY105" "present" && (has_status "sY121" "absent"
  && (has_status "sY1192" "absent" && has_status "sY153" "present")).

(** [complete], [subtype] and [details['TESE_prognosis']] (when set) of
    the extension analysis of a region. *)
Definition extension_value (region : string) : bool * string * option string :=
  if String.eqb region "AZFa" then
    if azfa_complete_value then (true, "complete", None)
    else (false, "partial_or_atypical", None)
  else if String.eqb region "AZFb" then
    if azfb_boundaries_value then
      (true, "P5/proximal_P1", Some "virtually_impossible")
    else if has_status "sY1192" "present" then (false, "partial", Some "possible")
    else (false, "atypical", None)
  else if String.eqb region "AZFc" then
    if negb (tested "sY160") then (false, "unknown_terminal_status", None)
    else if has_status "sY160" "present" then
      (true, "b2/b4", Some "approximately_50_percent")
    else (true, "terminal", None)
  else (false, "unknown", None).

Definition missing_expected_value (ms : list string) : list string :=
  List.filter (fun k => tested k && py_ne (getv k) "present") ms.

Definition individual_value (azfa_deleted azfb_deleted azfc_deleted : bool)
  : string :=
  if azfa_deleted && negb azfb_deleted && negb azfc_deleted then
    if azfa_complete_value then
      "COMPLETE_AZFA_DELETION (TESE: virtually_impossible)"
    else "PARTIAL_OR_ATYPICAL_AZFA_DELETION (partial_or_atypical)"
  else if azfb_deleted && negb azfa_deleted && negb azfc_deleted then
    if azfb_boundaries_value then
      "COMPLETE_AZFB_DELETION_P5/PROXIMAL_P1 (TESE: virtually_impossible)"
    else if has_status "sY1192" "present" then
      "PARTIAL_AZFB_DELETION (sY1192 present, TESE: possible)"
    else "AZFB_DELETION_ATYPICAL_PATTERN"
  else if azfc_deleted && negb azfa_deleted && negb azfb_deleted then
    if negb (tested "sY160") then
      "AZFC_DELETION_UNDETERMINED_TYPE (sY160 not tested)"
    else if has_status "sY160" "present" then
      "COMPLETE_AZFC_DELETION_B2/B4 (TESE: approximately_50_percent)"
    else "TERMINAL_AZFC_DELETION (karyotype analysis recommended)"
  else if grgr_value then
    if negb (azfa_deleted || azfb_deleted || azfc_deleted) then
      "PARTIAL_AZFC_GR/GR_DELETION (population-specific risk factor)"
    else "MULTIPLE_DELETIONS_INCLUDING_GR/GR"
  else if negb (azfa_deleted || azfb_deleted || azfc_deleted) then
    match missing_expected_value expected_present with
    | [] => "NO_DELETION_DETECTED"
    | missing =>
        "INCONSISTENT_DATA: Expected present markers are absent: "
        ++ join_strs ", " missing
    end
  else "UNCLASSIFIED_DELETION_PATTERN (manual review required)".

Definition label_value : string :=
  let '(control_valid, control_msg) := control_value in
  if negb control_valid then control_msg
  else if xx_male_value then "46,XX_MALE_OR_COMPLETE_Y_CHROMOSOME_ABSENCE"
  else
    let azfa_deleted := basic_value "AZFa" in
    let azfb_deleted := basic_value "AZFb" in
    let azfc_deleted := basic_value "AZFc" in
    if discordant_value then
      "METHODOLOGICAL_ERROR: sY254 and sY255 results discordant (both should have same status)"
    else if azfa_deleted && azfb_deleted && azfc_deleted then
      if has_status "sY14" "absent" then
        "AZFABC_DELETION_WITH_46,XX_MALE_OR_Y_CHROMOSOME_ABSENCE"
      else "COMPLETE_AZFABC_DELETION"
    else if azfb_deleted && azfc_deleted && negb azfa_deleted then
      let '(is_azfbc, azfbc_msg) := azfbc_value in
      if is_azfbc then azfbc_msg
      else individual_value azfa_deleted azfb_deleted azfc_deleted
    else individual_value azfa_deleted azfb_deleted azfc_deleted.

End Values.

(** The label a run returned, if it returned. *)
Definition returned_label {A} (o : outcome A) : option A :=
  match o with
  | Ret a _ => Some a
  | Raise _ => None
  end.

(** The module state after [module_init] on the empty heap. *)
Definition initial_env : module_env :=
  {| BASIC_MARKERS := VRef 3; EXPECTED_PRESENT_MARKERS := VRef 4 |}.

Definition initial_heap : heap :=
  [ str_list AZFa_basic; str_list AZFb_basic; str_list AZFc_basic;
    ODict {[ "AZFa" := VRef 0; "AZFb" := VRef 1; "AZFc" := VRef 2 ]};
    str_list expected_present ].

(** The panels of the specification's scenarios. *)
Definition scenario1 : gmap string MarkerStatus :=
  {[ "ZFX/ZFY" := present; "sY14" := present; "sY84" := absent;
     "sY86" := absent; "sY82" := present; "sY1064" := absent;
     "sY88" := present; "sY1065" := absent ]}.

Definition scenario2 : gmap string MarkerStatus :=
  {[ "ZFX/ZFY" := present; "sY14" := present; "sY160" := present;
     "sY84" := present; "sY86" := present; "sY127" := present;
     "sY134" := present; "sY254" := present; "sY255" := present ]}.

(** Scenario 2 with the two AZFc basic markers absent. *)
Definition scenario2_azfc_absent : gmap string MarkerStatus :=
  {[ "ZFX/ZFY" := present; "sY14" := present; "sY160" := present;
     "sY84" := present; "sY86" := present; "sY127" := present;
     "sY134" := present; "sY254" := absent; "sY255" := absent ]}.

Definition scenario3 : gmap string MarkerStatus :=
  {[ "ZFX/ZFY" := present; "sY14" := present; "sY1291" := absent;
     "sY1191" := present ]}.

Definition xx_male_panel : gmap string MarkerStatus :=
  {[ "ZFX/ZFY" := present; "sY14" := absent ]}.

Definition discordant_panel : gmap string MarkerStatus :=
  {[ "sY254" := absent; "sY255" := present ]}.

(** A panel that passes the control checks and has discordant sY254 and
    sY255 while every other basic marker is absent. *)
Definition discordant_deleted_panel : gmap string MarkerStatus :=
  {[ "ZFX/ZFY" := present; "sY14" := present; "sY84" := absent;
     "sY86" := absent; "sY127" := absent; "sY134" := absent;
     "sY254" := absent; "sY255" := present ]}.

(** A panel with both AZFb and AZFc basic-deleted and AZFa not. *)
Definition azfbc_panel : gmap string MarkerStatus :=
  {[ "ZFX/ZFY" := present; "sY14" := present; "sY84" := present;
     "sY86" := present; "sY127" := absent; "sY134" := absent;
     "sY254" := absent; "sY255" := absent; "sY1291" := absent;
     "sY1191" := present ]}.

(** The control checks pass: the ZFX/ZFY status (or, when that key is
    missing, the ZFX/Y status) is present, and sY14 is tested. *)
Definition control_passes (m : gmap string MarkerStatus) : Prop :=
  (m !! "ZFX/ZFY" = Some present
   \/ (m !! "ZFX/ZFY" = None /\ m !! "ZFX/Y" = Some present))
  /\ is_Some (m !! "sY14").

(** ** The loader

    [parse_marker_file] opens the file, reads it with [csv.reader] and
    stores the rows it accepts in a new dictionary.  The file system and
    the csv reader are outside the program; what they deliver is an
    input of the model. *)

(** What opening [filepath] and iterating the reader gives: the file is
    not found, or the reader yields [rows] -- each a list of cells --
    and then either is exhausted or fails with an exception whose text
    is [failure].  A failure of [open] other than "not found" is
    [Rows [] (Some e)]. *)
Inductive reading : Type :=
  | FileNotFound
  | Rows (rows : list (list string)) (failure : option string).

Section Loader.

(** Python's [str.lower] and [str.strip], on whatever the strings
    contain. *)
Variables str_lower str_strip : string -> string.

(** [s in ['present', 'absent']]. *)
Definition is_status (s : string) : bool :=
  String.eqb s "present" || String.eqb s "absent".

(** Lines 93-99: the first row is data when its second cell reads as a
    status, and is skipped as a header otherwise. *)
Definition parse_first_row (markers : val) (first_row : list string) : M unit :=
  match first_row with
  | name :: status :: _ =>
      if is_status (str_strip (str_lower status)) then
        dict_setitem markers (str_strip name) (VStr (str_strip (str_lower status)))
      else ret tt
  | _ => ret tt
  end.

(** The [for] loop of lines 102-110.  [err] collects the lines printed
    to [sys.stderr]. *)
Fixpoint parse_rows (markers : val) (rows : list (list string))
    (err : list string) : M (list string) :=
  match rows with
  | [] => ret err
  | row :: rest =>
      match row with
      | name :: status :: _ =>
          let marker_name := str_strip name in
          let marker_status := str_strip (str_lower status) in
          if is_status marker_status then
            dict_setitem markers marker_name (VStr marker_status) ;;;
            parse_rows markers rest err
          else
            parse_rows markers rest
              (err ++ ["Warning: Invalid status '" ++ marker_status
                       ++ "' for marker " ++ marker_name]%string)%list
      | _ => parse_rows markers rest err
      end
  end.

(** [parse_marker_file], lines 75-123: the dictionary, or [None] with an
    error line, together with the lines printed to [sys.stderr]. *)
Definition parse_marker_file (filepath : string) (src : reading)
  : M (val * list string) :=
  markers <- alloc (ODict ∅) ;;
  match src with
  | FileNotFound =>
      ret (VNone, ["Error: The file '" ++ filepath ++ "' was not found."])
  | Rows [] None => ret (VNone, ["Error: Empty file"])
  | Rows [] (Some e) =>
      ret (VNone, ["Error: An error occurred while reading the file: " ++ e])
  | Rows (first_row :: rest) failure =>
      parse_first_row markers first_row ;;;
      err <- parse_rows markers rest [] ;;
      match failure with
      | None => ret (markers, err)
      | Some e =>
          ret (VNone,
               (err ++ ["Error: An error occurred while reading the file: "
                        ++ e]%string)%list)
      end
  end.

End Loader.

Section LoaderValues.

Variables str_lower str_strip : string -> string.

(** A row the loader accepts as data: at least two cells, the second a
    status once lower-cased and stripped. *)
Definition data_row (row : list string) : bool :=
  match row with
  | _ :: status :: _ => is_status (str_strip (str_lower status))
  | _ => false
  end.

(** The dictionary after one row, and the warning the row causes when
    it is not the first one. *)
Definition store_row (d : gmap string val) (row : list string)
  : gmap string val :=
  match row with
  | name :: status :: _ =>
      if is_status (str_strip (str_lower status)) then
        <[str_strip name := VStr (str_strip (str_lower status))]> d
      else d
  | _ => d
  end.

Definition row_warning (row : list string) : list string :=
  match row with
  | name :: status :: _ =>
      if is_status (str_strip (str_lower status)) then []
      else ["Warning: Invalid status '" ++ str_strip (str_lower status)
            ++ "' for marker " ++ str_strip name]
  | _ => []
  end.

End LoaderValues.

(** [str.lower] and [str.strip] on ASCII text. *)
Definition ascii_lower_char (c : ascii) : ascii :=
  let n := nat_of_ascii c in
  if Nat.leb 65 n && Nat.leb n 90 then ascii_of_nat (n + 32) else c.

Fixpoint ascii_lower (s : string) : string :=
  match s with
  | EmptyString => EmptyString
  | String c rest => String (ascii_lower_char c) (ascii_lower rest)
  end.

Definition ascii_space (c : ascii) : bool :=
  let n := nat_of_ascii c in
  Nat.eqb n 32 || (Nat.leb 9 n && Nat.leb n 13)
  || (Nat.leb 28 n && Nat.leb n 31).

Fixpoint strip_left (s : string) : string :=
  match s with
  | EmptyString => EmptyString
  | String c rest => if ascii_space c then strip_left rest else s
  end.

Fixpoint strip_right (s : string) : string :=
  match s with
  | EmptyString => EmptyString
  | String c rest =>
      match strip_right rest with
      | EmptyString => if ascii_space c then EmptyString else String c EmptyString
      | rest' => String c rest'
      end
  end.

Definition ascii_strip (s : string) : string := strip_right (strip_left s).

(** A small marker file: a header, two data rows, a row with a bad
    status, a short row, and a second entry for sY84. *)
Definition sample_rows : list (list string) :=
  [ ["Marker"; "Status"];
    [" ZFX/ZFY "; "Present"];
    ["sY14"; "PRESENT "; "comment"];
    ["sY84"; "maybe"];
    ["sY86"];
    ["sY84"; "present"];
    ["sY84"; "absent"] ].

(** ** The report and the command line

    [generate_report] and [main] read two more module tables,
    [CONTROL_MARKERS] and [ALL_REQUIRED_MARKERS]. *)

Definition control_markers : list string := ["sY14"; "ZFX/ZFY"].

(** [ALL_REQUIRED_MARKERS], lines 51-60, as the concatenation
    evaluates. *)
Definition all_required_markers : list string :=
  (control_markers ++ AZFa_basic ++ AZFb_basic ++ AZFc_basic
   ++ ["sY82"; "sY1064"; "sY1065"; "sY1182"; "sY88";
       "sY105"; "sY121"; "sY1224"; "sY1192"; "sY153";
       "sY160";
       "sY1291"; "sY1191"])%list.

(** The keys of [BASIC_MARKERS] in the order of its literal. *)
Definition basic_regions : list string := ["AZFa"; "AZFb"; "AZFc"].

Record report_env : Type := {
  CONTROL_MARKERS : val;
  ALL_REQUIRED_MARKERS : val
}.

(** The two tables hold what the module's top-level assignments put
    there. *)
Definition report_globals_ok (R : report_env) (h : heap) : Prop :=
  exists control required : loc,
    CONTROL_MARKERS R = VRef control /\
    h !! control = Some (str_list control_markers) /\
    ALL_REQUIRED_MARKERS R = VRef required /\
    h !! required = Some (str_list all_required_markers).

Definition newline : string := String "010"%char EmptyString.

(** [s * n]. *)
Fixpoint str_repeat (s : string) (n : nat) : string :=
  match n with
  | 0 => ""
  | S n' => s ++ str_repeat s n'
  end.

(** [target.items()], as a list.  The heap's dictionaries do not record
    the order in which their keys were inserted, so the caller supplies
    it: the result is Python's when [order] is that insertion order, and
    a list that does not enumerate the keys is refused. *)
Definition dict_items (target : val) (order : list string)
  : M (list (string * val)) :=
  d <- the_dict target ;;
  if bool_decide (NoDup order /\ dom d = list_to_set order) then
    ret (omap (fun k => (fun v => (k, v)) <$> d !! k) order)
  else raise TypeError.

(** [bool(v)] for a value that may be a container: an empty dictionary
    or list is false. *)
Definition obj_truthy (v : val) : M bool :=
  fun h => match v with
           | VRef l => match h !! l with
                       | Some (ODict d) => Ret (negb (bool_decide (d = ∅))) h
                       | Some (OList xs) => Ret (negb (bool_decide (xs = []))) h
                       | None => Raise TypeError
                       end
           | _ => Ret (truthy v) h
           end.

(** [target.append(x)] for each string of [lines], in order. *)
Fixpoint append_lines (target : val) (lines : list string) : M unit :=
  match lines with
  | [] => ret tt
  | line :: rest => list_append target line ;;; append_lines target rest
  end.

Section Report.

Variable G : module_env.
Variable R : report_env.

(** The loop of lines 383-389. *)
Fixpoint control_summary_loop (report markers : val) (items : list val)
  : M unit :=
  match items with
  | [] => ret tt
  | marker :: rest =>
      status <-
        (if py_eq marker "ZFX/ZFY" then
           py_or_val (py_or_val (dict_get markers "ZFX/ZFY")
                                (dict_get markers "ZFX/Y"))
                     (ret (VStr "not_tested"))
         else dict_get_default markers marker "not_tested") ;;
      marker_str <- the_str marker ;;
      status_str <- the_str status ;;
      list_append report (VStr ("  " ++ marker_str ++ ": " ++ status_str)) ;;;
      control_summary_loop report markers rest
  end.

(** The inner loop of lines 394-396. *)
Fixpoint region_summary_loop (report markers : val) (region_markers : list val)
  : M unit :=
  match region_markers with
  | [] => ret tt
  | marker :: rest =>
      status <- dict_get_default markers marker "not_tested" ;;
      marker_str <- the_str marker ;;
      status_str <- the_str status ;;
      list_append report (VStr ("    " ++ marker_str ++ ": " ++ status_str)) ;;;
      region_summary_loop report markers rest
  end.

(** The loop of lines 392-396 over [BASIC_MARKERS.items()]. *)
Fixpoint basic_summary_loop (report markers : val)
    (items : list (string * val)) : M unit :=
  match items with
  | [] => ret tt
  | (region, region_markers) :: rest =>
      list_append report (VStr ("  " ++ region ++ ":")) ;;;
      ms <- the_list region_markers ;;
      region_summary_loop report markers ms ;;;
      basic_summary_loop report markers rest
  end.

(** The [if]/[elif] chain of lines 401-424. *)
Definition append_recommendations (report : val) (classification : string)
  : M unit :=
  if substring_of "AZFA_DELETION" classification
     && substring_of "COMPLETE" classification then
    append_lines report
      ["- TESE not recommended (virtually impossible to retrieve sperm)";
       "- Consider sperm donation or adoption"]
  else if substring_of "AZFB_DELETION" classification
          && substring_of "P5/PROXIMAL_P1" classification then
    append_lines report
      ["- TESE not recommended (virtually impossible to retrieve sperm)";
       "- Consider sperm donation or adoption"]
  else if substring_of "AZFC_DELETION" classification
          && substring_of "B2/B4" classification then
    append_lines report
      ["- TESE may be attempted (approximately 50% success rate)";
       "- Genetic counseling mandatory (deletion will be transmitted to male offspring)";
       "- Consider karyotype analysis to rule out 46,XY/45,X mosaicism"]
  else if substring_of "TERMINAL" classification then
    append_lines report
      ["- Karyotype analysis strongly recommended";
       "- Check for 46,XY/45,X mosaicism"]
  else if substring_of "GR/GR" classification then
    append_lines report
      ["- Population-specific risk factor for impaired spermatogenesis";
       "- Increased risk for testicular germ cell tumors";
       "- Will be transmitted to male offspring"]
  else if substring_of "46,XX_MALE" classification then
    append_lines report
      ["- Karyotype confirmation recommended";
       "- TESE not possible";
       "- Consider genetic counseling"]
  else if substring_of "NO_DELETION" classification then
    append_lines report
      ["- No Y-chromosomal microdeletion detected";
       "- Consider other causes of infertility"]
  else ret tt.

(** The loop of lines 428-434. *)
Fixpoint missing_critical_loop (missing_critical markers : val)
    (items : list val) : M unit :=
  match items with
  | [] => ret tt
  | marker :: rest =>
      (if py_eq marker "ZFX/ZFY" then
         neither <- py_and (has <- dict_contains markers "ZFX/ZFY" ;;
                            ret (negb has))
                           (has <- dict_contains markers "ZFX/Y" ;;
                            ret (negb has)) ;;
         if neither then list_append missing_critical marker else ret tt
       else
         has <- dict_contains markers marker ;;
         if negb has then list_append missing_critical marker else ret tt) ;;;
      missing_critical_loop missing_critical markers rest
  end.

(** The loop of lines 438-439. *)
Fixpoint missing_lines_loop (report : val) (items : list val) : M unit :=
  match items with
  | [] => ret tt
  | marker :: rest =>
      marker_str <- the_str marker ;;
      list_append report (VStr ("  - " ++ marker_str)) ;;;
      missing_lines_loop report rest
  end.

(** [generate_report], lines 374-444. *)
Definition generate_report (markers : val) (classification : string)
  : M string :=
  report <- alloc (OList []) ;;
  list_append report "=== Y-CHROMOSOMAL MICRODELETION ANALYSIS REPORT ===" ;;;
  list_append report (VStr (newline ++ "CLASSIFICATION: " ++ classification)) ;;;
  list_append report (VStr (newline ++ "MARKER SUMMARY:")) ;;;
  list_append report "Control markers:" ;;;
  controls <- the_list (CONTROL_MARKERS R) ;;
  control_summary_loop report markers controls ;;;
  list_append report (VStr (newline ++ "Basic AZF markers:")) ;;;
  items <- dict_items (BASIC_MARKERS G) basic_regions ;;
  basic_summary_loop report markers items ;;;
  list_append report (VStr (newline ++ "CLINICAL RECOMMENDATIONS:")) ;;;
  append_recommendations report classification ;;;
  missing_critical <- alloc (OList []) ;;
  required <- the_list (ALL_REQUIRED_MARKERS R) ;;
  missing_critical_loop missing_critical markers required ;;;
  any_missing <- list_truthy missing_critical ;;
  (if any_missing then
     list_append report
       (VStr (newline ++ "WARNING: The following markers were not tested:")) ;;;
     missing <- the_list missing_critical ;;
     missing_lines_loop report missing ;;;
     list_append report
       "Complete testing is recommended for accurate diagnosis."
   else ret tt) ;;;
  list_append report (VStr (newline ++ str_repeat "=" 50)) ;;;
  str_join newline report.

End Report.

(** The parsed command line: the file path and the two switches. *)
Record arguments : Type := {
  marker_file : string;
  verbose : bool;
  validate_only : bool
}.

(** What a run of the program shows: the exit status and the lines
    printed to [sys.stdout] and [sys.stderr], one entry per [print]. *)
Record process_result : Type := {
  exit_code : nat;
  stdout : list string;
  stderr : list string
}.

Section Main.

Variables str_lower str_strip : string -> string.
Variable G : module_env.
Variable R : report_env.

(** The comprehension of line 487: the required markers that are not
    keys of [marker_data]. *)
Fixpoint validate_missing (marker_data : val) (items : list val)
  : M (list val) :=
  match items with
  | [] => ret []
  | m :: rest =>
      has <- dict_contains marker_data m ;;
      found <- validate_missing marker_data rest ;;
      ret (if negb has then m :: found else found)
  end.

(** [main], lines 447-506, after [parse_args]: [args] is the parsed
    command line and [src] what reading [args.marker_file] gives.
    [sys.exit(n)] ends the run with status [n]; a run that reaches the
    end of [main] has status 0. *)
Definition main (args : arguments) (src : reading) : M process_result :=
  parsed <- parse_marker_file str_lower str_strip (marker_file args) src ;;
  let '(marker_data, err) := parsed in
  loaded <- obj_truthy marker_data ;;
  if negb loaded then
    ret {| exit_code := 1; stdout := []; stderr := err |}
  else if validate_only args then
    required <- the_list (ALL_REQUIRED_MARKERS R) ;;
    found <- validate_missing marker_data required ;;
    missing <- alloc (OList found) ;;
    any_missing <- list_truthy missing ;;
    if any_missing then
      items <- the_list missing ;;
      names <- strs_of items ;;
      ret {| exit_code := 1;
             stdout := ("Missing " ++ pretty (length items)
                        ++ " required markers:")
                       :: ((fun m => "  - " ++ m) <$> names);
             stderr := err |}
    else
      ret {| exit_code := 0;
             stdout := ["All required markers are present."];
             stderr := err |}
  else
    classification <- classify_y_chromosome_state G marker_data ;;
    if verbose args then
      report <- generate_report G R marker_data classification ;;
      ret {| exit_code := 0; stdout := [report]; stderr := err |}
    else
      ret {| exit_code := 0; stdout := [classification]; stderr := err |}.

End Main.

(** *** The text of the report, read on the panel *)

(** The status shown for a marker: its status, or not_tested. *)
Definition status_text (m : gmap string MarkerStatus) (k : string) : string :=
  match m !! k with
  | Some s => status_str s
  | None => "not_tested"
  end.

(** The status shown for ZFX/ZFY: that of the key ZFX/ZFY, else that of
    the key ZFX/Y, else not_tested. *)
Definition zfxy_text (m : gmap string MarkerStatus) : string :=
  match m !! "ZFX/ZFY" with
  | Some s => status_str s
  | None => status_text m "ZFX/Y"
  end.

Definition control_line (m : gmap string MarkerStatus) (k : string) : string :=
  "  " ++ k ++ ": "
  ++ (if String.eqb k "ZFX/ZFY" then zfxy_text m else status_text m k).

Definition region_line (m : gmap string MarkerStatus) (k : string) : string :=
  "    " ++ k ++ ": " ++ status_text m k.

Definition region_lines (m : gmap string MarkerStatus)
    (region : string) (ms : list string) : list string :=
  ("  " ++ region ++ ":") :: (region_line m <$> ms).

(** The lines the chain of lines 401-424 adds for a classification. *)
Definition recommendations (classification : string) : list string :=
  if substring_of "AZFA_DELETION" classification
     && substring_of "COMPLETE" classification then
    ["- TESE not recommended (virtually impossible to retrieve sperm)";
     "- Consider sperm donation or adoption"]
  else if substring_of "AZFB_DELETION" classification
          && substring_of "P5/PROXIMAL_P1" classification then
    ["- TESE not recommended (virtually impossible to retrieve sperm)";
     "- Consider sperm donation or adoption"]
  else if substring_of "AZFC_DELETION" classification
          && substring_of "B2/B4" classification then
    ["- TESE may be attempted (approximately 50% success rate)";
     "- Genetic counseling mandatory (deletion will be transmitted to male offspring)";
     "- Consider karyotype analysis to rule out 46,XY/45,X mosaicism"]
  else if substring_of "TERMINAL" classification then
    ["- Karyotype analysis strongly recommended";
     "- Check for 46,XY/45,X mosaicism"]
  else if substring_of "GR/GR" classification then
    ["- Population-specific risk factor for impaired spermatogenesis";
     "- Increased risk for testicular germ cell tumors";
     "- Will be transmitted to male offspring"]
  else if substring_of "46,XX_MALE" classification then
    ["- Karyotype confirmation recommended";
     "- TESE not possible";
     "- Consider genetic counseling"]
  else if substring_of "NO_DELETION" classification then
    ["- No Y-chromosomal microdeletion detected";
     "- Consider other causes of infertility"]
  else [].

(** A required marker the report counts as not tested: ZFX/ZFY when
    neither spelling is a key, any other marker when it is not a key. *)
Definition report_untested (m : gmap string MarkerStatus) (k : string) : bool :=
  if String.eqb k "ZFX/ZFY" then
    bool_decide (m !! "ZFX/ZFY" = None) && bool_decide (m !! "ZFX/Y" = None)
  else bool_decide (m !! k = None).

Definition report_missing (m : gmap string MarkerStatus) : list string :=
  List.filter (report_untested m) all_required_markers.

(** The warning block of lines 436-440. *)
Definition warning_block (m : gmap string MarkerStatus) : list string :=
  match report_missing m with
  | [] => []
  | missing =>
      (((newline ++ "WARNING: The following markers were not tested:")%string
        :: ((fun k => "  - " ++ k)%string <$> missing))
       ++ ["Complete testing is recommended for accurate diagnosis."])%list
  end.

(** The lines of the report up to the recommendations. *)
Definition report_head (m : gmap string MarkerStatus) (classification : string)
  : list string :=
  ([ "=== Y-CHROMOSOMAL MICRODELETION ANALYSIS REPORT ===";
     (newline ++ "CLASSIFICATION: " ++ classification)%string;
     (newline ++ "MARKER SUMMARY:")%string;
     "Control markers:" ]
   ++ (control_line m <$> control_markers)
   ++ [(newline ++ "Basic AZF markers:")%string]
   ++ region_lines m "AZFa" AZFa_basic
   ++ region_lines m "AZFb" AZFb_basic
   ++ region_lines m "AZFc" AZFc_basic
   ++ [(newline ++ "CLINICAL RECOMMENDATIONS:")%string])%list.

Definition report_lines (m : gmap string MarkerStatus) (classification : string)
  : list string :=
  (report_head m classification
   ++ recommendations classification
   ++ warning_block m
   ++ [(newline ++ str_repeat "=" 50)%string])%list.

(** The required markers that are not keys of the panel, as
    [--validate-only] counts them: by exact name. *)
Definition validate_missing_names (m : gmap string MarkerStatus) : list string :=
  List.filter (fun k => bool_decide (m !! k = None)) all_required_markers.

(** A reading from which [parse_marker_file] gets at least one entry:
    the file is read to its end and one of its rows is valid data. *)
Definition loads (str_lower str_strip : string -> string) (src : reading)
  : bool :=
  match src with
  | Rows rows None => existsb (data_row str_lower str_strip) rows
  | _ => false
  end.

(** The module state after the tables of the engine, the report and the
    command line are built. *)
Definition full_env : report_env :=
  {| CONTROL_MARKERS := VRef 5; ALL_REQUIRED_MARKERS := VRef 6 |}.

Definition full_heap : heap :=
  (initial_heap
   ++ [str_list control_markers; str_list all_required_markers])%list.

(** A file with every required marker, ZFX/ZFY written ZFX/Y. *)
Definition alias_rows : list (list string) :=
  ["marker"; "status"]
  :: ["ZFX/Y"; "present"]
  :: ((fun k => [k; "present"])
        <$> List.filter (fun k => negb (String.eqb k "ZFX/ZFY"))
              all_required_markers).

(** ** Conditions on a panel

    The tests the classifier applies, read on the panel itself; the
    properties below are stated with them. *)

Definition is_absent (m : gmap string MarkerStatus) (k : string) : bool :=
  bool_decide (m !! k = Some absent).

Definition is_present (m : gmap string MarkerStatus) (k : string) : bool :=
  bool_decide (m !! k = Some present).

(** The six basic markers, in the order of the list at line 292. *)
Definition basic_six : list string :=
  ["sY84"; "sY86"; "sY127"; "sY134"; "sY254"; "sY255"].

(** Both basic markers of the region are tested and absent. *)
Definition region_deleted (m : gmap string MarkerStatus) (region : string)
  : bool :=
  match basic_markers_of region with
  | Some ms => forallb (is_absent m) ms
  | None => false
  end.

(** sY14 is absent and no basic marker is tested present. *)
Definition xx_signature (m : gmap string MarkerStatus) : bool :=
  is_absent m "sY14" && forallb (fun k => negb (is_present m k)) basic_six.

(** sY254 and sY255 are both tested, with different statuses. *)
Definition discordant (m : gmap string MarkerStatus) : bool :=
  match m !! "sY254", m !! "sY255" with
  | Some a, Some b => negb (bool_decide (a = b))
  | _, _ => false
  end.

(** sY1291 is absent and sY1191 is present. *)
Definition grgr_positive (m : gmap string MarkerStatus) : bool :=
  is_absent m "sY1291" && is_present m "sY1191".

(** The expected-present markers that are tested absent, in the order
    of [EXPECTED_PRESENT_MARKERS]. *)
Definition absent_expected (m : gmap string MarkerStatus) : list string :=
  List.filter (is_absent m) expected_present.

(** The status the control check works with: that of ZFX/ZFY when it
    is a key, else that of ZFX/Y. *)
Definition resolved_zfxy (m : gmap string MarkerStatus) : option MarkerStatus :=
  match m !! "ZFX/ZFY" with
  | Some s => Some s
  | None => m !! "ZFX/Y"
  end.

(** A panel reaches the deletion patterns when the control checks pass
    and neither the 46,XX signature nor the discordance check fires. *)
Definition reaches_patterns (m : gmap string MarkerStatus) : Prop :=
  control_passes m /\ xx_signature m = false /\ discordant m = false.

(** The message of the combined AZFbc deletion: sY116 chooses the
    subtype and the prognosis, sY160 absent adds the terminal suffix. *)
Definition azfbc_message (m : gmap string MarkerStatus) : string :=
  let '(subtype, tese) :=
    match m !! "sY116" with
    | Some absent => ("P5/distal_P1", "virtually_impossible")
    | Some present => ("P4/distal_P1", "may_be_positive")
    | None => ("undetermined_P4_P5", "unknown")
    end in
  let terminal := if is_absent m "sY160" then "_TERMINAL" else "" in
  "COMPLETE_AZFBC_DELETION_" ++ subtype ++ terminal
    ++ " (TESE: " ++ tese ++ ")".

(** The AZFa boundary pattern of a complete deletion: sY82 present and
    sY1064 absent, sY88 present and sY1065 or sY1182 absent. *)
Definition azfa_boundaries (m : gmap string MarkerStatus) : bool :=
  (is_present m "sY82" && is_absent m "sY1064")
  && (is_present m "sY88" && (is_absent m "sY1065" || is_absent m "sY1182")).

(** The AZFb boundary pattern of a complete (P5/proximal P1) deletion. *)
Definition azfb_boundaries (m : gmap string MarkerStatus) : bool :=
  is_present m "sY105" && (is_absent m "sY121"
  && (is_absent m "sY1192" && is_present m "sY153")).

(** The fixed labels the classifier can return; the data-inconsistency
    label, which lists markers, is the only other one. *)
Definition label_vocabulary : list string :=
  [ "CRITICAL: ZFX/ZFY control marker not tested - cannot validate results";
    "CRITICAL: ZFX/ZFY control marker absent - technical failure or sample issue";
    "CRITICAL: sY14 (SRY) marker not tested - cannot determine sex chromosome status";
    "46,XX_MALE_OR_COMPLETE_Y_CHROMOSOME_ABSENCE";
    "METHODOLOGICAL_ERROR: sY254 and sY255 results discordant (both should have same status)";
    "COMPLETE_AZFABC_DELETION";
    "COMPLETE_AZFBC_DELETION_P5/distal_P1 (TESE: virtually_impossible)";
    "COMPLETE_AZFBC_DELETION_P5/distal_P1_TERMINAL (TESE: virtually_impossible)";
    "COMPLETE_AZFBC_DELETION_P4/distal_P1 (TESE: may_be_positive)";
    "COMPLETE_AZFBC_DELETION_P4/distal_P1_TERMINAL (TESE: may_be_positive)";
    "COMPLETE_AZFBC_DELETION_undetermined_P4_P5 (TESE: unknown)";
    "COMPLETE_AZFBC_DELETION_undetermined_P4_P5_TERMINAL (TESE: unknown)";
    "COMPLETE_AZFA_DELETION (TESE: virtually_impossible)";
    "PARTIAL_OR_ATYPICAL_AZFA_DELETION (partial_or_atypical)";
    "COMPLETE_AZFB_DELETION_P5/PROXIMAL_P1 (TESE: virtually_impossible)";
    "PARTIAL_AZFB_DELETION (sY1192 present, TESE: possible)";
    "AZFB_DELETION_ATYPICAL_PATTERN";
    "COMPLETE_AZFC_DELETION_B2/B4 (TESE: approximately_50_percent)";
    "TERMINAL_AZFC_DELETION (karyotype analysis recommended)";
    "AZFC_DELETION_UNDETERMINED_TYPE (sY160 not tested)";
    "PARTIAL_AZFC_GR/GR_DELETION (population-specific risk factor)";
    "MULTIPLE_DELETIONS_INCLUDING_GR/GR";
    "NO_DELETION_DETECTED";
    "UNCLASSIFIED_DELETION_PATTERN (manual review required)" ].

(** Panels for the properties of the deletion patterns. *)
Definition azfabc_panel : gmap string MarkerStatus :=
  {[ "ZFX/ZFY" := present; "sY14" := present; "sY84" := absent;
     "sY86" := absent; "sY127" := absent; "sY134" := absent;
     "sY254" := absent; "sY255" := absent ]}.

Definition azfb_panel : gmap string MarkerStatus :=
  {[ "ZFX/Y" := present; "sY14" := present; "sY127" := absent;
     "sY134" := absent; "sY1192" := present; "sY1291" := absent;
     "sY1191" := present ]}.

Definition azfc_terminal_panel : gmap string MarkerStatus :=
  {[ "ZFX/ZFY" := present; "sY14" := present; "sY254" := absent;
     "sY255" := absent; "sY160" := absent ]}.

Definition azfab_panel : gmap string MarkerStatus :=
  {[ "ZFX/ZFY" := present; "sY14" := present; "sY84" := absent;
     "sY86" := absent; "sY127" := absent; "sY134" := absent;
     "sY254" := present; "sY255" := present ]}.

Definition inconsistent_panel : gmap string MarkerStatus :=
  {[ "ZFX/ZFY" := present; "sY14" := absent; "sY84" := present;
     "sY160" := absent; "sY105" := absent ]}.

(** The markers whose entries the classifier reads. *)
Definition engine_markers : list string :=
  [ "ZFX/ZFY"; "ZFX/Y"; "sY14";
    "sY84"; "sY86"; "sY127"; "sY134"; "sY254"; "sY255";
    "sY82"; "sY1064"; "sY1065"; "sY1182"; "sY88";
    "sY105"; "sY121"; "sY1192"; "sY153";
    "sY160"; "sY116"; "sY1291"; "sY1191" ].

(** The same without the alias spelling ZFX/Y. *)
Definition engine_markers_but_alias : list string :=
  List.filter (fun k => negb (String.eqb k "ZFX/Y")) engine_markers.

(** The subtypes [check_extension_markers] can store. *)
Definition extension_subtypes : list string :=
  [ "unknown"; "complete"; "partial_or_atypical"; "P5/proximal_P1";
    "partial"; "atypical"; "unknown_terminal_status"; "b2/b4"; "terminal" ].

(** A panel in which every marker the classifier reads is absent. *)
Definition all_absent_panel : gmap string MarkerStatus :=
  list_to_map ((fun k => (k, absent)) <$> engine_markers).

(** ** Running the primitives *)

Lemma bind_run {A B} (c : M A) (f : A -> M B) (h h' : heap) (a : A) :
  c h = Ret a h' -> bind c f h = f a h'.
Proof. unfold bind. intros ->. reflexivity. Qed.

Section Reads.

(** A heap in which [l] holds the dictionary [d]. *)
Variables (h : heap) (l : loc) (d : gmap string val).
Hypothesis Hl : h !! l = Some (ODict d).

Lemma the_dict_run : the_dict (VRef l) h = Ret d h.
Proof. unfold the_dict. rewrite Hl. reflexivity. Qed.

Lemma dict_get_run (k : string) : dict_get (VRef l) k h = Ret (getv d k) h.
Proof. unfold dict_get. rewrite (bind_run _ _ _ _ _ the_dict_run). reflexivity. Qed.

Lemma dict_get_default_run (k : string) (dflt : val) :
  dict_get_default (VRef l) k dflt h = Ret (default dflt (d !! k)) h.
Proof.
  unfold dict_get_default. rewrite (bind_run _ _ _ _ _ the_dict_run).
  reflexivity.
Qed.

Lemma dict_contains_run (k : string) :
  dict_contains (VRef l) k h = Ret (tested d k) h.
Proof.
  unfold dict_contains. rewrite (bind_run _ _ _ _ _ the_dict_run).
  reflexivity.
Qed.

Lemma dict_subscript_run (k : string) (v : val) :
  d !! k = Some v -> dict_subscript (VRef l) k h = Ret v h.
Proof.
  intros Hk. unfold dict_subscript.
  rewrite (bind_run _ _ _ _ _ the_dict_run). cbn. rewrite Hk. reflexivity.
Qed.

Lemma dict_subscript_tested (k : string) :
  tested d k = true -> dict_subscript (VRef l) k h = Ret (getv d k) h.
Proof.
  unfold tested, getv. intros Hk. apply bool_decide_eq_true in Hk.
  destruct Hk as [v Hv]. rewrite Hv. cbn. apply dict_subscript_run, Hv.
Qed.

Lemma get_eq_run (k s : string) :
  get_eq (VRef l) k s h = Ret (has_status d k s) h.
Proof.
  unfold get_eq. rewrite (bind_run _ _ _ _ _ (dict_get_run k)). reflexivity.
Qed.

End Reads.

(** Conjunction and disjunction of two conditions that only read. *)
Lemma py_and_run (a b : M bool) (h : heap) (x y : bool) :
  a h = Ret x h -> (x = true -> b h = Ret y h) -> py_and a b h = Ret (x && y) h.
Proof.
  intros Ha Hb. unfold py_and. rewrite (bind_run _ _ _ _ _ Ha).
  destruct x; cbn; auto.
Qed.

Lemma py_or_run (a b : M bool) (h : heap) (x y : bool) :
  a h = Ret x h -> (x = false -> b h = Ret y h) -> py_or a b h = Ret (x || y) h.
Proof.
  intros Ha Hb. unfold py_or. rewrite (bind_run _ _ _ _ _ Ha).
  destruct x; cbn; auto.
Qed.

Lemma untested_status (d : gmap string val) (k s : string) :
  tested d k = false -> has_status d k s = false.
Proof.
  unfold tested, has_status, getv, py_eq. intros Hk.
  apply bool_decide_eq_false in Hk.
  destruct (d !! k) as [v|]; [exfalso; eauto | reflexivity].
Qed.

Lemma untested_getv (d : gmap string val) (k : string) :
  tested d k = false -> getv d k = VNone.
Proof.
  unfold tested, getv. intros Hk. apply bool_decide_eq_false in Hk.
  destruct (d !! k) as [v|]; [exfalso; eauto | reflexivity].
Qed.

(** The first boolean a condition depends on. *)
Ltac cond_atom b :=
  lazymatch b with
  | negb ?c => cond_atom c
  | andb ?c _ => cond_atom c
  | orb ?c _ => cond_atom c
  | _ => b
  end.

(** Symbolic execution of code that reads the dictionary of [Hl]. *)
Ltac run_reads Hl :=
  repeat first
    [ rewrite (dict_get_run _ _ _ Hl)
    | rewrite (dict_get_default_run _ _ _ Hl)
    | rewrite (dict_contains_run _ _ _ Hl)
    | rewrite (get_eq_run _ _ _ Hl)
    | rewrite (dict_subscript_tested _ _ _ Hl) by assumption
    | progress cbv beta iota delta [bind ret raise py_and py_or py_or_val]
    | progress cbn [negb andb orb]
    | match goal with
      | |- context [(if ?b then _ else _) _] =>
          let c := cond_atom b in destruct c eqn:?
      end ].

(** ** Running the read-only functions *)

Section ReadOnly.

Variables (G : module_env) (h : heap) (l : loc) (d : gmap string val).
Hypothesis Hl : h !! l = Some (ODict d).

Lemma check_control_markers_run :
  check_control_markers (VRef l) h = Ret (control_value d) h.
Proof.
  unfold check_control_markers, control_value, zfxy_value.
  run_reads Hl; reflexivity.
Qed.

Lemma check_basic_deletion_loop_run (ms : list string) :
  check_basic_deletion_loop (VRef l) (VStr <$> ms) h
  = Ret (all_absent_value d ms) h.
Proof.
  induction ms as [|k ms IH]; [reflexivity|].
  cbn [fmap list_fmap check_basic_deletion_loop all_absent_value forallb].
  run_reads Hl.
  - unfold has_status, py_ne in *.
    destruct (py_eq (getv d k) "absent"); [discriminate | reflexivity].
  - unfold has_status, py_ne in *.
    destruct (py_eq (getv d k) "absent"); [|discriminate]. apply IH.
  - rewrite untested_status by assumption. reflexivity.
Qed.

Lemma check_azfbc_deletion_loop_run (ms : list string) :
  check_azfbc_deletion_loop (VRef l) (VStr <$> ms) h
  = Ret (all_absent_value d ms) h.
Proof.
  induction ms as [|k ms IH]; [reflexivity|].
  cbn [fmap list_fmap check_azfbc_deletion_loop all_absent_value forallb].
  run_reads Hl.
  - unfold has_status, py_ne in *.
    destruct (py_eq (getv d k) "absent"); [discriminate | reflexivity].
  - unfold has_status, py_ne in *.
    destruct (py_eq (getv d k) "absent"); [|discriminate]. apply IH.
  - rewrite untested_status by assumption. reflexivity.
Qed.

Lemma y_markers_absent_loop_run (ms : list string) :
  y_markers_absent_loop (VRef l) ms h = Ret (y_markers_absent_value d ms) h.
Proof.
  induction ms as [|k ms IH]; [reflexivity|].
  cbn [y_markers_absent_loop y_markers_absent_value forallb].
  run_reads Hl; first [apply IH | reflexivity].
Qed.

Lemma check_grgr_deletion_run :
  check_grgr_deletion (VRef l) h = Ret (grgr_value d) h.
Proof. unfold check_grgr_deletion, grgr_value. run_reads Hl; reflexivity. Qed.

End ReadOnly.

(** ** Fresh objects *)

Local Open Scope list_scope.

Section Fresh.

Variable h : heap.

Lemma lookup_old (objs : list obj) (l : loc) (o : obj) :
  h !! l = Some o -> (h ++ objs) !! l = Some o.
Proof. apply lookup_app_l_Some. Qed.

Lemma lookup_new0 (o : obj) (objs : list obj) :
  (h ++ o :: objs) !! length h = Some o.
Proof. apply list_lookup_middle. reflexivity. Qed.

Lemma lookup_new1 (o0 o1 : obj) (objs : list obj) :
  (h ++ o0 :: o1 :: objs) !! S (length h) = Some o1.
Proof.
  rewrite (cons_middle o0), app_assoc.
  apply list_lookup_middle. rewrite length_app. cbn. lia.
Qed.

Lemma insert_new0 (o o' : obj) (objs : list obj) :
  <[length h := o']> (h ++ o :: objs) = h ++ o' :: objs.
Proof. rewrite insert_app_r_alt by lia. rewrite Nat.sub_diag. reflexivity. Qed.

Lemma insert_new1 (o0 o1 o' : obj) (objs : list obj) :
  <[S (length h) := o']> (h ++ o0 :: o1 :: objs) = h ++ o0 :: o' :: objs.
Proof.
  rewrite insert_app_r_alt by lia.
  replace (S (length h) - length h) with 1 by lia. reflexivity.
Qed.

Lemma alloc_run (o : obj) : alloc o h = Ret (VRef (length h)) (h ++ [o]).
Proof. reflexivity. Qed.

Lemma alloc_run1 (o0 o : obj) :
  alloc o (h ++ [o0]) = Ret (VRef (S (length h))) (h ++ [o0; o]).
Proof.
  unfold alloc. rewrite length_app, <- app_assoc. cbn. rewrite Nat.add_1_r.
  reflexivity.
Qed.

Lemma dict_setitem_new0 (D : gmap string val) (objs : list obj)
    (k : string) (v : val) :
  dict_setitem (VRef (length h)) k v (h ++ ODict D :: objs)
  = Ret tt (h ++ ODict (<[k := v]> D) :: objs).
Proof. unfold dict_setitem. rewrite lookup_new0, insert_new0. reflexivity. Qed.

Lemma dict_setitem_new1 (o0 : obj) (R : gmap string val) (objs : list obj)
    (k : string) (v : val) :
  dict_setitem (VRef (S (length h))) k v (h ++ o0 :: ODict R :: objs)
  = Ret tt (h ++ o0 :: ODict (<[k := v]> R) :: objs).
Proof. unfold dict_setitem. rewrite lookup_new1, insert_new1. reflexivity. Qed.

Lemma dict_subscript_new0 (D : gmap string val) (objs : list obj)
    (k : string) (v : val) :
  D !! k = Some v ->
  dict_subscript (VRef (length h)) k (h ++ ODict D :: objs)
  = Ret v (h ++ ODict D :: objs).
Proof. apply dict_subscript_run, lookup_new0. Qed.

Lemma dict_subscript_new1 (o0 : obj) (R : gmap string val) (objs : list obj)
    (k : string) (v : val) :
  R !! k = Some v ->
  dict_subscript (VRef (S (length h))) k (h ++ o0 :: ODict R :: objs)
  = Ret v (h ++ o0 :: ODict R :: objs).
Proof. apply dict_subscript_run, lookup_new1. Qed.

End Fresh.

(** Comparison of two string literals. *)
Ltac eval_py_eq :=
  match goal with
  | |- context [py_eq (VStr ?a) (VStr ?b)] =>
      let r := eval vm_compute in (py_eq (VStr a) (VStr b)) in
      lazymatch r with
      | true => change (py_eq (VStr a) (VStr b)) with true
      | false => change (py_eq (VStr a) (VStr b)) with false
      end
  end.

(** Symbolic execution of code that reads the dictionary of [Hl], at
    any heap that extends the one of [Hl], and updates the two newest
    objects. *)
Ltac run_heap Hl :=
  repeat first
    [ rewrite (dict_get_run _ _ _ (Hl _))
    | rewrite (dict_get_default_run _ _ _ (Hl _))
    | rewrite (dict_contains_run _ _ _ (Hl _))
    | rewrite (get_eq_run _ _ _ (Hl _))
    | rewrite (dict_subscript_tested _ _ _ (Hl _)) by assumption
    | rewrite dict_setitem_new0
    | rewrite dict_setitem_new1
    | erewrite dict_subscript_new0 by reflexivity
    | erewrite dict_subscript_new1 by reflexivity
    | eval_py_eq
    | progress unfold has_status
    | progress cbv beta iota delta
        [bind ret raise py_and py_or py_or_val dict_setitem2 dict_subscript2]
    | progress cbn [negb andb orb]
    | match goal with
      | |- context [(if ?b then _ else _) _] =>
          let c := cond_atom b in destruct c eqn:?
      end ].

Section Extension.

Variables (h : heap) (l : loc) (d : gmap string val).
Hypothesis Hl : h !! l = Some (ODict d).

Lemma check_extension_markers_run (region : string) :
  exists D R,
    check_extension_markers (VRef l) region h
    = Ret (VRef (S (length h))) (h ++ [ODict D; ODict R])
    /\ R !! "complete" = Some (VBool (extension_value d region).1.1)
    /\ R !! "subtype" = Some (VStr (extension_value d region).1.2)
    /\ R !! "details" = Some (VRef (length h))
    /\ D !! "TESE_prognosis" = VStr <$> (extension_value d region).2.
Proof.
  pose proof (fun objs => lookup_old h objs l _ Hl) as Hl'.
  unfold check_extension_markers, extension_value, azfa_complete_value,
    azfb_boundaries_value.
  cbv beta iota delta [bind].
  rewrite alloc_run. cbv beta iota. rewrite alloc_run1. cbv beta iota.
  destruct (String.eqb region "AZFa");
    [|destruct (String.eqb region "AZFb");
      [|destruct (String.eqb region "AZFc")]].
  all: run_heap Hl'.
  all: eexists _, _; repeat split; reflexivity.
Qed.

End Extension.

(** ** Running the functions that read the module's tables *)

Lemma the_list_run (h : heap) (l : loc) (xs : list val) :
  h !! l = Some (OList xs) -> the_list (VRef l) h = Ret xs h.
Proof. intros Hl. unfold the_list. rewrite Hl. reflexivity. Qed.

Lemma basic_table_lookup (azfa azfb azfc : val) (region : string) :
  ({[ "AZFa" := azfa; "AZFb" := azfb; "AZFc" := azfc ]} : gmap string val)
    !! region
  = if String.eqb region "AZFa" then Some azfa
    else if String.eqb region "AZFb" then Some azfb
    else if String.eqb region "AZFc" then Some azfc
    else None.
Proof.
  destruct (String.eqb_spec region "AZFa") as [->|Ha]; [reflexivity|].
  rewrite lookup_insert_ne by congruence.
  destruct (String.eqb_spec region "AZFb") as [->|Hb]; [reflexivity|].
  rewrite lookup_insert_ne by congruence.
  destruct (String.eqb_spec region "AZFc") as [->|Hc]; [reflexivity|].
  rewrite lookup_singleton_ne by congruence. reflexivity.
Qed.

Lemma globals_ok_extend (G : module_env) (h objs : heap) :
  globals_ok G h -> globals_ok G (h ++ objs).
Proof.
  intros (basic & azfa & azfb & azfc & expected & HG).
  exists basic, azfa, azfb, azfc, expected.
  intuition auto using lookup_old.
Qed.

Section Tables.

Variables (G : module_env) (h : heap) (l : loc) (d : gmap string val).
Hypothesis HG : globals_ok G h.
Hypothesis Hl : h !! l = Some (ODict d).

Lemma check_basic_deletion_run (region : string) :
  check_basic_deletion G (VRef l) region h = Ret (basic_value d region) h.
Proof.
  destruct HG as (basic & azfa & azfb & azfc & expected
                  & HB & Hb & Ha & Hb' & Hc & _).
  unfold check_basic_deletion, basic_value, basic_markers_of.
  rewrite HB.
  cbv beta iota delta [bind].
  rewrite (dict_contains_run _ _ _ Hb). unfold tested.
  pose proof (basic_table_lookup (VRef azfa) (VRef azfb) (VRef azfc) region)
    as Ht.
  destruct (String.eqb region "AZFa");
    [|destruct (String.eqb region "AZFb");
      [|destruct (String.eqb region "AZFc")]].
  4: { rewrite Ht. reflexivity. }
  all: rewrite bool_decide_eq_true_2 by (rewrite Ht; eauto).
  all: cbv beta iota delta [ret negb].
  all: rewrite (dict_subscript_run _ _ _ Hb _ _ Ht).
  1: rewrite (the_list_run _ _ _ Ha).
  2: rewrite (the_list_run _ _ _ Hb').
  3: rewrite (the_list_run _ _ _ Hc).
  all: apply (check_basic_deletion_loop_run _ _ _ Hl).
Qed.

End Tables.

(** ** Running the functions that allocate *)

Section Allocating.

Variables (h : heap) (l : loc) (d : gmap string val).
Hypothesis Hl : h !! l = Some (ODict d).

Lemma the_list_new0 (xs : list val) (objs : list obj) :
  the_list (VRef (length h)) (h ++ OList xs :: objs)
  = Ret xs (h ++ OList xs :: objs).
Proof. apply the_list_run, lookup_new0. Qed.

Lemma list_append_new0 (xs : list val) (objs : list obj) (v : val) :
  list_append (VRef (length h)) v (h ++ OList xs :: objs)
  = Ret tt (h ++ OList (xs ++ [v]) :: objs).
Proof. unfold list_append. rewrite lookup_new0, insert_new0. reflexivity. Qed.

Lemma check_azfbc_deletion_run :
  check_azfbc_deletion (VRef l) h
  = Ret (azfbc_value d)
        (h ++ [str_list ["sY127"; "sY134"; "sY254"; "sY255"]]).
Proof.
  pose proof (fun objs => lookup_old h objs l _ Hl) as Hl'.
  unfold check_azfbc_deletion, azfbc_value.
  cbv beta iota delta [bind].
  rewrite alloc_run. cbv beta iota. unfold str_list at 1 2.
  rewrite the_list_new0.
  rewrite (check_azfbc_deletion_loop_run _ _ _ (Hl' _)).
  destruct (all_absent_value d _); cbv beta iota delta [negb ret];
    [|reflexivity].
  run_heap Hl'.
  all: rewrite ?untested_getv by assumption; reflexivity.
Qed.

Lemma missing_expected_loop_run (items acc : list string) :
  missing_expected_loop (VRef l) (VRef (length h)) (VStr <$> items)
    (h ++ [OList (VStr <$> acc)])
  = Ret tt (h ++ [OList (VStr <$> (acc ++ missing_expected_value d items))]).
Proof.
  pose proof (fun objs => lookup_old h objs l _ Hl) as Hl'.
  revert acc. induction items as [|k items IH]; intros acc.
  - cbn. rewrite app_nil_r. reflexivity.
  - cbn [fmap list_fmap missing_expected_loop missing_expected_value
         List.filter].
    run_heap Hl'.
    + rewrite list_append_new0.
      change (OList ((VStr <$> acc) ++ [VStr k]))
        with (OList ((VStr <$> acc) ++ (VStr <$> [k]))).
      rewrite <- fmap_app, IH, <- app_assoc. reflexivity.
    + apply IH.
    + apply IH.
Qed.

Lemma strs_of_run (ss : list string) (h' : heap) :
  strs_of (VStr <$> ss) h' = Ret ss h'.
Proof.
  induction ss as [|s ss IH]; [reflexivity|].
  cbn [fmap list_fmap strs_of the_str]. cbv beta iota delta [bind ret].
  rewrite IH. reflexivity.
Qed.

End Allocating.

(** ** Running the classifier *)

Lemma extension_value_AZFa (d : gmap string val) :
  extension_value d "AZFa"
  = if azfa_complete_value d then (true, "complete", None)
    else (false, "partial_or_atypical", None).
Proof. reflexivity. Qed.

Lemma extension_value_AZFb (d : gmap string val) :
  extension_value d "AZFb"
  = if azfb_boundaries_value d then
      (true, "P5/proximal_P1", Some "virtually_impossible")
    else if has_status d "sY1192" "present" then
      (false, "partial", Some "possible")
    else (false, "atypical", None).
Proof. reflexivity. Qed.

Lemma extension_value_AZFc (d : gmap string val) :
  extension_value d "AZFc"
  = if negb (tested d "sY160") then (false, "unknown_terminal_status", None)
    else if has_status d "sY160" "present" then
      (true, "b2/b4", Some "approximately_50_percent")
    else (true, "terminal", None).
Proof. reflexivity. Qed.

Section Classifier.

Variables (G : module_env) (h : heap) (l : loc) (d : gmap string val).
Hypothesis HG : globals_ok G h.
Hypothesis Hl : h !! l = Some (ODict d).

Lemma no_deletion_run :
  exists objs,
    (missing_expected <- alloc (OList []) ;;
     items <- the_list (EXPECTED_PRESENT_MARKERS G) ;;
     missing_expected_loop (VRef l) missing_expected items ;;;
     any_missing <- list_truthy missing_expected ;;
     if any_missing then
       joined <- str_join ", " missing_expected ;;
       ret ("INCONSISTENT_DATA: Expected present markers are absent: "
            ++ joined)%string
     else ret "NO_DELETION_DETECTED") h
    = Ret (match missing_expected_value d expected_present with
           | [] => "NO_DELETION_DETECTED"
           | missing =>
               ("INCONSISTENT_DATA: Expected present markers are absent: "
                ++ join_strs ", " missing)%string
           end) (h ++ objs).
Proof.
  destruct HG as (basic & azfa & azfb & azfc & expected
                  & _ & _ & _ & _ & _ & HE & He).
  rewrite HE. cbv beta iota delta [bind].
  rewrite alloc_run. cbv beta iota.
  rewrite (the_list_run _ _ _ (lookup_old h _ _ _ He)). unfold str_list.
  change (OList []) with (OList (VStr <$> [])).
  rewrite (missing_expected_loop_run h l d Hl). cbn [app].
  unfold list_truthy, str_join. cbv beta iota delta [bind ret].
  rewrite the_list_new0.
  destruct (missing_expected_value d expected_present) as [|k ks].
  - eexists. reflexivity.
  - change (negb (bool_decide (VStr <$> k :: ks = []))) with true.
    cbv beta iota. rewrite the_list_new0, strs_of_run.
    eexists. reflexivity.
Qed.

Lemma grgr_branch_run (x y : string) :
  (grgr <- check_grgr_deletion (VRef l) ;; if grgr then ret x else ret y) h
  = Ret (if grgr_value d then x else y) (h ++ []).
Proof.
  rewrite app_nil_r. cbv beta iota delta [bind].
  rewrite (check_grgr_deletion_run _ _ _ Hl).
  destruct (grgr_value d); reflexivity.
Qed.

Lemma classify_individual_deletions_run (a b c : bool) :
  exists objs,
    classify_individual_deletions G (VRef l) a b c h
    = Ret (individual_value d a b c) (h ++ objs).
Proof.
  unfold classify_individual_deletions, individual_value.
  destruct a, b, c; cbn [andb negb orb];
    try (eexists; apply grgr_branch_run).
  - destruct (check_extension_markers_run h l d Hl "AZFa")
      as (D & R & Hrun & Hc & Hs & Hd & Ht).
    rewrite extension_value_AZFa in *.
    cbv beta iota delta [bind]. rewrite Hrun. cbv beta iota.
    destruct (azfa_complete_value d); cbn [fst snd] in *.
    all: repeat (erewrite dict_subscript_new1 by eassumption;
                 cbv beta iota delta [truthy the_str ret]).
    all: eexists; reflexivity.
  - destruct (check_extension_markers_run h l d Hl "AZFb")
      as (D & R & Hrun & Hc & Hs & Hd & Ht).
    rewrite extension_value_AZFb in *.
    cbv beta iota delta [bind dict_subscript2]. rewrite Hrun. cbv beta iota.
    destruct (azfb_boundaries_value d);
      [|destruct (has_status d "sY1192" "present")];
      cbn [fst snd fmap option_fmap option_map] in *.
    all: repeat first
           [ erewrite dict_subscript_new1 by eassumption
           | erewrite dict_subscript_new0 by eassumption
           | eval_py_eq
           | progress cbv beta iota delta [the_str ret] ].
    all: eexists; reflexivity.
  - destruct (check_extension_markers_run h l d Hl "AZFc")
      as (D & R & Hrun & Hc & Hs & Hd & Ht).
    rewrite extension_value_AZFc in *.
    cbv beta iota delta [bind dict_subscript2]. rewrite Hrun. cbv beta iota.
    destruct (tested d "sY160");
      [destruct (has_status d "sY160" "present")|];
      cbn [negb fst snd fmap option_fmap option_map] in *.
    all: repeat first
           [ erewrite dict_subscript_new1 by eassumption
           | erewrite dict_subscript_new0 by eassumption
           | eval_py_eq
           | progress cbv beta iota delta [the_str ret] ].
    all: eexists; reflexivity.
  - cbv beta iota delta [bind].
    rewrite (check_grgr_deletion_run _ _ _ Hl).
    destruct (grgr_value d); cbv beta iota.
    + exists []. rewrite app_nil_r. reflexivity.
    + apply no_deletion_run.
Qed.

Lemma xx_male_run :
  py_and (py_and (get_eq (VRef l) "sY14" "absent")
                 (alias <- dict_get (VRef l) "ZFX/Y" ;;
                  zfxy <- dict_get_default (VRef l) "ZFX/ZFY" alias ;;
                  ret (py_eq zfxy "present")))
         (y_markers_absent_loop (VRef l)
            ["sY84"; "sY86"; "sY127"; "sY134"; "sY254"; "sY255"]) h
  = Ret (xx_male_value d) h.
Proof.
  unfold xx_male_value.
  apply py_and_run; [apply py_and_run|].
  - apply (get_eq_run _ _ _ Hl).
  - intros _. cbv beta iota delta [bind].
    rewrite (dict_get_run _ _ _ Hl), (dict_get_default_run _ _ _ Hl).
    reflexivity.
  - intros _. apply (y_markers_absent_loop_run _ _ _ Hl).
Qed.

Lemma discordant_run :
  py_and (py_and (dict_contains (VRef l) "sY254")
                 (dict_contains (VRef l) "sY255"))
         (sY254 <- dict_subscript (VRef l) "sY254" ;;
          sY255 <- dict_subscript (VRef l) "sY255" ;;
          ret (py_ne sY254 sY255)) h
  = Ret (discordant_value d) h.
Proof.
  unfold discordant_value.
  apply py_and_run; [apply py_and_run|].
  - apply (dict_contains_run _ _ _ Hl).
  - intros _. apply (dict_contains_run _ _ _ Hl).
  - intros [H1 H2]%andb_prop. cbv beta iota delta [bind].
    rewrite !(dict_subscript_tested _ _ _ Hl) by assumption. reflexivity.
Qed.

End Classifier.

Section ClassifierRun.

Variables (G : module_env) (h : heap) (l : loc) (d : gmap string val).
Hypothesis HG : globals_ok G h.
Hypothesis Hl : h !! l = Some (ODict d).

(** The classifier returns [label_value] of the panel and leaves every
    object of the heap it started from as it was: the new heap is the
    old one followed by the objects the call allocated. *)
Lemma classify_run :
  exists objs,
    classify_y_chromosome_state G (VRef l) h = Ret (label_value d) (h ++ objs).
Proof.
  unfold classify_y_chromosome_state, label_value.
  rewrite (bind_run _ _ _ _ _ (check_control_markers_run _ _ _ Hl)).
  destruct (control_value d) as [control_valid control_msg].
  destruct control_valid; cbv beta iota delta [negb];
    [|exists []; rewrite app_nil_r; reflexivity].
  rewrite (bind_run _ _ _ _ _ (xx_male_run _ _ _ Hl)).
  destruct (xx_male_value d); cbv beta iota;
    [exists []; rewrite app_nil_r; reflexivity|].
  rewrite (bind_run _ _ _ _ _ (check_basic_deletion_run G h l d HG Hl "AZFa")).
  rewrite (bind_run _ _ _ _ _ (check_basic_deletion_run G h l d HG Hl "AZFb")).
  rewrite (bind_run _ _ _ _ _ (check_basic_deletion_run G h l d HG Hl "AZFc")).
  rewrite (bind_run _ _ _ _ _ (discordant_run _ _ _ Hl)).
  destruct (discordant_value d); cbv beta iota;
    [exists []; rewrite app_nil_r; reflexivity|].
  destruct (basic_value d "AZFa"), (basic_value d "AZFb"),
    (basic_value d "AZFc"); cbn [andb negb].
  all: try apply (classify_individual_deletions_run G h l d HG Hl).
  - rewrite (bind_run _ _ _ _ _ (get_eq_run _ _ _ Hl _ _)).
    exists []. rewrite app_nil_r. destruct (has_status d "sY14" "absent");
      reflexivity.
  - rewrite (bind_run _ _ _ _ _ (check_azfbc_deletion_run _ _ _ Hl)).
    destruct (azfbc_value d) as [is_azfbc azfbc_msg].
    destruct is_azfbc; [eexists; reflexivity|].
    set (new := [str_list ["sY127"; "sY134"; "sY254"; "sY255"]]).
    destruct (classify_individual_deletions_run G (h ++ new) l d
                (globals_ok_extend _ _ new HG) (lookup_old _ new _ _ Hl)
                false true true) as [objs ->].
    eexists. rewrite <- app_assoc. reflexivity.
Qed.

End ClassifierRun.



(** ** The initial module state *)

Lemma module_init_run : module_init [] = Ret initial_env initial_heap.
Proof. reflexivity. Qed.

Lemma initial_globals_ok (objs : list obj) :
  globals_ok initial_env (initial_heap ++ objs).
Proof. exists 3, 0, 1, 2, 4. repeat split; reflexivity. Qed.

Lemma run_classifier_eq (m : gmap string MarkerStatus) :
  run_classifier m
  = classify_y_chromosome_state initial_env (VRef 5)
      (initial_heap ++ [panel_obj m]).
Proof. reflexivity. Qed.

(** Whole runs of the scenarios, evaluated. *)
Example run_scenario1 :
  returned_label (run_classifier scenario1)
  = Some "COMPLETE_AZFA_DELETION (TESE: virtually_impossible)".
Proof. vm_compute. reflexivity. Qed.

Example run_scenario3 :
  returned_label (run_classifier scenario3)
  = Some "PARTIAL_AZFC_GR/GR_DELETION (population-specific risk factor)".
Proof. vm_compute. reflexivity. Qed.

Example run_empty_panel :
  returned_label (run_classifier ∅)
  = Some "CRITICAL: ZFX/ZFY control marker not tested - cannot validate results".
Proof. vm_compute. reflexivity. Qed.

Example run_azfbc_panel :
  returned_label (run_classifier azfbc_panel)
  = Some "COMPLETE_AZFBC_DELETION_undetermined_P4_P5 (TESE: unknown)".
Proof. vm_compute. reflexivity. Qed.

(** ** Panels *)

Section Panel.

Variable m : gmap string MarkerStatus.

Lemma getv_panel (k : string) :
  getv (status_val <$> m) k
  = match m !! k with Some s => status_val s | None => VNone end.
Proof. unfold getv. rewrite lookup_fmap. destruct (m !! k); reflexivity. Qed.

Lemma tested_panel (k : string) :
  tested (status_val <$> m) k = bool_decide (is_Some (m !! k)).
Proof.
  unfold tested. rewrite lookup_fmap. apply bool_decide_ext.
  apply fmap_is_Some.
Qed.

Lemma has_status_panel (k : string) (s : MarkerStatus) :
  has_status (status_val <$> m) k (status_str s) = bool_decide (m !! k = Some s).
Proof.
  unfold has_status. rewrite getv_panel.
  destruct (m !! k) as [[]|], s; reflexivity.
Qed.

Lemma absent_panel (k : string) :
  has_status (status_val <$> m) k "absent" = bool_decide (m !! k = Some absent).
Proof. apply (has_status_panel k absent). Qed.

Lemma present_panel (k : string) :
  has_status (status_val <$> m) k "present"
  = bool_decide (m !! k = Some present).
Proof. apply (has_status_panel k present). Qed.

Lemma control_value_passes :
  control_passes m ->
  control_value (status_val <$> m) = (true, "Control markers valid").
Proof.
  intros [Hz [s Hs]]. unfold control_value, zfxy_value.
  rewrite tested_panel, !getv_panel, Hs.
  destruct Hz as [-> | [-> ->]]; reflexivity.
Qed.

End Panel.

(** ** The specification's claims *)

(** C1.  Totality: on every heap that holds the module's tables and a
    marker panel (any finite map from marker names to present/absent),
    [classify_y_chromosome_state] returns one label and raises no
    exception -- no [KeyError] from a subscript of the panel, of a table,
    or of the extension-analysis result and its [details]. *)
Theorem classify_total (G : module_env) (h : heap) (l : loc)
    (m : gmap string MarkerStatus) :
  globals_ok G h ->
  h !! l = Some (panel_obj m) ->
  (exists label h',
      classify_y_chromosome_state G (VRef l) h = Ret label h'
      /\ forall label' h'',
           classify_y_chromosome_state G (VRef l) h = Ret label' h'' ->
           label' = label)
  /\ forall e, classify_y_chromosome_state G (VRef l) h <> Raise e.
Proof.
  intros HG Hl. destruct (classify_run G h l _ HG Hl) as [objs Hrun].
  rewrite Hrun. split.
  - exists (label_value (status_val <$> m)), (h ++ objs).
    split; [reflexivity | congruence].
  - discriminate.
Qed.

Lemma classify_total_witness :
  (exists label h',
      classify_y_chromosome_state initial_env (VRef 5)
        (initial_heap ++ [panel_obj scenario1]) = Ret label h'
      /\ forall label' h'',
           classify_y_chromosome_state initial_env (VRef 5)
             (initial_heap ++ [panel_obj scenario1]) = Ret label' h'' ->
           label' = label)
  /\ forall e,
       classify_y_chromosome_state initial_env (VRef 5)
         (initial_heap ++ [panel_obj scenario1]) <> Raise e.
Proof.
  apply (classify_total initial_env (initial_heap ++ [panel_obj scenario1])
           5 scenario1).
  - exists 3, 0, 1, 2, 4. repeat split; reflexivity.
  - reflexivity.
Defined.

(** Shared step: the label of a run is [label_value] of the panel. *)
Lemma classify_label (G : module_env) (h : heap) (l : loc)
    (m : gmap string MarkerStatus) (label : string) :
  globals_ok G h ->
  h !! l = Some (panel_obj m) ->
  label_value (status_val <$> m) = label ->
  exists h', classify_y_chromosome_state G (VRef l) h = Ret label h'.
Proof.
  intros HG Hl <-. destruct (classify_run G h l _ HG Hl) as [objs Hrun].
  eauto.
Qed.

Lemma y_markers_not_all_absent (d : gmap string val) (ms : list string)
    (k : string) :
  k ∈ ms -> tested d k = true -> has_status d k "absent" = false ->
  y_markers_absent_value d ms = false.
Proof.
  intros Hk Ht Hs. unfold y_markers_absent_value.
  destruct (forallb _ ms) eqn:E; [|reflexivity].
  rewrite forallb_forall in E. apply list_elem_of_In in Hk.
  specialize (E k Hk). rewrite Ht, Hs in E. discriminate.
Qed.

(** C2 (amended).  For every panel that passes the control checks (the
    ZFX/ZFY status, or the ZFX/Y status when that key is missing, is
    present, and sY14 is tested) and in which sY254 and sY255 are both
    keys with differing statuses, the classifier returns the
    methodological-error label, whatever the other markers are. *)
Theorem discordant_after_control (G : module_env) (h : heap) (l : loc)
    (m : gmap string MarkerStatus) (a b : MarkerStatus) :
  globals_ok G h ->
  h !! l = Some (panel_obj m) ->
  control_passes m ->
  m !! "sY254" = Some a ->
  m !! "sY255" = Some b ->
  a <> b ->
  exists h',
    classify_y_chromosome_state G (VRef l) h
    = Ret "METHODOLOGICAL_ERROR: sY254 and sY255 results discordant (both should have same status)" h'.
Proof.
  intros HG Hl Hc Ha Hb Hab. apply (classify_label G h l m); [assumption..|].
  unfold label_value. rewrite (control_value_passes m Hc).
  cbv beta iota delta [negb].
  assert (xx_male_value (status_val <$> m) = false) as ->.
  { unfold xx_male_value.
    destruct a, b; try congruence.
    - rewrite (y_markers_not_all_absent _ _ "sY254"), andb_false_r;
        [reflexivity | set_solver | |].
      + rewrite tested_panel, Ha. reflexivity.
      + rewrite absent_panel, Ha. reflexivity.
    - rewrite (y_markers_not_all_absent _ _ "sY255"), andb_false_r;
        [reflexivity | set_solver | |].
      + rewrite tested_panel, Hb. reflexivity.
      + rewrite absent_panel, Hb. reflexivity. }
  assert (discordant_value (status_val <$> m) = true) as ->.
  { unfold discordant_value. rewrite !tested_panel, !getv_panel, Ha, Hb.
    destruct a, b; try congruence; reflexivity. }
  reflexivity.
Qed.

Lemma discordant_after_control_witness :
  exists h',
    classify_y_chromosome_state initial_env (VRef 5)
      (initial_heap ++ [panel_obj discordant_deleted_panel])
    = Ret "METHODOLOGICAL_ERROR: sY254 and sY255 results discordant (both should have same status)" h'.
Proof.
  apply (discordant_after_control initial_env
           (initial_heap ++ [panel_obj discordant_deleted_panel]) 5
           discordant_deleted_panel absent present).
  - exists 3, 0, 1, 2, 4. repeat split; reflexivity.
  - reflexivity.
  - split; [left; reflexivity | exists present; reflexivity].
  - reflexivity.
  - reflexivity.
  - discriminate.
Defined.

(** C2 as stated fails: a panel with discordant sY254 and sY255 but no
    control marker gets the control-failure label, not the
    methodological-error label. *)
Lemma discordant_without_control_counterexample :
  discordant_panel !! "sY254" = Some absent
  /\ discordant_panel !! "sY255" = Some present
  /\ returned_label (run_classifier discordant_panel)
     = Some "CRITICAL: ZFX/ZFY control marker not tested - cannot validate results"
  /\ returned_label (run_classifier discordant_panel)
     <> Some "METHODOLOGICAL_ERROR: sY254 and sY255 results discordant (both should have same status)".
Proof.
  assert (returned_label (run_classifier discordant_panel)
          = Some "CRITICAL: ZFX/ZFY control marker not tested - cannot validate results")
    as E by (vm_compute; reflexivity).
  split; [reflexivity|]. split; [reflexivity|].
  split; [exact E | rewrite E; discriminate].
Qed.

(** C3.  A panel with neither the key ZFX/ZFY nor the key ZFX/Y gets the
    "control marker not tested" label, whatever its other markers are;
    the empty panel is one such panel. *)
Theorem control_not_tested (G : module_env) (h : heap) (l : loc)
    (m : gmap string MarkerStatus) :
  globals_ok G h ->
  h !! l = Some (panel_obj m) ->
  m !! "ZFX/ZFY" = None ->
  m !! "ZFX/Y" = None ->
  exists h',
    classify_y_chromosome_state G (VRef l) h
    = Ret "CRITICAL: ZFX/ZFY control marker not tested - cannot validate results" h'.
Proof.
  intros HG Hl H1 H2. apply (classify_label G h l m); [assumption..|].
  unfold label_value, control_value, zfxy_value.
  rewrite !getv_panel, H1, H2. reflexivity.
Qed.

Lemma control_not_tested_witness :
  exists h',
    classify_y_chromosome_state initial_env (VRef 5)
      (initial_heap ++ [panel_obj ∅])
    = Ret "CRITICAL: ZFX/ZFY control marker not tested - cannot validate results" h'.
Proof.
  apply (control_not_tested initial_env (initial_heap ++ [panel_obj ∅]) 5 ∅).
  - exists 3, 0, 1, 2, 4. repeat split; reflexivity.
  - reflexivity.
  - reflexivity.
  - reflexivity.
Defined.

(** C4.  For each of the regions AZFa, AZFb and AZFc,
    [check_basic_deletion] returns true exactly when both basic markers
    of the region are keys of the panel with status absent; it returns
    false whenever one of the two is not a key. *)
Theorem check_basic_deletion_iff (G : module_env) (h : heap) (l : loc)
    (m : gmap string MarkerStatus) (region : string) :
  globals_ok G h ->
  h !! l = Some (panel_obj m) ->
  region ∈ ["AZFa"; "AZFb"; "AZFc"] ->
  exists k1 k2 b,
    basic_markers_of region = Some [k1; k2]
    /\ check_basic_deletion G (VRef l) region h = Ret b h
    /\ (b = true <-> m !! k1 = Some absent /\ m !! k2 = Some absent)
    /\ (m !! k1 = None \/ m !! k2 = None -> b = false).
Proof.
  intros HG Hl Hr.
  assert (exists k1 k2, basic_markers_of region = Some [k1; k2])
    as (k1 & k2 & Hks).
  { apply list_elem_of_In in Hr. cbn in Hr.
    destruct Hr as [<-|[<-|[<-|[]]]]; eexists _, _; reflexivity. }
  exists k1, k2, (basic_value (status_val <$> m) region).
  split; [exact Hks|]. split; [apply (check_basic_deletion_run G h l _ HG Hl)|].
  unfold basic_value. rewrite Hks. cbn [all_absent_value forallb].
  rewrite !absent_panel, andb_true_r. split.
  - rewrite andb_true_iff, !bool_decide_eq_true. reflexivity.
  - intros [Hn|Hn]; rewrite Hn.
    + reflexivity.
    + apply andb_false_r.
Qed.

Lemma check_basic_deletion_iff_witness :
  exists k1 k2 b,
    basic_markers_of "AZFa" = Some [k1; k2]
    /\ check_basic_deletion initial_env (VRef 5) "AZFa"
         (initial_heap ++ [panel_obj scenario1])
       = Ret b (initial_heap ++ [panel_obj scenario1])
    /\ (b = true <->
        scenario1 !! k1 = Some absent /\ scenario1 !! k2 = Some absent)
    /\ (scenario1 !! k1 = None \/ scenario1 !! k2 = None -> b = false).
Proof.
  apply (check_basic_deletion_iff initial_env
           (initial_heap ++ [panel_obj scenario1]) 5 scenario1 "AZFa").
  - exists 3, 0, 1, 2, 4. repeat split; reflexivity.
  - reflexivity.
  - apply list_elem_of_here.
Defined.

(** C5 (amended).  The panel with ZFX/ZFY, sY14, sY160 and the six basic
    markers all present is classified "NO_DELETION_DETECTED"; the panel
    that differs from it only in sY254 and sY255 being absent is
    classified "COMPLETE_AZFC_DELETION_B2/B4" with the TESE prognosis
    approximately_50_percent. *)
Theorem scenario2_labels (G : module_env) (h : heap) (l : loc) :
  globals_ok G h ->
  (h !! l = Some (panel_obj scenario2) ->
   exists h',
     classify_y_chromosome_state G (VRef l) h = Ret "NO_DELETION_DETECTED" h')
  /\ (h !! l = Some (panel_obj scenario2_azfc_absent) ->
      exists h',
        classify_y_chromosome_state G (VRef l) h
        = Ret "COMPLETE_AZFC_DELETION_B2/B4 (TESE: approximately_50_percent)" h').
Proof.
  intros HG. split; intros Hl.
  - apply (classify_label G h l scenario2); [assumption..|].
    vm_compute. reflexivity.
  - apply (classify_label G h l scenario2_azfc_absent); [assumption..|].
    vm_compute. reflexivity.
Qed.

Lemma scenario2_labels_witness :
  (exists h',
      classify_y_chromosome_state initial_env (VRef 5)
        (initial_heap ++ [panel_obj scenario2; panel_obj scenario2_azfc_absent])
      = Ret "NO_DELETION_DETECTED" h')
  /\ (exists h',
        classify_y_chromosome_state initial_env (VRef 6)
          (initial_heap
             ++ [panel_obj scenario2; panel_obj scenario2_azfc_absent])
        = Ret "COMPLETE_AZFC_DELETION_B2/B4 (TESE: approximately_50_percent)" h').
Proof.
  split.
  - apply (scenario2_labels initial_env
             (initial_heap
                ++ [panel_obj scenario2; panel_obj scenario2_azfc_absent]) 5);
      [exists 3, 0, 1, 2, 4; repeat split; reflexivity | reflexivity].
  - apply (scenario2_labels initial_env
             (initial_heap
                ++ [panel_obj scenario2; panel_obj scenario2_azfc_absent]) 6);
      [exists 3, 0, 1, 2, 4; repeat split; reflexivity | reflexivity].
Defined.

(** C5 as stated fails: with every basic marker present the run returns
    "NO_DELETION_DETECTED", which does not contain
    "COMPLETE_AZFC_DELETION_B2/B4". *)
Lemma scenario2_counterexample :
  returned_label (run_classifier scenario2) = Some "NO_DELETION_DETECTED"
  /\ ~ exists label,
         returned_label (run_classifier scenario2) = Some label
         /\ substring_of "COMPLETE_AZFC_DELETION_B2/B4" label = true.
Proof.
  assert (returned_label (run_classifier scenario2)
          = Some "NO_DELETION_DETECTED") as E by (vm_compute; reflexivity).
  split; [exact E|]. intros (label & Hl & Hs). rewrite E in Hl.
  injection Hl as <-. vm_compute in Hs. discriminate.
Qed.

(** C6.  Scenario 1: the panel ZFX/ZFY present, sY14 present, sY84
    absent, sY86 absent, sY82 present, sY1064 absent, sY88 present,
    sY1065 absent is classified exactly
    "COMPLETE_AZFA_DELETION (TESE: virtually_impossible)". *)
Theorem scenario1_complete_azfa (G : module_env) (h : heap) (l : loc) :
  globals_ok G h ->
  h !! l = Some (panel_obj scenario1) ->
  exists h',
    classify_y_chromosome_state G (VRef l) h
    = Ret "COMPLETE_AZFA_DELETION (TESE: virtually_impossible)" h'.
Proof.
  intros HG Hl. apply (classify_label G h l scenario1); [assumption..|].
  vm_compute. reflexivity.
Qed.

Lemma scenario1_complete_azfa_witness :
  exists h',
    classify_y_chromosome_state initial_env (VRef 5)
      (initial_heap ++ [panel_obj scenario1])
    = Ret "COMPLETE_AZFA_DELETION (TESE: virtually_impossible)" h'.
Proof.
  apply (scenario1_complete_azfa initial_env
           (initial_heap ++ [panel_obj scenario1]) 5).
  - exists 3, 0, 1, 2, 4. repeat split; reflexivity.
  - reflexivity.
Defined.

(** C9.  The panel with exactly ZFX/ZFY present and sY14 absent, none
    of the six basic markers tested, is classified
    "46,XX_MALE_OR_COMPLETE_Y_CHROMOSOME_ABSENCE". *)
Theorem xx_male_untested (G : module_env) (h : heap) (l : loc) :
  globals_ok G h ->
  h !! l = Some (panel_obj xx_male_panel) ->
  exists h',
    classify_y_chromosome_state G (VRef l) h
    = Ret "46,XX_MALE_OR_COMPLETE_Y_CHROMOSOME_ABSENCE" h'.
Proof.
  intros HG Hl. apply (classify_label G h l xx_male_panel); [assumption..|].
  vm_compute. reflexivity.
Qed.

Lemma xx_male_untested_witness :
  exists h',
    classify_y_chromosome_state initial_env (VRef 5)
      (initial_heap ++ [panel_obj xx_male_panel])
    = Ret "46,XX_MALE_OR_COMPLETE_Y_CHROMOSOME_ABSENCE" h'.
Proof.
  apply (xx_male_untested initial_env
           (initial_heap ++ [panel_obj xx_male_panel]) 5).
  - exists 3, 0, 1, 2, 4. repeat split; reflexivity.
  - reflexivity.
Defined.

(** C10.  The classifier is a function of the panel alone and changes no
    object that existed before the call: the heap after a call is the
    heap before it followed by the objects the call allocated, so the
    panel and every module table are as they were; a second call on the
    heap the first one left returns the same label; and so does a call
    in any other state that holds the same panel. *)
Theorem classify_pure (G : module_env) (h : heap) (l : loc)
    (m : gmap string MarkerStatus) :
  globals_ok G h ->
  h !! l = Some (panel_obj m) ->
  exists label objs,
    classify_y_chromosome_state G (VRef l) h = Ret label (h ++ objs)
    /\ (h ++ objs) !! l = Some (panel_obj m)
    /\ globals_ok G (h ++ objs)
    /\ (exists objs',
          classify_y_chromosome_state G (VRef l) (h ++ objs)
          = Ret label ((h ++ objs) ++ objs'))
    /\ forall G2 h2 l2,
         globals_ok G2 h2 ->
         h2 !! l2 = Some (panel_obj m) ->
         exists objs2,
           classify_y_chromosome_state G2 (VRef l2) h2
           = Ret label (h2 ++ objs2).
Proof.
  intros HG Hl. destruct (classify_run G h l _ HG Hl) as [objs Hrun].
  exists (label_value (status_val <$> m)), objs.
  split; [exact Hrun|].
  split; [apply lookup_old, Hl|].
  split; [apply globals_ok_extend, HG|].
  split.
  - apply classify_run; [apply globals_ok_extend, HG | apply lookup_old, Hl].
  - intros G2 h2 l2 HG2 Hl2. apply classify_run; assumption.
Qed.

Lemma classify_pure_witness :
  exists label objs,
    classify_y_chromosome_state initial_env (VRef 5)
      (initial_heap ++ [panel_obj scenario1])
    = Ret label ((initial_heap ++ [panel_obj scenario1]) ++ objs)
    /\ ((initial_heap ++ [panel_obj scenario1]) ++ objs) !! 5
       = Some (panel_obj scenario1)
    /\ globals_ok initial_env ((initial_heap ++ [panel_obj scenario1]) ++ objs)
    /\ (exists objs',
          classify_y_chromosome_state initial_env (VRef 5)
            ((initial_heap ++ [panel_obj scenario1]) ++ objs)
          = Ret label (((initial_heap ++ [panel_obj scenario1]) ++ objs)
                         ++ objs'))
    /\ forall G2 h2 l2,
         globals_ok G2 h2 ->
         h2 !! l2 = Some (panel_obj scenario1) ->
         exists objs2,
           classify_y_chromosome_state G2 (VRef l2) h2
           = Ret label (h2 ++ objs2).
Proof.
  apply (classify_pure initial_env (initial_heap ++ [panel_obj scenario1])
           5 scenario1).
  - exists 3, 0, 1, 2, 4. repeat split; reflexivity.
  - reflexivity.
Defined.

(** ** Renaming the control marker *)

Section Alias.

(** Two dictionaries that agree except that the first holds the control
    marker under ["ZFX/ZFY"] and the second under ["ZFX/Y"]. *)
Variables d d' : gmap string val.
Hypothesis Hd1 : d !! "ZFX/ZFY" = Some (VStr "present").
Hypothesis Hd2 : d !! "ZFX/Y" = None.
Hypothesis Hd1' : d' !! "ZFX/ZFY" = None.
Hypothesis Hd2' : d' !! "ZFX/Y" = Some (VStr "present").
Hypothesis Hother :
  forall k, k <> "ZFX/ZFY" -> k <> "ZFX/Y" -> d' !! k = d !! k.

Lemma getv_alias (k : string) :
  k <> "ZFX/ZFY" -> k <> "ZFX/Y" -> getv d' k = getv d k.
Proof. intros H1 H2. unfold getv. rewrite Hother by assumption. reflexivity. Qed.

Lemma tested_alias (k : string) :
  k <> "ZFX/ZFY" -> k <> "ZFX/Y" -> tested d' k = tested d k.
Proof.
  intros H1 H2. unfold tested. rewrite Hother by assumption. reflexivity.
Qed.

Lemma has_status_alias (k s : string) :
  k <> "ZFX/ZFY" -> k <> "ZFX/Y" -> has_status d' k s = has_status d k s.
Proof. intros H1 H2. unfold has_status. rewrite getv_alias by assumption. reflexivity. Qed.

Ltac alias_rewrite :=
  rewrite ?has_status_alias, ?tested_alias, ?getv_alias
    by (intros ?; discriminate).

Lemma control_value_alias : control_value d' = control_value d.
Proof.
  unfold control_value, zfxy_value, getv.
  rewrite Hd1, Hd2, Hd1', Hd2'. cbn [default truthy String.eqb negb].
  alias_rewrite. reflexivity.
Qed.

Lemma xx_male_value_alias : xx_male_value d' = xx_male_value d.
Proof.
  unfold xx_male_value, y_markers_absent_value, getv.
  rewrite Hd1, Hd2, Hd1', Hd2'. cbn [default forallb].
  alias_rewrite. reflexivity.
Qed.

Lemma all_absent_value_alias (ms : list string) :
  Forall (fun k => k <> "ZFX/ZFY" /\ k <> "ZFX/Y") ms ->
  all_absent_value d' ms = all_absent_value d ms.
Proof.
  induction 1 as [|k ms [H1 H2] _ IH]; [reflexivity|].
  cbn [all_absent_value forallb]. rewrite has_status_alias by assumption.
  f_equal. apply IH.
Qed.

Lemma basic_value_alias (region : string) :
  basic_value d' region = basic_value d region.
Proof.
  unfold basic_value, basic_markers_of.
  repeat (destruct (String.eqb region _);
          [apply all_absent_value_alias;
           repeat constructor; intros ?; discriminate|]).
  reflexivity.
Qed.

Lemma discordant_value_alias : discordant_value d' = discordant_value d.
Proof. unfold discordant_value. alias_rewrite. reflexivity. Qed.

Lemma azfbc_value_alias : azfbc_value d' = azfbc_value d.
Proof.
  unfold azfbc_value.
  rewrite all_absent_value_alias
    by (repeat constructor; intros ?; discriminate).
  alias_rewrite. reflexivity.
Qed.

Lemma missing_expected_value_alias :
  missing_expected_value d' expected_present
  = missing_expected_value d expected_present.
Proof.
  unfold missing_expected_value. apply filter_ext_in. intros k Hk.
  cbn in Hk.
  destruct Hk as [<-|[<-|[<-|[<-|[<-|[<-|[<-|[<-|[]]]]]]]]];
    try (alias_rewrite; reflexivity).
  unfold tested, getv. rewrite Hd1, Hd1'. reflexivity.
Qed.

Lemma individual_value_alias (a b c : bool) :
  individual_value d' a b c = individual_value d a b c.
Proof.
  unfold individual_value, grgr_value, azfa_complete_value,
    azfb_boundaries_value.
  rewrite missing_expected_value_alias. alias_rewrite. reflexivity.
Qed.

Lemma label_value_alias : label_value d' = label_value d.
Proof.
  unfold label_value.
  rewrite control_value_alias, xx_male_value_alias, !basic_value_alias,
    discordant_value_alias, azfbc_value_alias.
  rewrite !individual_value_alias. alias_rewrite. reflexivity.
Qed.

End Alias.

(** C7.  Alias equivalence: when a panel holds ZFX/ZFY present and no
    ZFX/Y key, renaming that key to ZFX/Y leaves the classification
    unchanged. *)
Theorem alias_equivalence (G : module_env) (h : heap) (l l' : loc)
    (P : gmap string MarkerStatus) :
  globals_ok G h ->
  P !! "ZFX/ZFY" = Some present ->
  P !! "ZFX/Y" = None ->
  h !! l = Some (panel_obj P) ->
  h !! l' = Some (panel_obj (<["ZFX/Y" := present]> (delete "ZFX/ZFY" P))) ->
  exists label h1 h1',
    classify_y_chromosome_state G (VRef l) h = Ret label h1
    /\ classify_y_chromosome_state G (VRef l') h = Ret label h1'.
Proof.
  intros HG H1 H2 Hl Hl'.
  destruct (classify_run G h l _ HG Hl) as [objs Hrun].
  destruct (classify_run G h l' _ HG Hl') as [objs' Hrun'].
  exists (label_value (status_val <$> P)), (h ++ objs), (h ++ objs').
  split; [exact Hrun|]. rewrite Hrun'. f_equal.
  apply label_value_alias.
  - rewrite lookup_fmap, H1. reflexivity.
  - rewrite lookup_fmap, H2. reflexivity.
  - rewrite lookup_fmap, lookup_insert_ne by discriminate.
    rewrite lookup_delete_eq. reflexivity.
  - rewrite lookup_fmap, lookup_insert_eq. reflexivity.
  - intros k Hk1 Hk2.
    rewrite !lookup_fmap, lookup_insert_ne, lookup_delete_ne by congruence.
    reflexivity.
Qed.

Lemma alias_equivalence_witness :
  exists label h1 h1',
    classify_y_chromosome_state initial_env (VRef 5)
      (initial_heap
         ++ [panel_obj scenario1;
             panel_obj (<["ZFX/Y" := present]> (delete "ZFX/ZFY" scenario1))])
    = Ret label h1
    /\ classify_y_chromosome_state initial_env (VRef 6)
         (initial_heap
            ++ [panel_obj scenario1;
                panel_obj (<["ZFX/Y" := present]> (delete "ZFX/ZFY" scenario1))])
       = Ret label h1'.
Proof.
  apply (alias_equivalence initial_env
           (initial_heap
              ++ [panel_obj scenario1;
                  panel_obj (<["ZFX/Y" := present]>
                               (delete "ZFX/ZFY" scenario1))])
           5 6 scenario1).
  - exists 3, 0, 1, 2, 4. repeat split; reflexivity.
  - reflexivity.
  - reflexivity.
  - reflexivity.
  - reflexivity.
Defined.

(** ** The combined AZFbc check *)

Lemma ret_inv {A} (a b : A) (h h' : heap) : Ret a h = Ret b h' -> a = b.
Proof. congruence. Qed.

Lemma has_status_getv (d : gmap string val) (k s : string) :
  has_status d k s = true -> getv d k = VStr s.
Proof. unfold has_status, py_eq. apply bool_decide_eq_true. Qed.

Lemma basic_b_c_absent (d : gmap string val) :
  basic_value d "AZFb" = true ->
  basic_value d "AZFc" = true ->
  has_status d "sY127" "absent" = true
  /\ has_status d "sY134" "absent" = true
  /\ has_status d "sY254" "absent" = true
  /\ has_status d "sY255" "absent" = true.
Proof.
  unfold basic_value. cbn [basic_markers_of String.eqb Ascii.eqb Bool.eqb].
  cbn [all_absent_value AZFb_basic AZFc_basic forallb].
  rewrite !andb_true_iff. tauto.
Qed.

(** C8.  When [check_basic_deletion] is true for both AZFb and AZFc,
    [check_azfbc_deletion] confirms; and when moreover it is false for
    AZFa, the classifier returns a control failure, the 46,XX label or
    the AZFbc message: it never goes on from the AZFbc check to the
    statements after it. *)
Theorem azfbc_always_confirms (G : module_env) (h : heap) (l : loc)
    (m : gmap string MarkerStatus) :
  globals_ok G h ->
  h !! l = Some (panel_obj m) ->
  check_basic_deletion G (VRef l) "AZFb" h = Ret true h ->
  check_basic_deletion G (VRef l) "AZFc" h = Ret true h ->
  exists azfbc_msg h',
    check_azfbc_deletion (VRef l) h = Ret (true, azfbc_msg) h'
    /\ (check_basic_deletion G (VRef l) "AZFa" h = Ret false h ->
        exists label h'',
          classify_y_chromosome_state G (VRef l) h = Ret label h''
          /\ (check_control_markers (VRef l) h = Ret (false, label) h
              \/ label = "46,XX_MALE_OR_COMPLETE_Y_CHROMOSOME_ABSENCE"
              \/ label = azfbc_msg)).
Proof.
  intros HG Hl Hb Hc.
  rewrite (check_basic_deletion_run G h l _ HG Hl) in Hb, Hc.
  apply ret_inv in Hb, Hc.
  destruct (basic_b_c_absent _ Hb Hc) as (H127 & H134 & H254 & H255).
  set (d := status_val <$> m) in *.
  assert (exists msg, azfbc_value d = (true, msg)) as [msg Hmsg].
  { unfold azfbc_value. cbn [all_absent_value forallb].
    rewrite H127, H134, H254, H255. cbn [andb negb].
    destruct (if tested d "sY116" then _ else _) as [subtype tese].
    eexists. reflexivity. }
  exists msg, (h ++ [str_list ["sY127"; "sY134"; "sY254"; "sY255"]]).
  split.
  { rewrite (check_azfbc_deletion_run h l d Hl), Hmsg. reflexivity. }
  intros Ha. rewrite (check_basic_deletion_run G h l _ HG Hl) in Ha.
  apply ret_inv in Ha. fold d in Ha.
  destruct (classify_run G h l d HG Hl) as [objs Hrun].
  exists (label_value d), (h ++ objs). split; [exact Hrun|].
  rewrite (check_control_markers_run h l d Hl).
  unfold label_value.
  destruct (control_value d) as [[] control_msg]; cbv beta iota delta [negb];
    [|left; reflexivity].
  destruct (xx_male_value d); [right; left; reflexivity|].
  right; right.
  assert (discordant_value d = false) as ->.
  { unfold discordant_value.
    rewrite (has_status_getv _ _ _ H254), (has_status_getv _ _ _ H255).
    apply andb_false_r. }
  rewrite Ha, Hb, Hc, Hmsg. reflexivity.
Qed.

Lemma azfbc_always_confirms_witness :
  exists azfbc_msg h',
    check_azfbc_deletion (VRef 5) (initial_heap ++ [panel_obj azfbc_panel])
    = Ret (true, azfbc_msg) h'
    /\ (check_basic_deletion initial_env (VRef 5) "AZFa"
          (initial_heap ++ [panel_obj azfbc_panel])
        = Ret false (initial_heap ++ [panel_obj azfbc_panel]) ->
        exists label h'',
          classify_y_chromosome_state initial_env (VRef 5)
            (initial_heap ++ [panel_obj azfbc_panel]) = Ret label h''
          /\ (check_control_markers (VRef 5)
                (initial_heap ++ [panel_obj azfbc_panel])
              = Ret (false, label) (initial_heap ++ [panel_obj azfbc_panel])
              \/ label = "46,XX_MALE_OR_COMPLETE_Y_CHROMOSOME_ABSENCE"
              \/ label = azfbc_msg)).
Proof.
  apply (azfbc_always_confirms initial_env
           (initial_heap ++ [panel_obj azfbc_panel]) 5 azfbc_panel).
  - exists 3, 0, 1, 2, 4. repeat split; reflexivity.
  - reflexivity.
  - vm_compute. reflexivity.
  - vm_compute. reflexivity.
Defined.

(** ** From the panel's conditions to the values *)

Section PanelConditions.

Variable m : gmap string MarkerStatus.

Lemma tested_panel_absent (k : string) :
  is_absent m k = true -> tested (status_val <$> m) k = true.
Proof.
  unfold is_absent. rewrite bool_decide_eq_true, tested_panel. intros ->.
  reflexivity.
Qed.

Lemma all_absent_value_panel (ms : list string) :
  all_absent_value (status_val <$> m) ms = forallb (is_absent m) ms.
Proof.
  unfold all_absent_value. induction ms as [|k ms IH]; [reflexivity|].
  cbn [forallb]. rewrite absent_panel, IH. reflexivity.
Qed.

Lemma basic_value_panel (region : string) :
  basic_value (status_val <$> m) region = region_deleted m region.
Proof.
  unfold basic_value, region_deleted.
  destruct (basic_markers_of region); [apply all_absent_value_panel|reflexivity].
Qed.

Lemma y_markers_absent_value_panel (ms : list string) :
  y_markers_absent_value (status_val <$> m) ms
  = forallb (fun k => negb (is_present m k)) ms.
Proof.
  unfold y_markers_absent_value. induction ms as [|k ms IH]; [reflexivity|].
  cbn [forallb]. rewrite IH. f_equal.
  rewrite tested_panel, absent_panel. unfold is_present.
  destruct (m !! k) as [[]|]; reflexivity.
Qed.

Lemma xx_male_value_panel :
  control_passes m -> xx_male_value (status_val <$> m) = xx_signature m.
Proof.
  intros [Hz _]. unfold xx_male_value, xx_signature.
  rewrite absent_panel, y_markers_absent_value_panel.
  rewrite getv_panel, lookup_fmap.
  destruct Hz as [-> | [-> ->]]; cbn; rewrite andb_true_r; reflexivity.
Qed.

Lemma discordant_value_panel :
  discordant_value (status_val <$> m) = discordant m.
Proof.
  unfold discordant_value, discordant. rewrite !tested_panel, !getv_panel.
  destruct (m !! "sY254") as [[]|], (m !! "sY255") as [[]|]; reflexivity.
Qed.

Lemma grgr_value_panel : grgr_value (status_val <$> m) = grgr_positive m.
Proof.
  unfold grgr_value, grgr_positive. rewrite absent_panel, present_panel.
  reflexivity.
Qed.

Lemma missing_expected_value_panel (ms : list string) :
  missing_expected_value (status_val <$> m) ms = List.filter (is_absent m) ms.
Proof.
  unfold missing_expected_value. apply filter_ext. intros k.
  rewrite tested_panel, getv_panel. unfold is_absent.
  destruct (m !! k) as [[]|]; reflexivity.
Qed.

(** The control stage on a panel: it passes, or it fails with one of
    three messages. *)
Lemma control_value_cases :
  (control_passes m
   /\ control_value (status_val <$> m) = (true, "Control markers valid"))
  \/ (~ control_passes m
      /\ exists msg,
          control_value (status_val <$> m) = (false, msg)
          /\ msg ∈ ["CRITICAL: ZFX/ZFY control marker not tested - cannot validate results";
                    "CRITICAL: ZFX/ZFY control marker absent - technical failure or sample issue";
                    "CRITICAL: sY14 (SRY) marker not tested - cannot determine sex chromosome status"]).
Proof.
  unfold control_passes, control_value, zfxy_value.
  rewrite tested_panel, !getv_panel.
  destruct (m !! "ZFX/ZFY") as [[]|] eqn:E1; cbn.
  - destruct (m !! "sY14") as [s|] eqn:E2; cbn.
    + left. split; [split; [left; reflexivity | eauto] | reflexivity].
    + right. split.
      * intros [_ [s Hs]]. discriminate.
      * eexists. split; [reflexivity | set_solver].
  - right. split.
    + intros [[?|[? _]] _]; discriminate.
    + eexists. split; [reflexivity | set_solver].
  - destruct (m !! "ZFX/Y") as [[]|] eqn:E3; cbn.
    + destruct (m !! "sY14") as [s|] eqn:E2; cbn.
      * left. split; [split; [right; split; reflexivity | eauto] | reflexivity].
      * right. split.
        -- intros [_ [s Hs]]. discriminate.
        -- eexists. split; [reflexivity | set_solver].
    + right. split.
      * intros [[?|[_ ?]] _]; discriminate.
      * eexists. split; [reflexivity | set_solver].
    + right. split.
      * intros [[?|[_ ?]] _]; discriminate.
      * eexists. split; [reflexivity | set_solver].
Qed.

End PanelConditions.

(** ** Further properties of the engine *)

(** The condition a term first branches on. *)
Ltac head_cond t :=
  lazymatch t with
  | if ?b then _ else _ => cond_atom b
  | let '(_, _) := ?p in _ =>
      first [ head_cond p | constr:(p) ]
  | match ?l with [] => _ | _ :: _ => _ end => constr:(l)
  end.

(** Case analysis on the value of a label, one condition at a time from
    the outside in. *)
Ltac label_tree H :=
  repeat (cbv beta iota zeta in H; cbn [negb andb orb] in H;
          lazymatch type of H with
          | _ = ?t => let c := head_cond t in destruct c eqn:?
          end);
  cbv beta iota zeta in H; cbn [negb andb orb] in H.

(** X1.  [check_control_markers] accepts a panel exactly when the
    resolved ZFX/ZFY status is present and sY14 is a key.  It reports
    "not tested" exactly when neither spelling is a key, "absent" exactly
    when the resolved status is absent -- the ZFX/ZFY key decides even
    when ZFX/Y is present -- and the sY14 message exactly when the
    resolved status is present and sY14 is not a key.  The heap is left
    as it was. *)
Theorem check_control_markers_spec (h : heap) (l : loc)
    (m : gmap string MarkerStatus) :
  h !! l = Some (panel_obj m) ->
  exists ok msg,
    check_control_markers (VRef l) h = Ret (ok, msg) h
    /\ (ok = true <-> resolved_zfxy m = Some present /\ is_Some (m !! "sY14"))
    /\ (msg = "CRITICAL: ZFX/ZFY control marker not tested - cannot validate results"
        <-> resolved_zfxy m = None)
    /\ (msg = "CRITICAL: ZFX/ZFY control marker absent - technical failure or sample issue"
        <-> resolved_zfxy m = Some absent)
    /\ (msg = "CRITICAL: sY14 (SRY) marker not tested - cannot determine sex chromosome status"
        <-> resolved_zfxy m = Some present /\ m !! "sY14" = None).
Proof.
  intros Hl. rewrite (check_control_markers_run h l _ Hl).
  unfold control_value, zfxy_value, resolved_zfxy.
  rewrite tested_panel, !getv_panel.
  destruct (m !! "ZFX/ZFY") as [[]|]; [| |destruct (m !! "ZFX/Y") as [[]|]];
    destruct (m !! "sY14") as [s14|]; cbn; eexists _, _;
    (split; [reflexivity|]);
    repeat split; try discriminate; try tauto; try (intros [? ?]; discriminate);
    try (intros [_ [? ?]]; discriminate); eauto.
Qed.

Lemma check_control_markers_spec_witness :
  exists ok msg,
    check_control_markers (VRef 5) (initial_heap ++ [panel_obj scenario1])
    = Ret (ok, msg) (initial_heap ++ [panel_obj scenario1])
    /\ (ok = true <->
        resolved_zfxy scenario1 = Some present /\ is_Some (scenario1 !! "sY14"))
    /\ (msg = "CRITICAL: ZFX/ZFY control marker not tested - cannot validate results"
        <-> resolved_zfxy scenario1 = None)
    /\ (msg = "CRITICAL: ZFX/ZFY control marker absent - technical failure or sample issue"
        <-> resolved_zfxy scenario1 = Some absent)
    /\ (msg = "CRITICAL: sY14 (SRY) marker not tested - cannot determine sex chromosome status"
        <-> resolved_zfxy scenario1 = Some present /\ scenario1 !! "sY14" = None).
Proof.
  apply (check_control_markers_spec (initial_heap ++ [panel_obj scenario1])
           5 scenario1).
  reflexivity.
Defined.

(** X2.  The control check gates the classifier: when
    [check_control_markers] rejects the panel, the classifier returns
    its message, whatever the other markers are. *)
Theorem control_failure_is_label (G : module_env) (h : heap) (l : loc)
    (m : gmap string MarkerStatus) (msg : string) :
  globals_ok G h ->
  h !! l = Some (panel_obj m) ->
  check_control_markers (VRef l) h = Ret (false, msg) h ->
  exists h', classify_y_chromosome_state G (VRef l) h = Ret msg h'.
Proof.
  intros HG Hl Hc. rewrite (check_control_markers_run h l _ Hl) in Hc.
  apply ret_inv in Hc. apply (classify_label G h l m); [assumption..|].
  unfold label_value. rewrite Hc. reflexivity.
Qed.

Lemma control_failure_is_label_witness :
  exists h',
    classify_y_chromosome_state initial_env (VRef 5)
      (initial_heap ++ [panel_obj discordant_panel])
    = Ret "CRITICAL: ZFX/ZFY control marker not tested - cannot validate results" h'.
Proof.
  apply (control_failure_is_label initial_env
           (initial_heap ++ [panel_obj discordant_panel]) 5 discordant_panel).
  - exists 3, 0, 1, 2, 4. repeat split; reflexivity.
  - reflexivity.
  - vm_compute. reflexivity.
Defined.

Lemma azfbc_value_panel (m : gmap string MarkerStatus) :
  azfbc_value (status_val <$> m)
  = if forallb (is_absent m) ["sY127"; "sY134"; "sY254"; "sY255"] then
      (true, azfbc_message m)
    else (false, "").
Proof.
  unfold azfbc_value, azfbc_message.
  rewrite all_absent_value_panel, tested_panel, !absent_panel.
  destruct (forallb _ _); [|reflexivity]. cbn [negb].
  unfold is_absent. destruct (m !! "sY116") as [[]|]; reflexivity.
Qed.

Lemma deleted_b_c_absent (m : gmap string MarkerStatus) :
  region_deleted m "AZFb" = true ->
  region_deleted m "AZFc" = true ->
  forallb (is_absent m) ["sY127"; "sY134"; "sY254"; "sY255"] = true.
Proof.
  unfold region_deleted.
  cbn [basic_markers_of String.eqb Ascii.eqb Bool.eqb AZFb_basic AZFc_basic
       forallb].
  rewrite !andb_true_iff. tauto.
Qed.

(** The label of a panel that passes the control checks and does not
    show the 46,XX signature. *)
Lemma label_value_after_xx (m : gmap string MarkerStatus) :
  control_passes m ->
  xx_signature m = false ->
  label_value (status_val <$> m)
  = let d := status_val <$> m in
    let a := region_deleted m "AZFa" in
    let b := region_deleted m "AZFb" in
    let c := region_deleted m "AZFc" in
    if discordant m then
      "METHODOLOGICAL_ERROR: sY254 and sY255 results discordant (both should have same status)"
    else if a && b && c then
      if is_absent m "sY14" then
        "AZFABC_DELETION_WITH_46,XX_MALE_OR_Y_CHROMOSOME_ABSENCE"
      else "COMPLETE_AZFABC_DELETION"
    else if b && c && negb a then azfbc_message m
    else individual_value d a b c.
Proof.
  intros Hc Hx. unfold label_value.
  rewrite (control_value_passes m Hc), (xx_male_value_panel m Hc), Hx.
  rewrite !basic_value_panel, discordant_value_panel, absent_panel.
  cbv beta iota zeta delta [negb].
  destruct (discordant m); [reflexivity|].
  destruct (region_deleted m "AZFa"), (region_deleted m "AZFb") eqn:Hb,
    (region_deleted m "AZFc") eqn:Hcc; cbn [andb negb]; try reflexivity.
  rewrite azfbc_value_panel, (deleted_b_c_absent m Hb Hcc). reflexivity.
Qed.

Lemma deleted_all_absent (m : gmap string MarkerStatus) :
  region_deleted m "AZFa" = true ->
  region_deleted m "AZFb" = true ->
  region_deleted m "AZFc" = true ->
  forallb (is_absent m) basic_six = true.
Proof.
  unfold region_deleted.
  cbn [basic_markers_of String.eqb Ascii.eqb Bool.eqb AZFa_basic AZFb_basic
       AZFc_basic basic_six forallb].
  rewrite !andb_true_iff. tauto.
Qed.

Lemma absent_not_present (m : gmap string MarkerStatus) (ms : list string) :
  forallb (is_absent m) ms = true ->
  forallb (fun k => negb (is_present m k)) ms = true.
Proof.
  rewrite !forallb_forall. intros H k Hk. specialize (H k Hk).
  unfold is_absent, is_present in *. apply bool_decide_eq_true in H.
  rewrite H. reflexivity.
Qed.

(** X3.  The label "AZFABC_DELETION_WITH_46,XX_MALE_OR_Y_CHROMOSOME_ABSENCE"
    of line 314 is never returned: a panel that passes the control
    checks with sY14 absent and all six basic markers absent already
    leaves at the 46,XX check of lines 288-296. *)
Theorem azfabc_with_xx_unreachable (G : module_env) (h : heap) (l : loc)
    (m : gmap string MarkerStatus) :
  globals_ok G h ->
  h !! l = Some (panel_obj m) ->
  exists label h',
    classify_y_chromosome_state G (VRef l) h = Ret label h'
    /\ label <> "AZFABC_DELETION_WITH_46,XX_MALE_OR_Y_CHROMOSOME_ABSENCE".
Proof.
  intros HG Hl. destruct (classify_run G h l _ HG Hl) as [objs Hrun].
  eexists _, _. split; [exact Hrun|]. intros H.
  destruct (control_value_cases m) as [[Hc Hcv] | [_ (msg & Hcv & Hmsg)]].
  2: { unfold label_value in H. rewrite Hcv in H. cbn in H. subst msg.
       apply list_elem_of_In in Hmsg. cbn in Hmsg.
       destruct Hmsg as [E|[E|[E|[]]]]; discriminate. }
  destruct (xx_signature m) eqn:Hx.
  { unfold label_value in H.
    rewrite Hcv, (xx_male_value_panel m Hc), Hx in H. discriminate. }
  rewrite (label_value_after_xx m Hc Hx) in H.
  symmetry in H. unfold individual_value, azfbc_message in H.
  label_tree H; try (cbn in H; discriminate).
  - unfold xx_signature in Hx.
    rewrite (absent_not_present m basic_six), andb_true_r in Hx
      by (apply deleted_all_absent; assumption).
    congruence.
  - destruct (m !! "sY116") as [[]|]; cbn in H; discriminate.
Qed.

Lemma individual_value_panel (m : gmap string MarkerStatus) (a b c : bool) :
  individual_value (status_val <$> m) a b c
  = if a && negb b && negb c then
      if azfa_boundaries m then
        "COMPLETE_AZFA_DELETION (TESE: virtually_impossible)"
      else "PARTIAL_OR_ATYPICAL_AZFA_DELETION (partial_or_atypical)"
    else if b && negb a && negb c then
      if azfb_boundaries m then
        "COMPLETE_AZFB_DELETION_P5/PROXIMAL_P1 (TESE: virtually_impossible)"
      else if is_present m "sY1192" then
        "PARTIAL_AZFB_DELETION (sY1192 present, TESE: possible)"
      else "AZFB_DELETION_ATYPICAL_PATTERN"
    else if c && negb a && negb b then
      match m !! "sY160" with
      | None => "AZFC_DELETION_UNDETERMINED_TYPE (sY160 not tested)"
      | Some present =>
          "COMPLETE_AZFC_DELETION_B2/B4 (TESE: approximately_50_percent)"
      | Some absent => "TERMINAL_AZFC_DELETION (karyotype analysis recommended)"
      end
    else if grgr_positive m then
      if negb (a || b || c) then
        "PARTIAL_AZFC_GR/GR_DELETION (population-specific risk factor)"
      else "MULTIPLE_DELETIONS_INCLUDING_GR/GR"
    else if negb (a || b || c) then
      match absent_expected m with
      | [] => "NO_DELETION_DETECTED"
      | missing =>
          ("INCONSISTENT_DATA: Expected present markers are absent: "
           ++ join_strs ", " missing)%string
      end
    else "UNCLASSIFIED_DELETION_PATTERN (manual review required)".
Proof.
  unfold individual_value, azfa_complete_value, azfb_boundaries_value,
    azfa_boundaries, azfb_boundaries, absent_expected.
  rewrite grgr_value_panel, missing_expected_value_panel, tested_panel,
    !absent_panel, !present_panel.
  unfold is_present.
  destruct (m !! "sY160") as [[]|]; reflexivity.
Qed.

(** The label of a panel, by stages, on the panel's own conditions. *)
Lemma label_value_stages (m : gmap string MarkerStatus) :
  (~ control_passes m
   /\ exists msg,
       label_value (status_val <$> m) = msg
       /\ msg ∈ ["CRITICAL: ZFX/ZFY control marker not tested - cannot validate results";
                 "CRITICAL: ZFX/ZFY control marker absent - technical failure or sample issue";
                 "CRITICAL: sY14 (SRY) marker not tested - cannot determine sex chromosome status"])
  \/ (control_passes m /\ xx_signature m = true
      /\ label_value (status_val <$> m)
         = "46,XX_MALE_OR_COMPLETE_Y_CHROMOSOME_ABSENCE")
  \/ (control_passes m /\ xx_signature m = false
      /\ label_value (status_val <$> m)
         = let a := region_deleted m "AZFa" in
           let b := region_deleted m "AZFb" in
           let c := region_deleted m "AZFc" in
           if discordant m then
             "METHODOLOGICAL_ERROR: sY254 and sY255 results discordant (both should have same status)"
           else if a && b && c then "COMPLETE_AZFABC_DELETION"
           else if b && c && negb a then azfbc_message m
           else individual_value (status_val <$> m) a b c).
Proof.
  destruct (control_value_cases m) as [[Hc Hcv] | [Hc (msg & Hcv & Hmsg)]].
  2: { left. split; [exact Hc|]. exists msg. split; [|exact Hmsg].
       unfold label_value. rewrite Hcv. reflexivity. }
  right. destruct (xx_signature m) eqn:Hx.
  { left. split; [exact Hc|]. split; [reflexivity|]. unfold label_value.
    rewrite Hcv, (xx_male_value_panel m Hc), Hx. reflexivity. }
  right. split; [exact Hc|]. split; [reflexivity|].
  rewrite (label_value_after_xx m Hc Hx). cbv zeta.
  destruct (discordant m); [reflexivity|].
  destruct (region_deleted m "AZFa") eqn:Ha, (region_deleted m "AZFb") eqn:Hb,
    (region_deleted m "AZFc") eqn:Hcc; cbn [andb negb]; try reflexivity.
  destruct (is_absent m "sY14") eqn:H14; [|reflexivity].
  unfold xx_signature in Hx.
  rewrite H14, (absent_not_present m basic_six) in Hx
    by (apply deleted_all_absent; assumption).
  discriminate.
Qed.

Lemma elem_of_existsb (s : string) (xs : list string) :
  existsb (String.eqb s) xs = true -> s ∈ xs.
Proof.
  rewrite existsb_exists. intros (x & Hx & E). apply String.eqb_eq in E.
  subst x. apply list_elem_of_In, Hx.
Qed.

(** X4.  Every label the classifier returns is one of the 24 fixed
    labels of [label_vocabulary], or the data-inconsistency label
    followed by the expected-present markers that are absent, of which
    there is then at least one. *)
Theorem label_in_vocabulary (G : module_env) (h : heap) (l : loc)
    (m : gmap string MarkerStatus) :
  globals_ok G h ->
  h !! l = Some (panel_obj m) ->
  exists label h',
    classify_y_chromosome_state G (VRef l) h = Ret label h'
    /\ (label ∈ label_vocabulary
        \/ (absent_expected m <> []
            /\ label = ("INCONSISTENT_DATA: Expected present markers are absent: "
                        ++ join_strs ", " (absent_expected m))%string)).
Proof.
  intros HG Hl. destruct (classify_run G h l _ HG Hl) as [objs Hrun].
  eexists _, _. split; [exact Hrun|].
  remember (label_value (status_val <$> m)) as lab eqn:H.
  destruct (label_value_stages m)
    as [(_ & msg & Hlab & Hmsg) | [(_ & _ & Hlab) | (_ & _ & Hlab)]];
    rewrite Hlab in H.
  - left. subst lab. apply list_elem_of_In in Hmsg. cbn in Hmsg.
    destruct Hmsg as [<-|[<-|[<-|[]]]];
      apply elem_of_existsb; vm_compute; reflexivity.
  - left. subst lab. apply elem_of_existsb. vm_compute. reflexivity.
  - cbv zeta in H. rewrite individual_value_panel in H.
    unfold azfbc_message in H.
    label_tree H.
    all: try (left; subst lab; apply elem_of_existsb; vm_compute;
              reflexivity).
    + left. subst lab. apply elem_of_existsb.
      destruct (m !! "sY116") as [[]|], (is_absent m "sY160");
        vm_compute; reflexivity.
    + left. subst lab. apply elem_of_existsb.
      destruct (m !! "sY160") as [[]|]; vm_compute; reflexivity.
    + right. split; [discriminate | exact H].
Qed.

Lemma label_in_vocabulary_witness :
  exists label h',
    classify_y_chromosome_state initial_env (VRef 5)
      (initial_heap ++ [panel_obj scenario1]) = Ret label h'
    /\ (label ∈ label_vocabulary
        \/ (absent_expected scenario1 <> []
            /\ label = ("INCONSISTENT_DATA: Expected present markers are absent: "
                        ++ join_strs ", " (absent_expected scenario1))%string)).
Proof.
  apply (label_in_vocabulary initial_env
           (initial_heap ++ [panel_obj scenario1]) 5 scenario1).
  - exists 3, 0, 1, 2, 4. repeat split; reflexivity.
  - reflexivity.
Defined.

Lemma azfabc_with_xx_unreachable_witness :
  exists label h',
    classify_y_chromosome_state initial_env (VRef 5)
      (initial_heap ++ [panel_obj scenario1]) = Ret label h'
    /\ label <> "AZFABC_DELETION_WITH_46,XX_MALE_OR_Y_CHROMOSOME_ABSENCE".
Proof.
  apply (azfabc_with_xx_unreachable initial_env
           (initial_heap ++ [panel_obj scenario1]) 5 scenario1).
  - exists 3, 0, 1, 2, 4. repeat split; reflexivity.
  - reflexivity.
Defined.


(** The label of a panel that reaches the deletion patterns. *)
Lemma label_value_patterns (m : gmap string MarkerStatus) :
  reaches_patterns m ->
  label_value (status_val <$> m)
  = if region_deleted m "AZFa" && region_deleted m "AZFb"
       && region_deleted m "AZFc"
    then "COMPLETE_AZFABC_DELETION"
    else if region_deleted m "AZFb" && region_deleted m "AZFc"
            && negb (region_deleted m "AZFa")
    then azfbc_message m
    else individual_value (status_val <$> m) (region_deleted m "AZFa")
           (region_deleted m "AZFb") (region_deleted m "AZFc").
Proof.
  intros (Hc & Hx & Hd).
  destruct (label_value_stages m)
    as [(Hn & _) | [(_ & Hx' & _) | (_ & _ & ->)]];
    [contradiction | congruence |].
  cbv zeta. rewrite Hd. reflexivity.
Qed.

(** X5.  The classifier returns the 46,XX label exactly when the
    control checks pass, sY14 is absent and no basic marker is tested
    present; untested basic markers do not prevent it. *)
Theorem xx_male_iff (G : module_env) (h : heap) (l : loc)
    (m : gmap string MarkerStatus) :
  globals_ok G h ->
  h !! l = Some (panel_obj m) ->
  exists label h',
    classify_y_chromosome_state G (VRef l) h = Ret label h'
    /\ (label = "46,XX_MALE_OR_COMPLETE_Y_CHROMOSOME_ABSENCE"
        <-> control_passes m /\ xx_signature m = true).
Proof.
  intros HG Hl. destruct (classify_run G h l _ HG Hl) as [objs Hrun].
  eexists _, _. split; [exact Hrun|].
  destruct (label_value_stages m)
    as [(Hn & msg & Hlab & Hmsg) | [(Hc & Hx & Hlab) | (Hc & Hx & Hlab)]];
    rewrite Hlab; clear Hlab.
  - split; [|tauto]. intros ->. apply list_elem_of_In in Hmsg. cbn in Hmsg.
    destruct Hmsg as [E|[E|[E|[]]]]; discriminate.
  - tauto.
  - split; [|intros [_ ?]; congruence]. intros H. exfalso. symmetry in H.
    cbv zeta in H. rewrite individual_value_panel in H.
    unfold azfbc_message in H. label_tree H; try (cbn in H; discriminate).
    + destruct (m !! "sY116") as [[]|]; cbn in H; discriminate.
    + destruct (m !! "sY160") as [[]|]; discriminate.
Qed.

Lemma xx_male_iff_witness :
  exists label h',
    classify_y_chromosome_state initial_env (VRef 5)
      (initial_heap ++ [panel_obj xx_male_panel]) = Ret label h'
    /\ (label = "46,XX_MALE_OR_COMPLETE_Y_CHROMOSOME_ABSENCE"
        <-> control_passes xx_male_panel /\ xx_signature xx_male_panel = true).
Proof.
  apply (xx_male_iff initial_env
           (initial_heap ++ [panel_obj xx_male_panel]) 5 xx_male_panel).
  - exists 3, 0, 1, 2, 4. repeat split; reflexivity.
  - reflexivity.
Defined.

(** X6.  When the control checks pass, sY14 is present and all six
    basic markers are absent, the classifier returns
    "COMPLETE_AZFABC_DELETION", whatever the extension and gr/gr markers
    are. *)
Theorem complete_azfabc (G : module_env) (h : heap) (l : loc)
    (m : gmap string MarkerStatus) :
  globals_ok G h ->
  h !! l = Some (panel_obj m) ->
  control_passes m ->
  m !! "sY14" = Some present ->
  forallb (is_absent m) basic_six = true ->
  exists h',
    classify_y_chromosome_state G (VRef l) h
    = Ret "COMPLETE_AZFABC_DELETION" h'.
Proof.
  intros HG Hl Hc H14 Hsix. apply (classify_label G h l m); [assumption..|].
  assert (region_deleted m "AZFa" = true /\ region_deleted m "AZFb" = true
          /\ region_deleted m "AZFc" = true) as (Ha & Hb & Hcc).
  { revert Hsix. unfold region_deleted.
    cbn [basic_markers_of String.eqb Ascii.eqb Bool.eqb AZFa_basic AZFb_basic
         AZFc_basic basic_six forallb].
    rewrite !andb_true_iff. tauto. }
  rewrite label_value_patterns.
  - rewrite Ha, Hb, Hcc. reflexivity.
  - split; [exact Hc|]. split.
    + unfold xx_signature, is_absent. rewrite H14. reflexivity.
    + revert Hsix. unfold discordant, is_absent. cbn [basic_six forallb].
      rewrite !andb_true_iff, !bool_decide_eq_true.
      intros (_ & _ & _ & _ & -> & -> & _). reflexivity.
Qed.

Lemma complete_azfabc_witness :
  exists h',
    classify_y_chromosome_state initial_env (VRef 5)
      (initial_heap ++ [panel_obj azfabc_panel])
    = Ret "COMPLETE_AZFABC_DELETION" h'.
Proof.
  apply (complete_azfabc initial_env
           (initial_heap ++ [panel_obj azfabc_panel]) 5 azfabc_panel).
  - exists 3, 0, 1, 2, 4. repeat split; reflexivity.
  - reflexivity.
  - split; [left; reflexivity | exists present; reflexivity].
  - reflexivity.
  - reflexivity.
Defined.

(** X7.  When a panel reaches the deletion patterns with AZFb and AZFc
    deleted and AZFa not, the label is the AZFbc message: sY116 absent
    gives P5/distal_P1 (TESE virtually impossible), present gives
    P4/distal_P1 (may be positive), untested gives undetermined_P4_P5
    (unknown), and sY160 tested absent adds "_TERMINAL". *)
Theorem azfbc_label (G : module_env) (h : heap) (l : loc)
    (m : gmap string MarkerStatus) :
  globals_ok G h ->
  h !! l = Some (panel_obj m) ->
  reaches_patterns m ->
  region_deleted m "AZFa" = false ->
  region_deleted m "AZFb" = true ->
  region_deleted m "AZFc" = true ->
  exists h',
    classify_y_chromosome_state G (VRef l) h = Ret (azfbc_message m) h'.
Proof.
  intros HG Hl Hr Ha Hb Hc. apply (classify_label G h l m); [assumption..|].
  rewrite (label_value_patterns m Hr), Ha, Hb, Hc. reflexivity.
Qed.

Lemma azfbc_label_witness :
  exists h',
    classify_y_chromosome_state initial_env (VRef 5)
      (initial_heap ++ [panel_obj azfbc_panel])
    = Ret (azfbc_message azfbc_panel) h'.
Proof.
  apply (azfbc_label initial_env
           (initial_heap ++ [panel_obj azfbc_panel]) 5 azfbc_panel).
  - exists 3, 0, 1, 2, 4. repeat split; reflexivity.
  - reflexivity.
  - split; [split; [left; reflexivity | exists present; reflexivity]|].
    split; reflexivity.
  - reflexivity.
  - reflexivity.
  - reflexivity.
Defined.

(** X8.  AZFa alone deleted: the label is the complete AZFa deletion
    exactly when both boundaries fit (sY82 present, sY1064 absent, sY88
    present, sY1065 or sY1182 absent) and the partial-or-atypical label
    otherwise, whatever the gr/gr markers are. *)
Theorem azfa_only_label (G : module_env) (h : heap) (l : loc)
    (m : gmap string MarkerStatus) :
  globals_ok G h ->
  h !! l = Some (panel_obj m) ->
  reaches_patterns m ->
  region_deleted m "AZFa" = true ->
  region_deleted m "AZFb" = false ->
  region_deleted m "AZFc" = false ->
  exists h',
    classify_y_chromosome_state G (VRef l) h
    = Ret (if azfa_boundaries m then
             "COMPLETE_AZFA_DELETION (TESE: virtually_impossible)"
           else "PARTIAL_OR_ATYPICAL_AZFA_DELETION (partial_or_atypical)") h'.
Proof.
  intros HG Hl Hr Ha Hb Hc. apply (classify_label G h l m); [assumption..|].
  rewrite (label_value_patterns m Hr), individual_value_panel, Ha, Hb, Hc.
  reflexivity.
Qed.

Lemma azfa_only_label_witness :
  exists h',
    classify_y_chromosome_state initial_env (VRef 5)
      (initial_heap ++ [panel_obj scenario1])
    = Ret (if azfa_boundaries scenario1 then
             "COMPLETE_AZFA_DELETION (TESE: virtually_impossible)"
           else "PARTIAL_OR_ATYPICAL_AZFA_DELETION (partial_or_atypical)") h'.
Proof.
  apply (azfa_only_label initial_env
           (initial_heap ++ [panel_obj scenario1]) 5 scenario1).
  - exists 3, 0, 1, 2, 4. repeat split; reflexivity.
  - reflexivity.
  - split; [split; [left; reflexivity | exists present; reflexivity]|].
    split; reflexivity.
  - reflexivity.
  - reflexivity.
  - reflexivity.
Defined.

(** X9.  AZFb alone deleted: complete (P5/proximal P1, TESE virtually
    impossible) when sY105 and sY153 are present and sY121 and sY1192
    absent; else partial (TESE possible) when sY1192 is present; else
    atypical, with no prognosis.  The gr/gr markers play no part. *)
Theorem azfb_only_label (G : module_env) (h : heap) (l : loc)
    (m : gmap string MarkerStatus) :
  globals_ok G h ->
  h !! l = Some (panel_obj m) ->
  reaches_patterns m ->
  region_deleted m "AZFa" = false ->
  region_deleted m "AZFb" = true ->
  region_deleted m "AZFc" = false ->
  exists h',
    classify_y_chromosome_state G (VRef l) h
    = Ret (if azfb_boundaries m then
             "COMPLETE_AZFB_DELETION_P5/PROXIMAL_P1 (TESE: virtually_impossible)"
           else if is_present m "sY1192" then
             "PARTIAL_AZFB_DELETION (sY1192 present, TESE: possible)"
           else "AZFB_DELETION_ATYPICAL_PATTERN") h'.
Proof.
  intros HG Hl Hr Ha Hb Hc. apply (classify_label G h l m); [assumption..|].
  rewrite (label_value_patterns m Hr), individual_value_panel, Ha, Hb, Hc.
  reflexivity.
Qed.

Lemma azfb_only_label_witness :
  exists h',
    classify_y_chromosome_state initial_env (VRef 5)
      (initial_heap ++ [panel_obj azfb_panel])
    = Ret (if azfb_boundaries azfb_panel then
             "COMPLETE_AZFB_DELETION_P5/PROXIMAL_P1 (TESE: virtually_impossible)"
           else if is_present azfb_panel "sY1192" then
             "PARTIAL_AZFB_DELETION (sY1192 present, TESE: possible)"
           else "AZFB_DELETION_ATYPICAL_PATTERN") h'.
Proof.
  apply (azfb_only_label initial_env
           (initial_heap ++ [panel_obj azfb_panel]) 5 azfb_panel).
  - exists 3, 0, 1, 2, 4. repeat split; reflexivity.
  - reflexivity.
  - split; [split; [right; split; reflexivity | exists present; reflexivity]|].
    split; reflexivity.
  - reflexivity.
  - reflexivity.
  - reflexivity.
Defined.

(** X10.  AZFc alone deleted: sY160 decides the label -- untested gives
    the undetermined-type label, present the b2/b4 deletion with TESE
    approximately 50 percent, absent the terminal deletion with the
    karyotype recommendation.  The gr/gr markers play no part. *)
Theorem azfc_only_label (G : module_env) (h : heap) (l : loc)
    (m : gmap string MarkerStatus) :
  globals_ok G h ->
  h !! l = Some (panel_obj m) ->
  reaches_patterns m ->
  region_deleted m "AZFa" = false ->
  region_deleted m "AZFb" = false ->
  region_deleted m "AZFc" = true ->
  exists h',
    classify_y_chromosome_state G (VRef l) h
    = Ret (match m !! "sY160" with
           | None => "AZFC_DELETION_UNDETERMINED_TYPE (sY160 not tested)"
           | Some present =>
               "COMPLETE_AZFC_DELETION_B2/B4 (TESE: approximately_50_percent)"
           | Some absent =>
               "TERMINAL_AZFC_DELETION (karyotype analysis recommended)"
           end) h'.
Proof.
  intros HG Hl Hr Ha Hb Hc. apply (classify_label G h l m); [assumption..|].
  rewrite (label_value_patterns m Hr), individual_value_panel, Ha, Hb, Hc.
  reflexivity.
Qed.

Lemma azfc_only_label_witness :
  exists h',
    classify_y_chromosome_state initial_env (VRef 5)
      (initial_heap ++ [panel_obj azfc_terminal_panel])
    = Ret (match azfc_terminal_panel !! "sY160" with
           | None => "AZFC_DELETION_UNDETERMINED_TYPE (sY160 not tested)"
           | Some present =>
               "COMPLETE_AZFC_DELETION_B2/B4 (TESE: approximately_50_percent)"
           | Some absent =>
               "TERMINAL_AZFC_DELETION (karyotype analysis recommended)"
           end) h'.
Proof.
  apply (azfc_only_label initial_env
           (initial_heap ++ [panel_obj azfc_terminal_panel]) 5
           azfc_terminal_panel).
  - exists 3, 0, 1, 2, 4. repeat split; reflexivity.
  - reflexivity.
  - split; [split; [left; reflexivity | exists present; reflexivity]|].
    split; reflexivity.
  - reflexivity.
  - reflexivity.
  - reflexivity.
Defined.

(** X11.  No region deleted: a positive gr/gr pattern (sY1291 absent,
    sY1191 present) gives the gr/gr label, before any consistency check;
    otherwise the label is "NO_DELETION_DETECTED" when no expected-present
    marker is tested absent, and else the data-inconsistency label listing
    those markers in the order of [EXPECTED_PRESENT_MARKERS]. *)
Theorem no_region_deleted_label (G : module_env) (h : heap) (l : loc)
    (m : gmap string MarkerStatus) :
  globals_ok G h ->
  h !! l = Some (panel_obj m) ->
  reaches_patterns m ->
  region_deleted m "AZFa" = false ->
  region_deleted m "AZFb" = false ->
  region_deleted m "AZFc" = false ->
  exists h',
    classify_y_chromosome_state G (VRef l) h
    = Ret (if grgr_positive m then
             "PARTIAL_AZFC_GR/GR_DELETION (population-specific risk factor)"
           else
             match absent_expected m with
             | [] => "NO_DELETION_DETECTED"
             | missing =>
                 ("INCONSISTENT_DATA: Expected present markers are absent: "
                  ++ join_strs ", " missing)%string
             end) h'.
Proof.
  intros HG Hl Hr Ha Hb Hc. apply (classify_label G h l m); [assumption..|].
  rewrite (label_value_patterns m Hr), individual_value_panel, Ha, Hb, Hc.
  reflexivity.
Qed.

Lemma no_region_deleted_label_witness :
  exists h',
    classify_y_chromosome_state initial_env (VRef 5)
      (initial_heap ++ [panel_obj inconsistent_panel])
    = Ret (if grgr_positive inconsistent_panel then
             "PARTIAL_AZFC_GR/GR_DELETION (population-specific risk factor)"
           else
             match absent_expected inconsistent_panel with
             | [] => "NO_DELETION_DETECTED"
             | missing =>
                 ("INCONSISTENT_DATA: Expected present markers are absent: "
                  ++ join_strs ", " missing)%string
             end) h'.
Proof.
  apply (no_region_deleted_label initial_env
           (initial_heap ++ [panel_obj inconsistent_panel]) 5
           inconsistent_panel).
  - exists 3, 0, 1, 2, 4. repeat split; reflexivity.
  - reflexivity.
  - split; [split; [left; reflexivity | exists absent; reflexivity]|].
    split; reflexivity.
  - reflexivity.
  - reflexivity.
  - reflexivity.
Defined.

(** X12.  AZFa deleted together with exactly one of AZFb and AZFc: no
    branch names the combination, and the classifier returns
    "MULTIPLE_DELETIONS_INCLUDING_GR/GR" when gr/gr is positive and the
    unclassified-pattern label otherwise. *)
Theorem azfa_with_one_other_label (G : module_env) (h : heap) (l : loc)
    (m : gmap string MarkerStatus) :
  globals_ok G h ->
  h !! l = Some (panel_obj m) ->
  reaches_patterns m ->
  region_deleted m "AZFa" = true ->
  region_deleted m "AZFb" = negb (region_deleted m "AZFc") ->
  exists h',
    classify_y_chromosome_state G (VRef l) h
    = Ret (if grgr_positive m then "MULTIPLE_DELETIONS_INCLUDING_GR/GR"
           else "UNCLASSIFIED_DELETION_PATTERN (manual review required)") h'.
Proof.
  intros HG Hl Hr Ha Hb. apply (classify_label G h l m); [assumption..|].
  rewrite (label_value_patterns m Hr), individual_value_panel, Ha, Hb.
  destruct (region_deleted m "AZFc"); reflexivity.
Qed.

Lemma azfa_with_one_other_label_witness :
  exists h',
    classify_y_chromosome_state initial_env (VRef 5)
      (initial_heap ++ [panel_obj azfab_panel])
    = Ret (if grgr_positive azfab_panel then
             "MULTIPLE_DELETIONS_INCLUDING_GR/GR"
           else "UNCLASSIFIED_DELETION_PATTERN (manual review required)") h'.
Proof.
  apply (azfa_with_one_other_label initial_env
           (initial_heap ++ [panel_obj azfab_panel]) 5 azfab_panel).
  - exists 3, 0, 1, 2, 4. repeat split; reflexivity.
  - reflexivity.
  - split; [split; [left; reflexivity | exists present; reflexivity]|].
    split; reflexivity.
  - reflexivity.
  - reflexivity.
Defined.

Example run_inconsistent_panel :
  returned_label (run_classifier inconsistent_panel)
  = Some "INCONSISTENT_DATA: Expected present markers are absent: sY14, sY105, sY160".
Proof. vm_compute. reflexivity. Qed.

(** ** The entries the classifier depends on *)

Section Agree.

(** Two dictionaries with the same entries for the markers the
    classifier reads, the alias spelling apart, and the same resolved
    control status. *)
Variables d d' : gmap string val.
Hypothesis Hkeys :
  forall k, existsb (String.eqb k) engine_markers_but_alias = true ->
            d' !! k = d !! k.
Hypothesis Hz : zfxy_value d' = zfxy_value d.
Hypothesis Hx :
  default (getv d' "ZFX/Y") (d' !! "ZFX/ZFY")
  = default (getv d "ZFX/Y") (d !! "ZFX/ZFY").

Lemma getv_agree (k : string) :
  existsb (String.eqb k) engine_markers_but_alias = true ->
  getv d' k = getv d k.
Proof. intros H. unfold getv. rewrite Hkeys by exact H. reflexivity. Qed.

Lemma tested_agree (k : string) :
  existsb (String.eqb k) engine_markers_but_alias = true ->
  tested d' k = tested d k.
Proof. intros H. unfold tested. rewrite Hkeys by exact H. reflexivity. Qed.

Lemma has_status_agree (k s : string) :
  existsb (String.eqb k) engine_markers_but_alias = true ->
  has_status d' k s = has_status d k s.
Proof. intros H. unfold has_status. rewrite getv_agree by exact H. reflexivity. Qed.

Ltac agree_rewrite :=
  rewrite ?has_status_agree, ?tested_agree, ?getv_agree by reflexivity.

Lemma control_value_agree : control_value d' = control_value d.
Proof. unfold control_value. rewrite Hz. agree_rewrite. reflexivity. Qed.

Lemma xx_male_value_agree : xx_male_value d' = xx_male_value d.
Proof.
  unfold xx_male_value, y_markers_absent_value. rewrite Hx. cbn [forallb].
  agree_rewrite. reflexivity.
Qed.

Lemma basic_value_agree (region : string) :
  basic_value d' region = basic_value d region.
Proof.
  unfold basic_value, basic_markers_of.
  repeat (destruct (String.eqb region _);
          [cbn [all_absent_value AZFa_basic AZFb_basic AZFc_basic forallb];
           agree_rewrite; reflexivity|]).
  reflexivity.
Qed.

Lemma discordant_value_agree : discordant_value d' = discordant_value d.
Proof. unfold discordant_value. agree_rewrite. reflexivity. Qed.

Lemma azfbc_value_agree : azfbc_value d' = azfbc_value d.
Proof.
  unfold azfbc_value. cbn [all_absent_value forallb]. agree_rewrite.
  reflexivity.
Qed.

Lemma missing_expected_value_agree :
  missing_expected_value d' expected_present
  = missing_expected_value d expected_present.
Proof.
  unfold missing_expected_value. apply filter_ext_in. intros k Hk.
  cbn in Hk.
  destruct Hk as [<-|[<-|[<-|[<-|[<-|[<-|[<-|[<-|[]]]]]]]]];
    agree_rewrite; reflexivity.
Qed.

Lemma individual_value_agree (a b c : bool) :
  individual_value d' a b c = individual_value d a b c.
Proof.
  unfold individual_value, grgr_value, azfa_complete_value,
    azfb_boundaries_value.
  rewrite missing_expected_value_agree. agree_rewrite. reflexivity.
Qed.

Lemma label_value_agree : label_value d' = label_value d.
Proof.
  unfold label_value.
  rewrite control_value_agree, xx_male_value_agree, !basic_value_agree,
    discordant_value_agree, azfbc_value_agree.
  rewrite !individual_value_agree. agree_rewrite. reflexivity.
Qed.

End Agree.

Lemma elem_of_engine_but_alias (k : string) :
  existsb (String.eqb k) engine_markers_but_alias = true ->
  k ∈ engine_markers /\ k <> "ZFX/Y".
Proof.
  rewrite existsb_exists. intros (x & Hx & E). apply String.eqb_eq in E.
  subst x. unfold engine_markers_but_alias in Hx. apply filter_In in Hx.
  destruct Hx as [Hin Hne]. split; [apply list_elem_of_In, Hin|].
  intros ->. discriminate.
Qed.

(** X13.  The label depends on the panel only through the entries of
    the 22 markers of [engine_markers]: two panels that agree on them get
    the same label, so a file may carry any other marker, tested or
    not, without effect on the classification. *)
Theorem label_depends_on_engine_markers (G : module_env) (h : heap)
    (l l' : loc) (m m' : gmap string MarkerStatus) :
  globals_ok G h ->
  h !! l = Some (panel_obj m) ->
  h !! l' = Some (panel_obj m') ->
  (forall k, k ∈ engine_markers -> m' !! k = m !! k) ->
  exists label h1 h1',
    classify_y_chromosome_state G (VRef l) h = Ret label h1
    /\ classify_y_chromosome_state G (VRef l') h = Ret label h1'.
Proof.
  intros HG Hl Hl' Hm.
  destruct (classify_run G h l _ HG Hl) as [objs Hrun].
  destruct (classify_run G h l' _ HG Hl') as [objs' Hrun'].
  eexists _, _, _. split; [exact Hrun|]. rewrite Hrun'. f_equal.
  assert (forall k, k ∈ engine_markers ->
            (status_val <$> m') !! k = (status_val <$> m) !! k) as Hd.
  { intros k Hk. rewrite !lookup_fmap, (Hm k Hk). reflexivity. }
  apply label_value_agree.
  - intros k Hk. apply Hd, (elem_of_engine_but_alias k Hk).
  - unfold zfxy_value, getv. rewrite !Hd by set_solver. reflexivity.
  - unfold getv. rewrite !Hd by set_solver. reflexivity.
Qed.

Lemma label_depends_on_engine_markers_witness :
  exists label h1 h1',
    classify_y_chromosome_state initial_env (VRef 5)
      (initial_heap
         ++ [panel_obj scenario1;
             panel_obj (<["DYS391" := absent]> scenario1)])
    = Ret label h1
    /\ classify_y_chromosome_state initial_env (VRef 6)
         (initial_heap
            ++ [panel_obj scenario1;
                panel_obj (<["DYS391" := absent]> scenario1)])
       = Ret label h1'.
Proof.
  apply (label_depends_on_engine_markers initial_env
           (initial_heap
              ++ [panel_obj scenario1;
                  panel_obj (<["DYS391" := absent]> scenario1)])
           5 6 scenario1 (<["DYS391" := absent]> scenario1)).
  - exists 3, 0, 1, 2, 4. repeat split; reflexivity.
  - reflexivity.
  - reflexivity.
  - intros k Hk. apply lookup_insert_ne. intros <-.
    apply list_elem_of_In in Hk. vm_compute in Hk. intuition discriminate.
Defined.

(** X14.  When ZFX/ZFY is a key of the panel the ZFX/Y entry is never
    used: two panels with the same ZFX/ZFY entry that differ at most in
    their ZFX/Y entry get the same label.  So a panel with ZFX/ZFY
    absent fails the control check even if it also says ZFX/Y
    present. *)
Theorem zfxzfy_key_decides (G : module_env) (h : heap) (l l' : loc)
    (m m' : gmap string MarkerStatus) :
  globals_ok G h ->
  h !! l = Some (panel_obj m) ->
  h !! l' = Some (panel_obj m') ->
  is_Some (m !! "ZFX/ZFY") ->
  (forall k, k <> "ZFX/Y" -> m' !! k = m !! k) ->
  exists label h1 h1',
    classify_y_chromosome_state G (VRef l) h = Ret label h1
    /\ classify_y_chromosome_state G (VRef l') h = Ret label h1'.
Proof.
  intros HG Hl Hl' [s Hs] Hm.
  destruct (classify_run G h l _ HG Hl) as [objs Hrun].
  destruct (classify_run G h l' _ HG Hl') as [objs' Hrun'].
  eexists _, _, _. split; [exact Hrun|]. rewrite Hrun'. f_equal.
  assert (m' !! "ZFX/ZFY" = Some s) as Hs'
    by (rewrite Hm by discriminate; exact Hs).
  apply label_value_agree.
  - intros k Hk. destruct (elem_of_engine_but_alias k Hk) as [_ Hne].
    rewrite !lookup_fmap, (Hm k Hne). reflexivity.
  - unfold zfxy_value. rewrite !getv_panel, Hs, Hs'. destruct s; reflexivity.
  - rewrite !lookup_fmap, Hs, Hs'. reflexivity.
Qed.

Lemma zfxzfy_key_decides_witness :
  exists label h1 h1',
    classify_y_chromosome_state initial_env (VRef 5)
      (initial_heap
         ++ [panel_obj scenario1; panel_obj (<["ZFX/Y" := absent]> scenario1)])
    = Ret label h1
    /\ classify_y_chromosome_state initial_env (VRef 6)
         (initial_heap
            ++ [panel_obj scenario1;
                panel_obj (<["ZFX/Y" := absent]> scenario1)])
       = Ret label h1'.
Proof.
  apply (zfxzfy_key_decides initial_env
           (initial_heap
              ++ [panel_obj scenario1;
                  panel_obj (<["ZFX/Y" := absent]> scenario1)])
           5 6 scenario1 (<["ZFX/Y" := absent]> scenario1)).
  - exists 3, 0, 1, 2, 4. repeat split; reflexivity.
  - reflexivity.
  - reflexivity.
  - exists present. reflexivity.
  - intros k Hk. apply lookup_insert_ne. congruence.
Defined.

(** ** Edge behaviour of the helper functions *)

(** X15.  [check_basic_deletion] answers false for every region name
    that is not a key of [BASIC_MARKERS] ("gr/gr", "AZFbc", the empty
    string, ...), whatever the panel holds, and raises nothing. *)
Theorem check_basic_deletion_unknown_region (G : module_env) (h : heap)
    (l : loc) (m : gmap string MarkerStatus) (region : string) :
  globals_ok G h ->
  h !! l = Some (panel_obj m) ->
  region ∉ ["AZFa"; "AZFb"; "AZFc"] ->
  check_basic_deletion G (VRef l) region h = Ret false h.
Proof.
  intros HG Hl Hr. rewrite (check_basic_deletion_run G h l _ HG Hl).
  unfold basic_value, basic_markers_of.
  destruct (String.eqb_spec region "AZFa") as [->|_]; [set_solver|].
  destruct (String.eqb_spec region "AZFb") as [->|_]; [set_solver|].
  destruct (String.eqb_spec region "AZFc") as [->|_]; [set_solver|].
  reflexivity.
Qed.

Lemma check_basic_deletion_unknown_region_witness :
  check_basic_deletion initial_env (VRef 5) "AZFbc"
    (initial_heap ++ [panel_obj all_absent_panel])
  = Ret false (initial_heap ++ [panel_obj all_absent_panel]).
Proof.
  apply (check_basic_deletion_unknown_region initial_env
           (initial_heap ++ [panel_obj all_absent_panel]) 5 all_absent_panel
           "AZFbc").
  - exists 3, 0, 1, 2, 4. repeat split; reflexivity.
  - reflexivity.
  - intros H. apply list_elem_of_In in H. vm_compute in H.
    intuition discriminate.
Defined.

Lemma extension_value_range (d : gmap string val) (region : string) :
  extension_value d region
  ∈ [ (true, "complete", None);
      (false, "partial_or_atypical", None);
      (true, "P5/proximal_P1", Some "virtually_impossible");
      (false, "partial", Some "possible");
      (false, "atypical", None);
      (false, "unknown_terminal_status", None);
      (true, "b2/b4", Some "approximately_50_percent");
      (true, "terminal", None);
      (false, "unknown", @None string) ].
Proof.
  unfold extension_value.
  repeat match goal with
         | |- context [if ?b then _ else _] => destruct b
         end;
    repeat first [apply list_elem_of_here | apply list_elem_of_further].
Qed.

(** X16.  [check_extension_markers] returns, for any region name, a
    new result dictionary and leaves every earlier object as it was.
    The result's subtype is one of nine strings; [complete] is true
    exactly for the subtypes complete, P5/proximal_P1, b2/b4 and
    terminal; and [details] holds a TESE prognosis whenever the subtype
    is P5/proximal_P1, partial or b2/b4 -- the three cases in which the
    classifier reads it. *)
Theorem check_extension_markers_result (h : heap) (l : loc)
    (m : gmap string MarkerStatus) (region : string) :
  h !! l = Some (panel_obj m) ->
  exists result objs complete subtype,
    check_extension_markers (VRef l) region h = Ret result (h ++ objs)
    /\ dict_subscript result "complete" (h ++ objs)
       = Ret (VBool complete) (h ++ objs)
    /\ dict_subscript result "subtype" (h ++ objs)
       = Ret (VStr subtype) (h ++ objs)
    /\ subtype ∈ extension_subtypes
    /\ (complete = true
        <-> subtype ∈ ["complete"; "P5/proximal_P1"; "b2/b4"; "terminal"])
    /\ (subtype ∈ ["P5/proximal_P1"; "partial"; "b2/b4"] ->
        exists tese,
          dict_subscript2 result "details" "TESE_prognosis" (h ++ objs)
          = Ret (VStr tese) (h ++ objs)).
Proof.
  intros Hl.
  destruct (check_extension_markers_run h l _ Hl region)
    as (D & R & Hrun & Hc & Hs & Hd & Ht).
  exists (VRef (S (length h))), [ODict D; ODict R].
  exists (extension_value (status_val <$> m) region).1.1,
         (extension_value (status_val <$> m) region).1.2.
  split; [exact Hrun|].
  split; [apply dict_subscript_new1, Hc|].
  split; [apply dict_subscript_new1, Hs|].
  assert (forall t,
            (extension_value (status_val <$> m) region).2 = Some t ->
            dict_subscript2 (VRef (S (length h))) "details" "TESE_prognosis"
              (h ++ [ODict D; ODict R])
            = Ret (VStr t) (h ++ [ODict D; ODict R])) as Htese.
  { intros t Et. unfold dict_subscript2.
    rewrite (bind_run _ _ _ _ _ (dict_subscript_new1 h _ R [] _ _ Hd)).
    apply dict_subscript_new0. rewrite Ht, Et. reflexivity. }
  pose proof (extension_value_range (status_val <$> m) region) as Hev.
  revert Htese Hev. generalize (extension_value (status_val <$> m) region).
  clear. intros ev Htese Hev.
  apply list_elem_of_In in Hev. cbn in Hev.
       repeat (destruct Hev as [<-|Hev];
               [cbn [fst snd] in *;
                split; [apply elem_of_existsb; reflexivity|];
                split;
                [split;
                 [first [discriminate
                        | intros _; apply elem_of_existsb; reflexivity]
                 | first [reflexivity
                         | intros H; apply list_elem_of_In in H; cbn in H;
                           intuition discriminate]]
                | first [intros _; eexists; apply Htese; reflexivity
                        | intros H; apply list_elem_of_In in H; cbn in H;
                          intuition discriminate]]|]).
  destruct Hev.
Qed.

Lemma check_extension_markers_result_witness :
  exists result objs complete subtype,
    check_extension_markers (VRef 5) "AZFb"
      (initial_heap ++ [panel_obj azfb_panel])
    = Ret result ((initial_heap ++ [panel_obj azfb_panel]) ++ objs)
    /\ dict_subscript result "complete"
         ((initial_heap ++ [panel_obj azfb_panel]) ++ objs)
       = Ret (VBool complete)
           ((initial_heap ++ [panel_obj azfb_panel]) ++ objs)
    /\ dict_subscript result "subtype"
         ((initial_heap ++ [panel_obj azfb_panel]) ++ objs)
       = Ret (VStr subtype) ((initial_heap ++ [panel_obj azfb_panel]) ++ objs)
    /\ subtype ∈ extension_subtypes
    /\ (complete = true
        <-> subtype ∈ ["complete"; "P5/proximal_P1"; "b2/b4"; "terminal"])
    /\ (subtype ∈ ["P5/proximal_P1"; "partial"; "b2/b4"] ->
        exists tese,
          dict_subscript2 result "details" "TESE_prognosis"
            ((initial_heap ++ [panel_obj azfb_panel]) ++ objs)
          = Ret (VStr tese)
              ((initial_heap ++ [panel_obj azfb_panel]) ++ objs)).
Proof.
  apply (check_extension_markers_result
           (initial_heap ++ [panel_obj azfb_panel]) 5 azfb_panel "AZFb").
  reflexivity.
Defined.

(** X17.  [check_azfbc_deletion] confirms exactly when sY127, sY134,
    sY254 and sY255 are all tested absent, and then returns the AZFbc
    message; if one of the four is untested or present it returns
    [(False, "")].  Either way no earlier object is changed. *)
Theorem check_azfbc_deletion_spec (h : heap) (l : loc)
    (m : gmap string MarkerStatus) :
  h !! l = Some (panel_obj m) ->
  exists objs,
    check_azfbc_deletion (VRef l) h
    = Ret (if forallb (is_absent m) ["sY127"; "sY134"; "sY254"; "sY255"]
           then (true, azfbc_message m)
           else (false, ""))
          (h ++ objs).
Proof.
  intros Hl. eexists.
  rewrite (check_azfbc_deletion_run h l _ Hl), azfbc_value_panel.
  reflexivity.
Qed.

Lemma check_azfbc_deletion_spec_witness :
  exists objs,
    check_azfbc_deletion (VRef 5) (initial_heap ++ [panel_obj azfb_panel])
    = Ret (if forallb (is_absent azfb_panel)
                ["sY127"; "sY134"; "sY254"; "sY255"]
           then (true, azfbc_message azfb_panel)
           else (false, ""))
          ((initial_heap ++ [panel_obj azfb_panel]) ++ objs).
Proof.
  apply (check_azfbc_deletion_spec
           (initial_heap ++ [panel_obj azfb_panel]) 5 azfb_panel).
  reflexivity.
Defined.

Example parse_sample :
  match parse_marker_file ascii_lower ascii_strip "markers.tsv"
          (Rows sample_rows None) initial_heap with
  | Ret (r, err) h' =>
      r = VRef 5
      /\ h' !! 5 = Some (panel_obj {[ "ZFX/ZFY" := present; "sY14" := present;
                                      "sY84" := absent ]})
      /\ err = ["Warning: Invalid status 'maybe' for marker sY84"]
  | Raise _ => False
  end.
Proof. vm_compute. repeat split; reflexivity. Qed.

(** ** Running the loader *)

Section LoaderRun.

Variables str_lower str_strip : string -> string.
Variable h : heap.

Local Abbreviation store := (store_row str_lower str_strip).
Local Abbreviation warning := (row_warning str_lower str_strip).

Lemma parse_first_row_run (d : gmap string val) (row : list string) :
  parse_first_row str_lower str_strip (VRef (length h)) row (h ++ [ODict d])
  = Ret tt (h ++ [ODict (store d row)]).
Proof.
  unfold parse_first_row, store_row.
  destruct row as [|name [|status more]]; try reflexivity.
  destruct (is_status _); [apply dict_setitem_new0 | reflexivity].
Qed.

Lemma parse_rows_run (rows : list (list string)) (d : gmap string val)
    (err : list string) :
  parse_rows str_lower str_strip (VRef (length h)) rows err (h ++ [ODict d])
  = Ret (err ++ flat_map warning rows) (h ++ [ODict (foldl store d rows)]).
Proof.
  revert d err. induction rows as [|row rows IH]; intros d err.
  - cbn. rewrite app_nil_r. reflexivity.
  - cbn [parse_rows foldl flat_map]. unfold store_row at 2, row_warning at 1.
    destruct row as [|name [|status more]]; try apply IH.
    destruct (is_status _).
    + cbv beta iota zeta delta [bind]. rewrite dict_setitem_new0. apply IH.
    + cbv zeta. rewrite IH, <- app_assoc. reflexivity.
Qed.

Lemma parse_marker_file_rows (filepath : string)
    (first_row : list string) (rest : list (list string)) :
  parse_marker_file str_lower str_strip filepath
    (Rows (first_row :: rest) None) h
  = Ret (VRef (length h), flat_map warning rest)
        (h ++ [ODict (foldl store ∅ (first_row :: rest))]).
Proof.
  unfold parse_marker_file. cbv beta iota delta [bind].
  rewrite alloc_run. cbv beta iota.
  rewrite parse_first_row_run, parse_rows_run. reflexivity.
Qed.

Lemma parse_marker_file_run (filepath : string) (src : reading) :
  exists r err d,
    parse_marker_file str_lower str_strip filepath src h
    = Ret (r, err) (h ++ [ODict d])
    /\ match src with
       | Rows (first_row :: rest) None =>
           r = VRef (length h) /\ d = foldl store ∅ (first_row :: rest)
       | _ => r = VNone
       end
    /\ exists rows, d = foldl store ∅ rows.
Proof.
  destruct src as [|[|first_row rest] [e|]].
  - eexists _, _, _. split; [reflexivity|]. split; [reflexivity|].
    exists []. reflexivity.
  - eexists _, _, _. split; [reflexivity|]. split; [reflexivity|].
    exists []. reflexivity.
  - eexists _, _, _. split; [reflexivity|]. split; [reflexivity|].
    exists []. reflexivity.
  - unfold parse_marker_file. cbv beta iota delta [bind].
    rewrite alloc_run. cbv beta iota.
    rewrite parse_first_row_run, parse_rows_run.
    eexists _, _, _. split; [reflexivity|]. split; [reflexivity|].
    exists (first_row :: rest). reflexivity.
  - rewrite parse_marker_file_rows.
    eexists _, _, _. split; [reflexivity|]. split; [split; reflexivity|].
    exists (first_row :: rest). reflexivity.
Qed.

Lemma is_status_inv (s : string) :
  is_status s = true ->
  exists st : MarkerStatus, VStr s = status_val st.
Proof.
  unfold is_status. rewrite orb_true_iff, !String.eqb_eq.
  intros [->| ->]; [exists present | exists absent]; reflexivity.
Qed.

Lemma store_row_panel (m : gmap string MarkerStatus) (row : list string) :
  exists m', store (status_val <$> m) row = status_val <$> m'.
Proof.
  unfold store_row. destruct row as [|name [|status more]]; eauto.
  destruct (is_status _) eqn:E; eauto.
  destruct (is_status_inv _ E) as [st ->].
  exists (<[str_strip name := st]> m). rewrite fmap_insert. reflexivity.
Qed.

Lemma foldl_store_panel (rows : list (list string))
    (m : gmap string MarkerStatus) :
  exists m', foldl store (status_val <$> m) rows = status_val <$> m'.
Proof.
  revert m. induction rows as [|row rows IH]; intros m; [eauto|].
  cbn [foldl]. destruct (store_row_panel m row) as [m1 ->]. apply IH.
Qed.

End LoaderRun.

(** X18.  Whatever the file holds and whatever [lower] and [strip] do,
    [parse_marker_file] raises nothing, changes no object that existed
    before the call, and returns either [None] or a reference to a new
    dictionary in which every status is exactly 'present' or 'absent':
    a marker panel. *)
Theorem parse_marker_file_gives_panel (str_lower str_strip : string -> string)
    (h : heap) (filepath : string) (src : reading) :
  exists r err new,
    parse_marker_file str_lower str_strip filepath src h
    = Ret (r, err) (h ++ [new])
    /\ (r = VNone
        \/ (r = VRef (length h) /\ exists m, new = panel_obj m)).
Proof.
  destruct (parse_marker_file_run str_lower str_strip h filepath src)
    as (r & err & d & Hrun & Hr & rows & Hd).
  exists r, err, (ODict d). split; [exact Hrun|].
  destruct src as [|[|first_row rest] [e|]]; try (left; exact Hr).
  right. split; [apply Hr|].
  destruct (foldl_store_panel str_lower str_strip rows ∅) as [m Hm].
  exists m. unfold panel_obj. rewrite <- Hm, fmap_empty, Hd. reflexivity.
Qed.

(** X19.  Loading and classifying compose: on a heap that holds the
    module's tables, the classifier applied to whatever dictionary
    [parse_marker_file] returned gives a label and raises nothing. *)
Theorem loaded_panel_classifies (str_lower str_strip : string -> string)
    (G : module_env) (h h' : heap) (filepath : string) (src : reading)
    (markers : loc) (err : list string) :
  globals_ok G h ->
  parse_marker_file str_lower str_strip filepath src h
  = Ret (VRef markers, err) h' ->
  exists label h'',
    classify_y_chromosome_state G (VRef markers) h' = Ret label h''.
Proof.
  intros HG Hparse.
  destruct (parse_marker_file_run str_lower str_strip h filepath src)
    as (r & err' & d & Hrun & Hr & rows & Hd).
  rewrite Hrun in Hparse. injection Hparse as -> -> <-.
  destruct src as [|[|first_row rest] [e|]]; try discriminate.
  destruct Hr as [Hr _]. injection Hr as ->.
  destruct (foldl_store_panel str_lower str_strip rows ∅) as [m Hm].
  rewrite fmap_empty, <- Hd in Hm.
  destruct (classify_run G (h ++ [ODict d]) (length h) d) as [objs Hc].
  - apply globals_ok_extend, HG.
  - apply lookup_new0.
  - eauto.
Qed.

Lemma loaded_panel_classifies_witness :
  exists label h'',
    classify_y_chromosome_state initial_env (VRef 5)
      (initial_heap
         ++ [panel_obj {[ "ZFX/ZFY" := present; "sY14" := present;
                          "sY84" := absent ]}])
    = Ret label h''.
Proof.
  apply (loaded_panel_classifies ascii_lower ascii_strip initial_env
           initial_heap _ "markers.tsv" (Rows sample_rows None) 5
           ["Warning: Invalid status 'maybe' for marker sY84"]).
  - exists 3, 0, 1, 2, 4. repeat split; reflexivity.
  - vm_compute. reflexivity.
Defined.

(** X20.  [parse_marker_file] returns [None] exactly when the file is
    not found, has no row at all, or the read fails (at any point, even
    after valid rows); the last line it then prints starts with
    "Error: ".  A file with at least one row that is read to its end
    always gives a dictionary, an empty one if no row is valid data. *)
Theorem parse_marker_file_none_iff (str_lower str_strip : string -> string)
    (h : heap) (filepath : string) (src : reading) :
  exists r err h',
    parse_marker_file str_lower str_strip filepath src h = Ret (r, err) h'
    /\ (r = VNone
        <-> src = FileNotFound \/ src = Rows [] None
            \/ exists rows e, src = Rows rows (Some e))
    /\ (r = VNone ->
        exists line, last err = Some line
                     /\ String.prefix "Error: " line = true).
Proof.
  destruct src as [|[|first_row rest] [e|]].
  - eexists _, _, _. split; [reflexivity|].
    split; [split; [intros _; left; reflexivity | reflexivity]|].
    intros _. eexists. split; reflexivity.
  - eexists _, _, _. split; [reflexivity|].
    split; [split; [intros _; right; right; eauto | reflexivity]|].
    intros _. eexists. split; reflexivity.
  - eexists _, _, _. split; [reflexivity|].
    split; [split; [intros _; right; left; reflexivity | reflexivity]|].
    intros _. eexists. split; reflexivity.
  - unfold parse_marker_file. cbv beta iota delta [bind].
    rewrite alloc_run. cbv beta iota.
    rewrite parse_first_row_run, parse_rows_run.
    eexists _, _, _. split; [reflexivity|].
    split; [split; [intros _; right; right; eauto | reflexivity]|].
    intros _. eexists. split; [apply last_snoc | reflexivity].
  - rewrite parse_marker_file_rows.
    eexists _, _, _. split; [reflexivity|]. split; [|discriminate].
    split; [discriminate|].
    intros [?|[?|(? & ? & ?)]]; discriminate.
Qed.

(** X21.  Later rows override earlier ones: appending a valid data row
    [name, status, ...] to a file sets the entry of the stripped name to
    the lower-cased, stripped status and changes nothing else -- neither
    another entry nor the warnings.  The name keeps its case. *)
Theorem later_row_overrides (str_lower str_strip : string -> string)
    (h : heap) (filepath : string) (first_row : list string)
    (rest : list (list string)) (name status : string) (more : list string) :
  is_status (str_strip (str_lower status)) = true ->
  exists d err,
    parse_marker_file str_lower str_strip filepath
      (Rows (first_row :: rest) None) h
    = Ret (VRef (length h), err) (h ++ [ODict d])
    /\ parse_marker_file str_lower str_strip filepath
         (Rows (first_row :: rest ++ [name :: status :: more]) None) h
       = Ret (VRef (length h), err)
           (h ++ [ODict (<[str_strip name
                           := VStr (str_strip (str_lower status))]> d)]).
Proof.
  intros Hs. eexists _, _. split; [apply parse_marker_file_rows|].
  rewrite parse_marker_file_rows, flat_map_app. cbn [foldl flat_map].
  rewrite foldl_app. cbn [foldl]. unfold store_row at 1, row_warning at 2.
  rewrite Hs, !app_nil_r. reflexivity.
Qed.

Lemma later_row_overrides_witness :
  exists d err,
    parse_marker_file ascii_lower ascii_strip "markers.tsv"
      (Rows ([["Marker"; "Status"]] ++ [["sY84"; "present"]]) None)
      initial_heap
    = Ret (VRef (length initial_heap), err) (initial_heap ++ [ODict d])
    /\ parse_marker_file ascii_lower ascii_strip "markers.tsv"
         (Rows (["Marker"; "Status"]
                  :: [["sY84"; "present"]] ++ [[" sY84"; "ABSENT "]]) None)
         initial_heap
       = Ret (VRef (length initial_heap), err)
           (initial_heap
              ++ [ODict (<[ascii_strip " sY84"
                          := VStr (ascii_strip (ascii_lower "ABSENT "))]> d)]).
Proof.
  apply (later_row_overrides ascii_lower ascii_strip initial_heap
           "markers.tsv" ["Marker"; "Status"] [["sY84"; "present"]]
           " sY84" "ABSENT " []).
  reflexivity.
Defined.

(** X22.  A later row that is not valid data leaves the dictionary as
    it was.  With fewer than two cells it is skipped silently; with an
    unrecognised status it adds exactly one warning line naming the
    status and the marker. *)
Theorem invalid_row_ignored (str_lower str_strip : string -> string)
    (h : heap) (filepath : string) (first_row : list string)
    (rest : list (list string)) (row : list string) :
  data_row str_lower str_strip row = false ->
  exists d err,
    parse_marker_file str_lower str_strip filepath
      (Rows (first_row :: rest) None) h
    = Ret (VRef (length h), err) (h ++ [ODict d])
    /\ parse_marker_file str_lower str_strip filepath
         (Rows (first_row :: rest ++ [row]) None) h
       = Ret (VRef (length h),
              match row with
              | name :: status :: _ =>
                  err ++ [("Warning: Invalid status '"
                           ++ str_strip (str_lower status)
                           ++ "' for marker " ++ str_strip name)%string]
              | _ => err
              end)
           (h ++ [ODict d]).
Proof.
  intros Hrow. eexists _, _. split; [apply parse_marker_file_rows|].
  rewrite parse_marker_file_rows, flat_map_app. cbn [foldl flat_map].
  rewrite foldl_app. cbn [foldl]. unfold store_row at 1, row_warning at 2.
  unfold data_row in Hrow.
  destruct row as [|name [|status more]]; rewrite ?app_nil_r; try reflexivity.
  rewrite Hrow. reflexivity.
Qed.

Lemma invalid_row_ignored_witness :
  exists d err,
    parse_marker_file ascii_lower ascii_strip "markers.tsv"
      (Rows ([["sY14"; "present"]] ++ []) None) initial_heap
    = Ret (VRef (length initial_heap), err) (initial_heap ++ [ODict d])
    /\ parse_marker_file ascii_lower ascii_strip "markers.tsv"
         (Rows (["sY14"; "present"] :: [] ++ [["sY84"; "maybe"]]) None)
         initial_heap
       = Ret (VRef (length initial_heap),
              err ++ [("Warning: Invalid status '"
                       ++ ascii_strip (ascii_lower "maybe")
                       ++ "' for marker " ++ ascii_strip "sY84")%string])
           (initial_heap ++ [ODict d]).
Proof.
  apply (invalid_row_ignored ascii_lower ascii_strip initial_heap
           "markers.tsv" ["sY14"; "present"] [] ["sY84"; "maybe"]).
  reflexivity.
Defined.

(** X23.  Header tolerance: a first row that is not valid data is
    dropped without a warning, whatever it holds -- the outcome is the
    same for any two such first rows -- and a file that consists of such
    a row only loads as the empty dictionary, not as [None]. *)
Theorem header_row_dropped (str_lower str_strip : string -> string)
    (h : heap) (filepath : string) (header header' : list string)
    (rest : list (list string)) :
  data_row str_lower str_strip header = false ->
  data_row str_lower str_strip header' = false ->
  parse_marker_file str_lower str_strip filepath (Rows (header :: rest) None) h
  = parse_marker_file str_lower str_strip filepath
      (Rows (header' :: rest) None) h
  /\ parse_marker_file str_lower str_strip filepath (Rows [header] None) h
     = Ret (VRef (length h), []) (h ++ [ODict ∅]).
Proof.
  intros H1 H2.
  assert (forall row, data_row str_lower str_strip row = false ->
                      store_row str_lower str_strip ∅ row = ∅) as Hstore.
  { intros row Hrow. unfold store_row, data_row in *.
    destruct row as [|name [|status more]]; try reflexivity.
    rewrite Hrow. reflexivity. }
  rewrite !parse_marker_file_rows. cbn [foldl flat_map].
  rewrite (Hstore header H1), (Hstore header' H2). split; reflexivity.
Qed.

Lemma header_row_dropped_witness :
  parse_marker_file ascii_lower ascii_strip "markers.tsv"
    (Rows (["Marker"; "Status"] :: [["sY14"; "present"]]) None) initial_heap
  = parse_marker_file ascii_lower ascii_strip "markers.tsv"
      (Rows ([] :: [["sY14"; "present"]]) None) initial_heap
  /\ parse_marker_file ascii_lower ascii_strip "markers.tsv"
       (Rows [["Marker"; "Status"]] None) initial_heap
     = Ret (VRef (length initial_heap), []) (initial_heap ++ [ODict ∅]).
Proof.
  apply (header_row_dropped ascii_lower ascii_strip initial_heap
           "markers.tsv" ["Marker"; "Status"] [] [["sY14"; "present"]]).
  - reflexivity.
  - reflexivity.
Defined.

Example main_sample :
  returned_label
    (main ascii_lower ascii_strip initial_env full_env
       {| marker_file := "markers.tsv"; verbose := false;
          validate_only := false |}
       (Rows sample_rows None) full_heap)
  = Some {| exit_code := 0;
            stdout := ["NO_DELETION_DETECTED"];
            stderr := ["Warning: Invalid status 'maybe' for marker sY84"] |}.
Proof. vm_compute. reflexivity. Qed.

Example main_validate_alias :
  returned_label
    (main ascii_lower ascii_strip initial_env full_env
       {| marker_file := "markers.tsv"; verbose := false;
          validate_only := true |}
       (Rows alias_rows None) full_heap)
  = Some {| exit_code := 1;
            stdout := ["Missing 1 required markers:"; "  - ZFX/ZFY"];
            stderr := [] |}.
Proof. vm_compute. reflexivity. Qed.

(** ** Running the report *)

Section ReportLoops.

Variables (h : heap) (l : loc) (m : gmap string MarkerStatus).
Hypothesis Hl : forall objs : heap, (h ++ objs) !! l = Some (panel_obj m).

Lemma report_append_run (acc : list string) (objs : list obj) (line : string) :
  list_append (VRef (length h)) (VStr line)
    (h ++ OList (VStr <$> acc) :: objs)
  = Ret tt (h ++ OList (VStr <$> (acc ++ [line])) :: objs).
Proof. rewrite list_append_new0, fmap_app. reflexivity. Qed.

Lemma append_lines_run (lines acc : list string) (objs : list obj) :
  append_lines (VRef (length h)) lines (h ++ OList (VStr <$> acc) :: objs)
  = Ret tt (h ++ OList (VStr <$> (acc ++ lines)) :: objs).
Proof.
  revert acc. induction lines as [|line lines IH]; intros acc.
  - cbn. rewrite app_nil_r. reflexivity.
  - cbn [append_lines]. cbv beta iota delta [bind].
    rewrite report_append_run, IH, <- app_assoc. reflexivity.
Qed.

Lemma get_default_text (k : string) (objs : list obj) :
  dict_get_default (VRef l) k "not_tested" (h ++ objs)
  = Ret (VStr (status_text m k)) (h ++ objs).
Proof.
  rewrite (dict_get_default_run _ _ _ (Hl objs)), lookup_fmap.
  unfold status_text. destruct (m !! k); reflexivity.
Qed.

Lemma zfxy_text_run (objs : list obj) :
  py_or_val (py_or_val (dict_get (VRef l) "ZFX/ZFY") (dict_get (VRef l) "ZFX/Y"))
            (ret (VStr "not_tested")) (h ++ objs)
  = Ret (VStr (zfxy_text m)) (h ++ objs).
Proof.
  unfold py_or_val. cbv beta iota delta [bind].
  rewrite !(dict_get_run _ _ _ (Hl objs)), !getv_panel.
  unfold zfxy_text, status_text.
  destruct (m !! "ZFX/ZFY") as [[]|]; try reflexivity.
  cbn [truthy]. rewrite (dict_get_run _ _ _ (Hl objs)), getv_panel.
  destruct (m !! "ZFX/Y") as [[]|]; reflexivity.
Qed.

Lemma control_summary_loop_run (ks acc : list string) (objs : list obj) :
  control_summary_loop (VRef (length h)) (VRef l) (VStr <$> ks)
    (h ++ OList (VStr <$> acc) :: objs)
  = Ret tt (h ++ OList (VStr <$> (acc ++ (control_line m <$> ks))) :: objs).
Proof.
  revert acc. induction ks as [|k ks IH]; intros acc.
  - cbn. rewrite app_nil_r. reflexivity.
  - cbn [fmap list_fmap control_summary_loop]. unfold control_line at 1.
    assert (py_eq (VStr k) (VStr "ZFX/ZFY") = String.eqb k "ZFX/ZFY") as ->.
    { unfold py_eq. destruct (String.eqb_spec k "ZFX/ZFY") as [->|Hne].
      - apply bool_decide_eq_true_2. reflexivity.
      - apply bool_decide_eq_false_2. congruence. }
    destruct (String.eqb k "ZFX/ZFY").
    + rewrite (bind_run _ _ _ _ _ (zfxy_text_run _)).
      cbv beta iota delta [bind the_str ret].
      rewrite report_append_run, IH, <- app_assoc. reflexivity.
    + rewrite (bind_run _ _ _ _ _ (get_default_text _ _)).
      cbv beta iota delta [bind the_str ret].
      rewrite report_append_run, IH, <- app_assoc. reflexivity.
Qed.

Lemma region_summary_loop_run (ks acc : list string) (objs : list obj) :
  region_summary_loop (VRef (length h)) (VRef l) (VStr <$> ks)
    (h ++ OList (VStr <$> acc) :: objs)
  = Ret tt (h ++ OList (VStr <$> (acc ++ (region_line m <$> ks))) :: objs).
Proof.
  revert acc. induction ks as [|k ks IH]; intros acc.
  - cbn. rewrite app_nil_r. reflexivity.
  - cbn [fmap list_fmap region_summary_loop].
    rewrite (bind_run _ _ _ _ _ (get_default_text _ _)).
    cbv beta iota delta [bind the_str ret].
    rewrite report_append_run, IH, <- app_assoc. reflexivity.
Qed.

Lemma basic_summary_loop_run (items : list (string * loc * list string))
    (acc : list string) (objs : list obj) :
  Forall (fun item => h !! item.1.2 = Some (str_list item.2)) items ->
  basic_summary_loop (VRef (length h)) (VRef l)
    ((fun item => (item.1.1, VRef item.1.2)) <$> items)
    (h ++ OList (VStr <$> acc) :: objs)
  = Ret tt
      (h ++ OList (VStr <$> (acc ++ flat_map
                               (fun item => region_lines m item.1.1 item.2)
                               items))
         :: objs).
Proof.
  intros Hitems. revert acc.
  induction Hitems as [|[[region la] ks] items Hla _ IH]; intros acc.
  - cbn. rewrite app_nil_r. reflexivity.
  - cbn [fmap list_fmap basic_summary_loop flat_map fst snd] in *.
    rewrite (bind_run _ _ _ _ _ (report_append_run _ _ _)).
    rewrite (bind_run _ _ _ _ _ (the_list_run _ _ _ (lookup_old h _ _ _ Hla))).
    rewrite (bind_run _ _ _ _ _ (region_summary_loop_run _ _ _)).
    rewrite IH. unfold region_lines at 2.
    rewrite <- !app_assoc. reflexivity.
Qed.

Lemma list_append_new1 (o0 : obj) (xs : list val) (objs : list obj) (v : val) :
  list_append (VRef (S (length h))) v (h ++ o0 :: OList xs :: objs)
  = Ret tt (h ++ o0 :: OList (xs ++ [v]) :: objs).
Proof. unfold list_append. rewrite lookup_new1, insert_new1. reflexivity. Qed.

Lemma the_list_new1 (o0 : obj) (xs : list val) (objs : list obj) :
  the_list (VRef (S (length h))) (h ++ o0 :: OList xs :: objs)
  = Ret xs (h ++ o0 :: OList xs :: objs).
Proof. apply the_list_run, lookup_new1. Qed.

Lemma list_truthy_new1 (o0 : obj) (xs : list val) (objs : list obj) :
  list_truthy (VRef (S (length h))) (h ++ o0 :: OList xs :: objs)
  = Ret (negb (bool_decide (xs = []))) (h ++ o0 :: OList xs :: objs).
Proof.
  unfold list_truthy. rewrite (bind_run _ _ _ _ _ (the_list_new1 _ _ _)).
  reflexivity.
Qed.

Lemma str_join_new0 (sep : string) (lines : list string) (objs : list obj) :
  str_join sep (VRef (length h)) (h ++ OList (VStr <$> lines) :: objs)
  = Ret (join_strs sep lines) (h ++ OList (VStr <$> lines) :: objs).
Proof.
  unfold str_join. rewrite (bind_run _ _ _ _ _ (the_list_new0 h _ _)).
  rewrite (bind_run _ _ _ _ _ (strs_of_run _ _)). reflexivity.
Qed.

Lemma missing_critical_loop_run (ks acc : list string) (o0 : obj) :
  missing_critical_loop (VRef (S (length h))) (VRef l) (VStr <$> ks)
    (h ++ [o0; OList (VStr <$> acc)])
  = Ret tt (h ++ [o0; OList (VStr <$> (acc ++ List.filter (report_untested m) ks))]).
Proof.
  revert acc. induction ks as [|k ks IH]; intros acc.
  - cbn. rewrite app_nil_r. reflexivity.
  - cbn [fmap list_fmap missing_critical_loop List.filter].
    unfold report_untested at 1.
    assert (py_eq (VStr k) (VStr "ZFX/ZFY") = String.eqb k "ZFX/ZFY") as ->.
    { unfold py_eq. destruct (String.eqb_spec k "ZFX/ZFY") as [->|Hne].
      - apply bool_decide_eq_true_2. reflexivity.
      - apply bool_decide_eq_false_2. congruence. }
    assert (forall k' objs,
              dict_contains (VRef l) (VStr k') (h ++ objs)
              = Ret (negb (bool_decide (m !! k' = None))) (h ++ objs)) as Hin.
    { intros k' objs. rewrite (dict_contains_run _ _ _ (Hl objs)), tested_panel.
      destruct (m !! k'); reflexivity. }
    destruct (String.eqb k "ZFX/ZFY").
    + unfold py_and. cbv beta iota delta [bind ret]. rewrite !Hin.
      rewrite negb_involutive.
      destruct (bool_decide (m !! "ZFX/ZFY" = None)); cbn [andb].
      * rewrite Hin, negb_involutive.
        destruct (bool_decide (m !! "ZFX/Y" = None)).
        -- rewrite list_append_new1.
           change ((VStr <$> acc) ++ [VStr k]) with ((VStr <$> acc) ++ (VStr <$> [k])).
           rewrite <- fmap_app, IH, <- app_assoc. reflexivity.
        -- apply IH.
      * apply IH.
    + cbv beta iota delta [bind ret]. rewrite Hin, negb_involutive.
      destruct (bool_decide (m !! k = None)).
      * rewrite list_append_new1.
        change ((VStr <$> acc) ++ [VStr k]) with ((VStr <$> acc) ++ (VStr <$> [k])).
        rewrite <- fmap_app, IH, <- app_assoc. reflexivity.
      * apply IH.
Qed.

Lemma missing_lines_loop_run (ks acc : list string) (objs : list obj) :
  missing_lines_loop (VRef (length h)) (VStr <$> ks)
    (h ++ OList (VStr <$> acc) :: objs)
  = Ret tt (h ++ OList (VStr <$> (acc ++ ((fun k => "  - " ++ k)%string <$> ks)))
              :: objs).
Proof.
  revert acc. induction ks as [|k ks IH]; intros acc.
  - cbn. rewrite app_nil_r. reflexivity.
  - cbn [fmap list_fmap missing_lines_loop].
    cbv beta iota delta [bind the_str ret].
    rewrite report_append_run, IH, <- app_assoc. reflexivity.
Qed.

Lemma append_recommendations_run (classification : string) (acc : list string)
    (objs : list obj) :
  append_recommendations (VRef (length h)) classification
    (h ++ OList (VStr <$> acc) :: objs)
  = Ret tt (h ++ OList (VStr <$> (acc ++ recommendations classification))
              :: objs).
Proof.
  unfold append_recommendations, recommendations.
  repeat match goal with
         | |- context [if ?b then _ else _] => destruct b
         end;
    first [apply append_lines_run | cbn; rewrite app_nil_r; reflexivity].
Qed.

End ReportLoops.

Lemma bind_assoc {A B C} (c : M A) (f : A -> M B) (g : B -> M C) (h : heap) :
  bind (bind c f) g h = bind c (fun x => bind (f x) g) h.
Proof. unfold bind. destruct (c h); reflexivity. Qed.

Lemma ret_run {A} (a : A) (h : heap) : ret a h = Ret a h.
Proof. reflexivity. Qed.

Lemma dict_items_basic (h : heap) (basic azfa azfb azfc : loc) :
  h !! basic = Some (ODict {[ "AZFa" := VRef azfa; "AZFb" := VRef azfb;
                              "AZFc" := VRef azfc ]}) ->
  dict_items (VRef basic) basic_regions h
  = Ret [("AZFa", VRef azfa); ("AZFb", VRef azfb); ("AZFc", VRef azfc)] h.
Proof.
  intros Hb. unfold dict_items.
  rewrite (bind_run _ _ _ _ _ (the_dict_run _ _ _ Hb)).
  rewrite bool_decide_eq_true_2.
  - reflexivity.
  - split.
    + apply (bool_decide_unpack _). vm_compute. exact I.
    + rewrite !dom_insert_L, dom_singleton_L. cbn. set_solver.
Qed.

Section ReportRun.

Variables (G : module_env) (R : report_env) (h : heap) (l : loc)
  (m : gmap string MarkerStatus).
Hypothesis HG : globals_ok G h.
Hypothesis HR : report_globals_ok R h.
Hypothesis Hl : h !! l = Some (panel_obj m).

Lemma report_result_eq (acc lines : list string) (o : obj) :
  acc = lines ->
  Ret (join_strs newline acc) (h ++ [OList (VStr <$> acc); o])
  = Ret (join_strs newline lines) (h ++ [OList (VStr <$> lines); o]).
Proof. intros ->. reflexivity. Qed.

(** The report is the text of [report_lines]; the call allocates the
    two lists it builds and changes nothing else. *)
Lemma generate_report_run (classification : string) :
  generate_report G R (VRef l) classification h
  = Ret (join_strs newline (report_lines m classification))
        (h ++ [OList (VStr <$> report_lines m classification);
               OList (VStr <$> report_missing m)]).
Proof.
  destruct HG as (basic & azfa & azfb & azfc & expected
                  & HB & Hb & Ha & Hb' & Hc & _).
  destruct HR as (control & required & HC & Hcl & HA & Hrl).
  pose proof (fun objs => lookup_old h objs l _ Hl) as Hl'.
  unfold generate_report. rewrite HB, HC, HA.
  rewrite (bind_run _ _ _ _ _ (alloc_run h _)).
  change (OList []) with (OList (VStr <$> [])).
  do 4 rewrite (bind_run _ _ _ _ _ (report_append_run h _ _ _)).
  rewrite (bind_run _ _ _ _ _ (the_list_run _ _ _ (lookup_old h _ _ _ Hcl))).
  rewrite (bind_run _ _ _ _ _ (control_summary_loop_run h l m Hl' _ _ _)).
  rewrite (bind_run _ _ _ _ _ (report_append_run h _ _ _)).
  rewrite (bind_run _ _ _ _ _ (dict_items_basic _ _ _ _ _ (lookup_old h _ _ _ Hb))).
  rewrite (bind_run _ _ _ _ _
             (basic_summary_loop_run h l m Hl'
                [("AZFa", azfa, AZFa_basic); ("AZFb", azfb, AZFb_basic);
                 ("AZFc", azfc, AZFc_basic)] _ _
                ltac:(repeat constructor; assumption))).
  rewrite (bind_run _ _ _ _ _ (report_append_run h _ _ _)).
  rewrite (bind_run _ _ _ _ _ (append_recommendations_run h _ _ _)).
  rewrite (bind_run _ _ _ _ _ (alloc_run1 h _ _)).
  rewrite (bind_run _ _ _ _ _ (the_list_run _ _ _ (lookup_old h _ _ _ Hrl))).
  change (OList []) with (OList (VStr <$> [])).
  rewrite (bind_run _ _ _ _ _ (missing_critical_loop_run h l m Hl' _ _ _)).
  rewrite (bind_run _ _ _ _ _ (list_truthy_new1 h _ _ _)).
  rewrite app_nil_l. fold (report_missing m).
  unfold report_lines, report_head, warning_block.
  destruct (report_missing m) as [|k ks] eqn:Hmiss.
  - rewrite bool_decide_eq_true_2 by reflexivity.
    cbv beta iota delta [negb].
    rewrite (bind_run _ _ _ _ _ (ret_run _ _)).
    rewrite (bind_run _ _ _ _ _ (report_append_run h _ _ _)).
    rewrite str_join_new0. apply report_result_eq.
    cbn [flat_map fst snd]. rewrite <- !app_assoc. reflexivity.
  - rewrite bool_decide_eq_false_2 by discriminate.
    cbv beta iota delta [negb].
    rewrite !bind_assoc.
    rewrite (bind_run _ _ _ _ _ (report_append_run h _ _ _)).
    rewrite !bind_assoc.
    rewrite (bind_run _ _ _ _ _ (the_list_new1 h _ _ _)).
    rewrite !bind_assoc.
    rewrite (bind_run _ _ _ _ _ (missing_lines_loop_run h _ _ _)).
    rewrite (bind_run _ _ _ _ _ (report_append_run h _ _ _)).
    rewrite (bind_run _ _ _ _ _ (report_append_run h _ _ _)).
    rewrite str_join_new0. apply report_result_eq.
    cbn [flat_map fst snd]. rewrite <- !app_assoc. reflexivity.
Qed.

End ReportRun.

(** ** Running the program *)

Section MainRun.

Variables str_lower str_strip : string -> string.

Local Abbreviation store := (store_row str_lower str_strip).
Local Abbreviation is_data := (data_row str_lower str_strip).

Lemma store_row_nonempty (d : gmap string val) (row : list string) :
  d <> ∅ \/ is_data row = true -> store d row <> ∅.
Proof.
  unfold store_row, data_row. destruct row as [|name [|status more]];
    try (intros [?|?]; [assumption|discriminate]).
  destruct (is_status _); [intros _; apply insert_non_empty|].
  intros [?|?]; [assumption|discriminate].
Qed.

Lemma foldl_store_nonempty (rows : list (list string)) (d : gmap string val) :
  d <> ∅ \/ existsb is_data rows = true -> foldl store d rows <> ∅.
Proof.
  revert d. induction rows as [|row rows IH]; intros d.
  - cbn. intros [?|?]; [assumption|discriminate].
  - cbn [foldl existsb]. rewrite orb_true_iff. intros H. apply IH.
    destruct H as [H|[H|H]]; [left|left|right; exact H];
      apply store_row_nonempty; tauto.
Qed.


Lemma obj_truthy_new0 (h : heap) (d : gmap string val) (objs : list obj) :
  obj_truthy (VRef (length h)) (h ++ ODict d :: objs)
  = Ret (negb (bool_decide (d = ∅))) (h ++ ODict d :: objs).
Proof. unfold obj_truthy. rewrite lookup_new0. reflexivity. Qed.

Lemma validate_missing_run (h : heap) (l : loc) (m : gmap string MarkerStatus)
    (ks : list string) :
  h !! l = Some (panel_obj m) ->
  validate_missing (VRef l) (VStr <$> ks) h
  = Ret (VStr <$> List.filter (fun k => bool_decide (m !! k = None)) ks) h.
Proof.
  intros Hl. induction ks as [|k ks IH]; [reflexivity|].
  cbn [fmap list_fmap validate_missing List.filter].
  rewrite (bind_run _ _ _ _ _ (dict_contains_run _ _ _ Hl _)).
  rewrite (bind_run _ _ _ _ _ IH). rewrite tested_panel.
  destruct (m !! k); reflexivity.
Qed.

(** The loaded dictionary of a file that loads, as a panel. *)
Lemma parse_loads (h : heap) (filepath : string) (src : reading) :
  loads str_lower str_strip src = true ->
  exists m err,
    parse_marker_file str_lower str_strip filepath src h
    = Ret (VRef (length h), err) (h ++ [panel_obj m])
    /\ m <> ∅.
Proof.
  destruct src as [|[|first_row rest] [e|]]; try discriminate.
  cbn [loads]. intros Hdata.
  destruct (foldl_store_panel str_lower str_strip (first_row :: rest) ∅)
    as [m Hm].
  rewrite fmap_empty in Hm.
  exists m. eexists. rewrite parse_marker_file_rows, Hm.
  split; [reflexivity|]. intros ->.
  apply (foldl_store_nonempty (first_row :: rest) ∅); [right; exact Hdata|].
  rewrite Hm. apply fmap_empty.
Qed.


End MainRun.



(** X25.  Classification mode: for a file that loads, [main] ends with
    exit status 0 and prints one text: without [--verbose] the label the
    classifier returns for the loaded panel, with it the report for that
    label.  The status is 0 whatever the label is, the control-failure
    and methodological-error labels included. *)
Theorem main_classifies (str_lower str_strip : string -> string)
    (G : module_env) (R : report_env) (h : heap) (args : arguments)
    (src : reading) :
  globals_ok G h ->
  report_globals_ok R h ->
  loads str_lower str_strip src = true ->
  validate_only args = false ->
  exists m err label h1 h2,
    parse_marker_file str_lower str_strip (marker_file args) src h
    = Ret (VRef (length h), err) (h ++ [panel_obj m])
    /\ classify_y_chromosome_state G (VRef (length h)) (h ++ [panel_obj m])
       = Ret label h1
    /\ main str_lower str_strip G R args src h
       = Ret {| exit_code := 0;
                stdout := [if verbose args then
                             join_strs newline (report_lines m label)
                           else label];
                stderr := err |} h2.
Proof.
  intros HG HR Hsrc Hv.
  destruct (parse_loads str_lower str_strip h (marker_file args) src Hsrc)
    as (m & err & Hparse & Hne).
  assert (globals_ok G (h ++ [panel_obj m])) as HG1
    by apply globals_ok_extend, HG.
  assert ((h ++ [panel_obj m]) !! length h = Some (panel_obj m)) as Hl1
    by apply lookup_new0.
  destruct (classify_run G _ _ _ HG1 Hl1) as [objs Hrun].
  assert (report_globals_ok R ((h ++ [panel_obj m]) ++ objs)) as HR2.
  { destruct HR as (control & required & HR). exists control, required.
    intuition auto using lookup_old. }
  assert (main str_lower str_strip G R args src h
            = (classification <-
                 classify_y_chromosome_state G (VRef (length h)) ;;
               if verbose args then
                 report <- generate_report G R (VRef (length h))
                             classification ;;
                 ret {| exit_code := 0; stdout := [report]; stderr := err |}
               else
                 ret {| exit_code := 0; stdout := [classification];
                        stderr := err |}) (h ++ [panel_obj m])) as Hmain.
  { unfold main. rewrite (bind_run _ _ _ _ _ Hparse).
    unfold panel_obj at 1.
    rewrite (bind_run _ _ _ _ _ (obj_truthy_new0 _ _ _)).
    rewrite bool_decide_eq_false_2
      by (intros E; apply Hne; apply fmap_empty_inv in E; exact E).
    cbv beta iota delta [negb]. rewrite Hv. reflexivity. }
  rewrite (bind_run _ _ _ _ _ Hrun) in Hmain.
  exists m, err, (label_value (status_val <$> m)).
  destruct (verbose args).
  - rewrite (bind_run _ _ _ _ _
               (generate_report_run G R _ (length h) m
                  (globals_ok_extend _ _ _ HG1) HR2
                  (lookup_old _ _ _ _ Hl1) _)) in Hmain.
    eexists _, _. split; [exact Hparse|]. split; [exact Hrun|]. exact Hmain.
  - eexists _, _. split; [exact Hparse|]. split; [exact Hrun|]. exact Hmain.
Qed.

Lemma main_classifies_witness :
  exists m err label h1 h2,
    parse_marker_file ascii_lower ascii_strip "markers.tsv"
      (Rows sample_rows None) full_heap
    = Ret (VRef (length full_heap), err) (full_heap ++ [panel_obj m])
    /\ classify_y_chromosome_state initial_env (VRef (length full_heap))
         (full_heap ++ [panel_obj m])
       = Ret label h1
    /\ main ascii_lower ascii_strip initial_env full_env
         {| marker_file := "markers.tsv"; verbose := false;
            validate_only := false |}
         (Rows sample_rows None) full_heap
       = Ret {| exit_code := 0; stdout := [label]; stderr := err |} h2.
Proof.
  apply (main_classifies ascii_lower ascii_strip initial_env full_env full_heap
           {| marker_file := "markers.tsv"; verbose := false;
              validate_only := false |}
           (Rows sample_rows None)).
  - exists 3, 0, 1, 2, 4. repeat split; reflexivity.
  - exists 5, 6. repeat split; reflexivity.
  - reflexivity.
  - reflexivity.
Defined.


(** X26.  [--validate-only] checks the 21 required names as they are
    spelled: for a file that loads, [main] ends with status 0 and the
    line "All required markers are present." exactly when every name of
    [ALL_REQUIRED_MARKERS] is a key of the loaded panel; otherwise with
    status 1 after listing the missing names in table order.  A panel
    without the key ZFX/ZFY fails even when it holds ZFX/Y, the spelling
    the classifier and the report accept. *)
Theorem main_validate_only (str_lower str_strip : string -> string)
    (G : module_env) (R : report_env) (h : heap) (args : arguments)
    (src : reading) :
  report_globals_ok R h ->
  loads str_lower str_strip src = true ->
  validate_only args = true ->
  exists m err h1,
    parse_marker_file str_lower str_strip (marker_file args) src h
    = Ret (VRef (length h), err) (h ++ [panel_obj m])
    /\ main str_lower str_strip G R args src h
       = Ret match validate_missing_names m with
             | [] =>
                 {| exit_code := 0;
                    stdout := ["All required markers are present."];
                    stderr := err |}
             | missing =>
                 {| exit_code := 1;
                    stdout := ("Missing " ++ pretty (length missing)
                               ++ " required markers:")%string
                              :: ((fun k => "  - " ++ k)%string <$> missing);
                    stderr := err |}
             end h1
    /\ (m !! "ZFX/ZFY" = None -> validate_missing_names m <> []).
Proof.
  intros HR Hsrc Hv.
  destruct (parse_loads str_lower str_strip h (marker_file args) src Hsrc)
    as (m & err & Hparse & Hne).
  destruct HR as (control & required & _ & _ & HA & Hrl).
  exists m, err,
    (h ++ [panel_obj m; OList (VStr <$> validate_missing_names m)]).
  split; [exact Hparse|]. split.
  - unfold main. rewrite (bind_run _ _ _ _ _ Hparse).
    unfold panel_obj at 1.
    rewrite (bind_run _ _ _ _ _ (obj_truthy_new0 _ _ _)).
    rewrite bool_decide_eq_false_2
      by (intros E; apply Hne; apply fmap_empty_inv in E; exact E).
    cbv beta iota delta [negb]. rewrite Hv, HA. fold (panel_obj m).
    rewrite (bind_run _ _ _ _ _ (the_list_run _ _ _ (lookup_old h _ _ _ Hrl))).
    rewrite (bind_run _ _ _ _ _
               (validate_missing_run _ _ m _ (lookup_new0 h _ _))).
    fold (validate_missing_names m).
    rewrite (bind_run _ _ _ _ _ (alloc_run1 h _ _)).
    rewrite (bind_run _ _ _ _ _ (list_truthy_new1 h _ _ _)).
    destruct (validate_missing_names m) as [|k ks].
    + reflexivity.
    + rewrite bool_decide_eq_false_2 by discriminate.
      cbv beta iota delta [negb].
      rewrite (bind_run _ _ _ _ _ (the_list_new1 h _ _ _)).
      rewrite (bind_run _ _ _ _ _ (strs_of_run _ _)).
      rewrite length_fmap. reflexivity.
  - intros Hz E.
    assert ("ZFX/ZFY" ∈ validate_missing_names m) as Hin.
    { apply list_elem_of_In, filter_In. split.
      - vm_compute. tauto.
      - rewrite Hz. reflexivity. }
    rewrite E in Hin. inversion Hin.
Qed.

Lemma main_validate_only_witness :
  exists m err h1,
    parse_marker_file ascii_lower ascii_strip "markers.tsv"
      (Rows alias_rows None) full_heap
    = Ret (VRef (length full_heap), err) (full_heap ++ [panel_obj m])
    /\ main ascii_lower ascii_strip initial_env full_env
         {| marker_file := "markers.tsv"; verbose := false;
            validate_only := true |}
         (Rows alias_rows None) full_heap
       = Ret match validate_missing_names m with
             | [] =>
                 {| exit_code := 0;
                    stdout := ["All required markers are present."];
                    stderr := err |}
             | missing =>
                 {| exit_code := 1;
                    stdout := ("Missing " ++ pretty (length missing)
                               ++ " required markers:")%string
                              :: ((fun k => "  - " ++ k)%string <$> missing);
                    stderr := err |}
             end h1
    /\ (m !! "ZFX/ZFY" = None -> validate_missing_names m <> []).
Proof.
  apply (main_validate_only ascii_lower ascii_strip initial_env full_env
           full_heap
           {| marker_file := "markers.tsv"; verbose := false;
              validate_only := true |}
           (Rows alias_rows None)).
  - exists 5, 6. repeat split; reflexivity.
  - reflexivity.
  - reflexivity.
Defined.

(** ** Properties of the report *)

Lemma append_cons (c : ascii) (s t : string) :
  (String c s ++ t)%string = String c (s ++ t)%string.
Proof. reflexivity. Qed.

Lemma prefix_app (s t : string) : String.prefix s (s ++ t)%string = true.
Proof.
  induction s as [|c s IH]; [destruct t; reflexivity|].
  rewrite append_cons. simpl.
  destruct (ascii_dec c c) as [_|Hne]; [exact IH | contradiction].
Qed.

Lemma prefix_app_l (a s t : string) :
  String.prefix s t = true -> String.prefix (a ++ s)%string (a ++ t)%string = true.
Proof.
  intros H. induction a as [|c a IH]; [exact H|].
  rewrite !append_cons. simpl.
  destruct (ascii_dec c c) as [_|Hne]; [exact IH | contradiction].
Qed.

Lemma join_strs_cons2 (sep a b : string) (rest : list string) :
  join_strs sep (a :: b :: rest) = (a ++ sep ++ join_strs sep (b :: rest))%string.
Proof. reflexivity. Qed.

Lemma string_app_assoc (a b c : string) :
  ((a ++ b) ++ c = a ++ (b ++ c))%string.
Proof.
  induction a as [|x a IH]; [reflexivity|].
  rewrite !append_cons. f_equal. exact IH.
Qed.

(** X27.  [generate_report] raises nothing for any panel and any
    classification text, and changes no object that existed before the
    call.  The text it returns opens with the title line, an empty line
    and the line "CLASSIFICATION: " followed by the classification as it
    was given. *)
Theorem generate_report_opening (G : module_env) (R : report_env) (h : heap)
    (l : loc) (m : gmap string MarkerStatus) (classification : string) :
  globals_ok G h ->
  report_globals_ok R h ->
  h !! l = Some (panel_obj m) ->
  exists report objs,
    generate_report G R (VRef l) classification h = Ret report (h ++ objs)
    /\ String.prefix
         ("=== Y-CHROMOSOMAL MICRODELETION ANALYSIS REPORT ===" ++ newline
          ++ newline ++ "CLASSIFICATION: " ++ classification ++ newline)%string
         report = true.
Proof.
  intros HG HR Hl. eexists _, _.
  split; [apply (generate_report_run G R h l m HG HR Hl)|].
  unfold report_lines, report_head.
  cbn [app]. do 2 rewrite join_strs_cons2.
  rewrite !string_app_assoc.
  repeat apply prefix_app_l. apply prefix_app.
Qed.

Lemma generate_report_opening_witness :
  exists report objs,
    generate_report initial_env full_env (VRef 7) "NO_DELETION_DETECTED"
      (full_heap ++ [panel_obj scenario2])
    = Ret report ((full_heap ++ [panel_obj scenario2]) ++ objs)
    /\ String.prefix
         ("=== Y-CHROMOSOMAL MICRODELETION ANALYSIS REPORT ===" ++ newline
          ++ newline ++ "CLASSIFICATION: " ++ "NO_DELETION_DETECTED"
          ++ newline)%string
         report = true.
Proof.
  apply (generate_report_opening initial_env full_env
           (full_heap ++ [panel_obj scenario2]) 7 scenario2).
  - exists 3, 0, 1, 2, 4. repeat split; reflexivity.
  - exists 5, 6. repeat split; reflexivity.
  - reflexivity.
Defined.

Lemma filter_nil_iff {A} (f : A -> bool) (xs : list A) :
  List.filter f xs = [] <-> forall x, x ∈ xs -> f x = false.
Proof.
  induction xs as [|x xs IH]; cbn [List.filter].
  - split; [intros _ x Hx; inversion Hx | reflexivity].
  - destruct (f x) eqn:E.
    + split; [discriminate|]. intros H.
      rewrite (H x) in E by apply list_elem_of_here. discriminate.
    + rewrite IH. split.
      * intros H y Hy. apply elem_of_cons in Hy as [->|Hy]; auto.
      * intros H y Hy. apply H, list_elem_of_further, Hy.
Qed.

Lemma report_untested_false (m : gmap string MarkerStatus) (k : string) :
  report_untested m k = false
  <-> if String.eqb k "ZFX/ZFY" then
        is_Some (m !! "ZFX/ZFY") \/ is_Some (m !! "ZFX/Y")
      else is_Some (m !! k).
Proof.
  unfold report_untested. destruct (String.eqb k "ZFX/ZFY").
  - rewrite andb_false_iff, !bool_decide_eq_false.
    rewrite <- !not_eq_None_Some. reflexivity.
  - rewrite bool_decide_eq_false, <- not_eq_None_Some. reflexivity.
Qed.

(** X28.  The report's warning about untested markers accepts either
    spelling of the control marker: the text ends with the warning
    block followed by the closing rule, and the block is empty exactly
    when ZFX/ZFY or ZFX/Y is a key and every other name of
    [ALL_REQUIRED_MARKERS] is a key. *)
Theorem report_warning_alias_aware (G : module_env) (R : report_env)
    (h : heap) (l : loc) (m : gmap string MarkerStatus)
    (classification : string) :
  globals_ok G h ->
  report_globals_ok R h ->
  h !! l = Some (panel_obj m) ->
  exists report objs body,
    generate_report G R (VRef l) classification h = Ret report (h ++ objs)
    /\ report
       = join_strs newline
           (body ++ warning_block m ++ [(newline ++ str_repeat "=" 50)%string])
    /\ (warning_block m = []
        <-> (is_Some (m !! "ZFX/ZFY") \/ is_Some (m !! "ZFX/Y"))
            /\ forall k, k ∈ all_required_markers -> k <> "ZFX/ZFY" ->
                         is_Some (m !! k)).
Proof.
  intros HG HR Hl.
  exists (join_strs newline (report_lines m classification)).
  eexists.
  exists (report_head m classification ++ recommendations classification).
  split; [apply (generate_report_run G R h l m HG HR Hl)|].
  split; [unfold report_lines; rewrite <- app_assoc; reflexivity|].
  assert (warning_block m = [] <-> report_missing m = []) as ->.
  { unfold warning_block. destruct (report_missing m); [tauto|].
    split; discriminate. }
  unfold report_missing. rewrite filter_nil_iff.
  split.
  - intros H. split.
    + specialize (H "ZFX/ZFY"). rewrite report_untested_false in H.
      apply H. apply elem_of_existsb. reflexivity.
    + intros k Hk Hne. specialize (H k Hk).
      rewrite report_untested_false in H.
      destruct (String.eqb_spec k "ZFX/ZFY"); [contradiction | exact H].
  - intros [Hz Hk] k Hin. rewrite report_untested_false.
    destruct (String.eqb_spec k "ZFX/ZFY"); [exact Hz | apply Hk; assumption].
Qed.

Lemma report_warning_alias_aware_witness :
  exists report objs body,
    generate_report initial_env full_env (VRef 7) "NO_DELETION_DETECTED"
      (full_heap ++ [panel_obj scenario2])
    = Ret report ((full_heap ++ [panel_obj scenario2]) ++ objs)
    /\ report
       = join_strs newline
           (body ++ warning_block scenario2
                 ++ [(newline ++ str_repeat "=" 50)%string])
    /\ (warning_block scenario2 = []
        <-> (is_Some (scenario2 !! "ZFX/ZFY") \/ is_Some (scenario2 !! "ZFX/Y"))
            /\ forall k, k ∈ all_required_markers -> k <> "ZFX/ZFY" ->
                         is_Some (scenario2 !! k)).
Proof.
  apply (report_warning_alias_aware initial_env full_env
           (full_heap ++ [panel_obj scenario2]) 7 scenario2).
  - exists 3, 0, 1, 2, 4. repeat split; reflexivity.
  - exists 5, 6. repeat split; reflexivity.
  - reflexivity.
Defined.
